(** * SanityLang interpreter: a shallow embedding of the runtime core

    The development follows the Python sources file by file:

    - [Py]       the Python data the interpreter leans on: results that may
                 raise, [int]/[float] numbers, insertion-ordered [dict]s,
                 sets, a few [str] helpers;
    - [Types]    [sanity/types.py]: [SanValue], [coerce], [is_truthy], the
                 equality helpers;
    - [SP]       [sanity/sanity_points.py]: [SanityTracker];
    - [Vars]     [sanity/variables.py]: [Variable], [Environment];
    - [Ast]      the statement and expression nodes of [sanity/ast_nodes.py]
                 that the executor fragment below dispatches on;
    - [Runtime]  [sanity/runtime.py] and [sanity/runtime_statements.py]:
                 the [Interpreter] state, [evaluate], [execute] and the
                 statement executors.

    Python objects that are mutated in place and shared ([Variable],
    [Environment]) live in two heaps of the interpreter state and are
    referred to by address.  [SanValue]s are kept by value: the fragment has
    no operation that mutates a value in place.  Exceptions are outcomes of
    the interpreter monad; [BreakSignal] and [ReturnSignal] are exceptions,
    as in the source.  Calls to [random] read an explicit oracle. *)

From Stdlib Require Import ZArith List String Ascii Bool Lia.
From Stdlib Require Import Floats DecimalString.
Import ListNotations.

Set Implicit Arguments.
Set Warnings "-register-all".
Open Scope string_scope.
Open Scope Z_scope.

(* ================================================================== *)
(** * Python data *)
(* ================================================================== *)

Module Py.

(** A Python computation that returns or raises a built-in exception, named
    by its class ([ValueError], [OverflowError], ...). *)
Inductive res (A : Type) : Type :=
| Ok (a : A)
| Err (exc : string).
Arguments Ok {A} a.
Arguments Err {A} exc.

(** ** Numbers: [int] is unbounded, [float] is binary64 *)

Inductive num : Type :=
| PInt (z : Z)
| PFloat (f : float).

(** [float(z)] for an [int]: correctly rounded, [OverflowError] when the
    magnitude exceeds the binary64 range. *)
Definition Z2float (z : Z) : float :=
  SF2Prim (binary_normalize prec emax z 0 false).

Definition float_of_int (z : Z) : res float :=
  let f := Z2float z in
  if PrimFloat.is_infinity f then Err "OverflowError" else Ok f.

Definition to_float (n : num) : res float :=
  match n with
  | PInt z => float_of_int z
  | PFloat f => Ok f
  end.

(** [int(x)]: truncation toward zero; [ValueError] on NaN and
    [OverflowError] on an infinity. *)
Definition int_of_float (f : float) : res Z :=
  match Prim2SF f with
  | S754_zero _ => Ok 0
  | S754_infinity _ => Err "OverflowError"
  | S754_nan => Err "ValueError"
  | S754_finite s m e =>
      let a := if 0 <=? e then Z.pos m * 2 ^ e else Z.pos m / 2 ^ (- e) in
      Ok (if s then - a else a)
  end.

Definition to_int (n : num) : res Z :=
  match n with
  | PInt z => Ok z
  | PFloat f => int_of_float f
  end.

(** Python compares an [int] with a [float] exactly. [None] is NaN. *)
Definition float_cmp_Z (f : float) (z : Z) : option comparison :=
  match Prim2SF f with
  | S754_nan => None
  | S754_zero _ => Some (0 ?= z)
  | S754_infinity s => Some (if s then Lt else Gt)
  | S754_finite s m e =>
      let v := if s then Z.neg m else Z.pos m in
      if 0 <=? e then Some (v * 2 ^ e ?= z) else Some (v ?= z * 2 ^ (- e))
  end.

Definition float_cmp (a b : float) : option comparison :=
  match PrimFloat.compare a b with
  | FEq => Some Eq
  | FLt => Some Lt
  | FGt => Some Gt
  | FNotComparable => None
  end.

Definition num_cmp (a b : num) : option comparison :=
  match a, b with
  | PInt x, PInt y => Some (x ?= y)
  | PInt x, PFloat g => option_map CompOpp (float_cmp_Z g x)
  | PFloat f, PInt y => float_cmp_Z f y
  | PFloat f, PFloat g => float_cmp f g
  end.

Definition num_eqb (a b : num) : bool :=
  match num_cmp a b with Some Eq => true | _ => false end.
Definition num_ltb (a b : num) : bool :=
  match num_cmp a b with Some Lt => true | _ => false end.
Definition num_leb (a b : num) : bool :=
  match num_cmp a b with Some Lt | Some Eq => true | _ => false end.
Definition num_gtb (a b : num) : bool := num_ltb b a.
Definition num_geb (a b : num) : bool := num_leb b a.

Definition num_is_zero (a : num) : bool := num_eqb a (PInt 0).

(** Binary arithmetic: [int] with [int] stays exact, anything else is
    carried out on floats. *)
Definition arith (fi : Z -> Z -> Z) (ff : float -> float -> float)
    (a b : num) : res num :=
  match a, b with
  | PInt x, PInt y => Ok (PInt (fi x y))
  | _, _ =>
      match to_float a, to_float b with
      | Ok f, Ok g => Ok (PFloat (ff f g))
      | Err e, _ => Err e
      | _, Err e => Err e
      end
  end.

Definition num_add := arith Z.add PrimFloat.add.
Definition num_sub := arith Z.sub PrimFloat.sub.
Definition num_mul := arith Z.mul PrimFloat.mul.

Definition num_neg (a : num) : num :=
  match a with
  | PInt z => PInt (- z)
  | PFloat f => PFloat (PrimFloat.opp f)
  end.

Definition num_abs (a : num) : num :=
  match a with
  | PInt z => PInt (Z.abs z)
  | PFloat f => PFloat (PrimFloat.abs f)
  end.

(** [a / b] on two [int]s is the correctly rounded quotient: the quotient
    is taken with enough extra bits and a sticky bit, then rounded once. *)
Definition int_true_div (a b : Z) : res float :=
  let k := Z.max 0 (Z.log2 (Z.abs b) - Z.log2 (Z.abs a) + 64) in
  let n := Z.abs a * 2 ^ k in
  let q := n / Z.abs b in
  let sticky := if n mod Z.abs b =? 0 then 0 else 1 in
  let m := 2 * q + sticky in
  let m := if (a <? 0) && (0 <? b) || (0 <? a) && (b <? 0) then - m else m in
  let f := SF2Prim (binary_normalize prec emax m (- k - 1) false) in
  if PrimFloat.is_infinity f then Err "OverflowError" else Ok f.

(** The divisor is known to be non-zero where this is called. *)
Definition num_truediv (a b : num) : res num :=
  match a, b with
  | PInt x, PInt y =>
      match int_true_div x y with Ok f => Ok (PFloat f) | Err e => Err e end
  | _, _ =>
      match to_float a, to_float b with
      | Ok f, Ok g => Ok (PFloat (PrimFloat.div f g))
      | Err e, _ => Err e
      | _, Err e => Err e
      end
  end.

(** The literal [0.1], [0.2], ... as Python reads them. *)
Definition f0_01 : float := 0x1.47ae147ae147bp-7%float.
Definition f0_05 : float := 0x1.999999999999ap-5%float.
Definition f0_1 : float := 0x1.999999999999ap-4%float.
Definition f0_15 : float := 0x1.3333333333333p-3%float.
Definition f0_2 : float := 0x1.999999999999ap-3%float.
Definition f0_5 : float := 0x1p-1%float.

(** ** [str] helpers *)

Definition str_of_int (z : Z) : string := NilZero.string_of_int (Z.to_int z).

Definition slen (s : string) : Z := Z.of_nat (String.length s).

(** [s[:-1]] *)
Fixpoint drop_last (s : string) : string :=
  match s with
  | EmptyString => EmptyString
  | String c EmptyString => EmptyString
  | String c r => String c (drop_last r)
  end.

(** [sep.join(l)] *)
Fixpoint join (sep : string) (l : list string) : string :=
  match l with
  | [] => ""
  | [x] => x
  | x :: r => x ++ sep ++ join sep r
  end.

(** ** Insertion-ordered dictionaries *)

Section Dict.
Context {K V : Type} (keq : K -> K -> bool).

Definition dict := list (K * V).

Fixpoint dget (d : dict) (k : K) : option V :=
  match d with
  | [] => None
  | (k', v) :: r => if keq k k' then Some v else dget r k
  end.

Definition dmem (d : dict) (k : K) : bool :=
  match dget d k with Some _ => true | None => false end.

(** [d[k] = v]: an existing key keeps its place, a new one goes last. *)
Fixpoint dset (d : dict) (k : K) (v : V) : dict :=
  match d with
  | [] => [(k, v)]
  | (k', v') :: r => if keq k k' then (k, v) :: r else (k', v') :: dset r k v
  end.

(** [d.pop(k, None)] *)
Fixpoint dpop (d : dict) (k : K) : dict :=
  match d with
  | [] => []
  | (k', v') :: r => if keq k k' then r else (k', v') :: dpop r k
  end.

(** [d.update(e)] *)
Definition dupdate (d e : dict) : dict :=
  fold_left (fun acc kv => dset acc (fst kv) (snd kv)) e d.

Definition dkeys (d : dict) : list K := map fst d.
Definition dvalues (d : dict) : list V := map snd d.
End Dict.

(** ** Sets of strings

    A [set] is kept as a duplicate-free list in insertion order.  Python
    leaves the iteration order of a set open; statements below that depend
    on that order say so. *)

Definition sset := list string.

Definition smem (s : sset) (x : string) : bool :=
  existsb (String.eqb x) s.
Definition sadd (s : sset) (x : string) : sset :=
  if smem s x then s else (s ++ [x])%list.
Definition sdiscard (s : sset) (x : string) : sset :=
  filter (fun y => negb (String.eqb x y)) s.

Definition list_eqb {A} (eqb : A -> A -> bool) : list A -> list A -> bool :=
  fix go l1 l2 :=
    match l1, l2 with
    | [], [] => true
    | x :: r1, y :: r2 => eqb x y && go r1 r2
    | _, _ => false
    end.

(** ** Updating a slot of a heap *)

Fixpoint lupd {A} (l : list A) (i : nat) (x : A) : list A :=
  match l, i with
  | [], _ => []
  | _ :: r, O => x :: r
  | y :: r, S j => y :: lupd r j x
  end.

(** ** The [random] module

    Every call to [random] consumes the next integer of an oracle.
    [random.random()] is [k / 2**53] for a 53-bit [k]; [choice], [randint]
    and [sample] reduce the integer to an index. *)

Record Rng : Type := mkRng { oracle : nat -> Z; cursor : nat }.

Definition draw (g : Rng) : Z * Rng :=
  (oracle g (cursor g), mkRng (oracle g) (S (cursor g))).

Definition two53 : float := 0x1p53%float.

Definition random (g : Rng) : float * Rng :=
  let '(k, g) := draw g in
  (PrimFloat.div (Z2float (k mod 2 ^ 53)) two53, g).

(** [random.randint(a, b)], [a <= b] *)
Definition randint (a b : Z) (g : Rng) : Z * Rng :=
  let '(k, g) := draw g in (a + k mod (b - a + 1), g).

(** [random.choice(l)] on a non-empty list *)
Definition choice {A} (l : list A) (dflt : A) (g : Rng) : A * Rng :=
  let '(k, g) := draw g in
  (nth (Z.to_nat (k mod Z.of_nat (List.length l))) l dflt, g).

(** [random.uniform(a, b)] is [a + (b - a) * random()] *)
Definition uniform (a b : float) (g : Rng) : float * Rng :=
  let '(r, g) := random g in
  (PrimFloat.add a (PrimFloat.mul (PrimFloat.sub b a) r), g).

Fixpoint remove_nth {A} (i : nat) (l : list A) : list A :=
  match l, i with
  | [], _ => []
  | _ :: r, O => r
  | y :: r, S j => y :: remove_nth j r
  end.

(** [random.sample(l, 2)] on a list of at least two elements *)
Definition sample2 {A} (l : list A) (dflt : A) (g : Rng) : A * A * Rng :=
  let '(k1, g) := draw g in
  let i := Z.to_nat (k1 mod Z.of_nat (List.length l)) in
  let rest := remove_nth i l in
  let '(k2, g) := draw g in
  let j := Z.to_nat (k2 mod Z.of_nat (List.length rest)) in
  (nth i l dflt, nth j rest dflt, g).

End Py.

(* ================================================================== *)
(** * sanity/types.py *)
(* ================================================================== *)

Module Types.
Import Py.

Inductive SanType : Type :=
| NUMBER | WORD | YEP | NOPE | DUNNO | VOID | LIST | BLOB
| FUNCTION | PERSONALITY | INSTANCE.

Definition SanType_eqb (a b : SanType) : bool :=
  match a, b with
  | NUMBER, NUMBER | WORD, WORD | YEP, YEP | NOPE, NOPE | DUNNO, DUNNO
  | VOID, VOID | LIST, LIST | BLOB, BLOB | FUNCTION, FUNCTION
  | PERSONALITY, PERSONALITY | INSTANCE, INSTANCE => true
  | _, _ => false
  end.

(** [SanType.X.value] *)
Definition SanType_value (t : SanType) : string :=
  match t with
  | NUMBER => "Number" | WORD => "Word" | YEP => "Yep" | NOPE => "Nope"
  | DUNNO => "Dunno" | VOID => "Void" | LIST => "List" | BLOB => "Blob"
  | FUNCTION => "Function" | PERSONALITY => "Personality"
  | INSTANCE => "Instance"
  end.

(** [str(SanType.X)] *)
Definition SanType_str (t : SanType) : string :=
  match t with
  | NUMBER => "SanType.NUMBER" | WORD => "SanType.WORD"
  | YEP => "SanType.YEP" | NOPE => "SanType.NOPE"
  | DUNNO => "SanType.DUNNO" | VOID => "SanType.VOID"
  | LIST => "SanType.LIST" | BLOB => "SanType.BLOB"
  | FUNCTION => "SanType.FUNCTION" | PERSONALITY => "SanType.PERSONALITY"
  | INSTANCE => "SanType.INSTANCE"
  end.

(** A [SanValue] pairs a payload with its type tag.  The constructors the
    source offers ([san_number], [san_word], ...) always pair them
    consistently, which gives the first eight cases.  [VSwapped v] is the
    object [SanValue(v.type, v.value)], built with the two constructor
    arguments exchanged: its [value] field holds the tag of [v] and its
    [type] field holds the payload of [v]. *)
Inductive SanValue : Type :=
| VNumber (n : num)
| VWord (s : string)
| VYep
| VNope
| VDunno
| VVoid
| VList (l : list SanValue)
| VBlob (d : list (string * SanValue))
| VSwapped (v : SanValue).

Definition san_number (n : num) : SanValue := VNumber n.
Definition san_word (s : string) : SanValue := VWord s.
Definition san_yep : SanValue := VYep.
Definition san_nope : SanValue := VNope.
Definition san_dunno : SanValue := VDunno.
Definition san_void : SanValue := VVoid.
Definition san_list (l : list SanValue) : SanValue := VList l.
Definition san_blob (d : list (string * SanValue)) : SanValue := VBlob d.

(** The tag of a consistently built value. *)
Fixpoint tag (v : SanValue) : SanType :=
  match v with
  | VNumber _ => NUMBER
  | VWord _ => WORD
  | VYep => YEP
  | VNope => NOPE
  | VDunno => DUNNO
  | VVoid => VOID
  | VList _ => LIST
  | VBlob _ => BLOB
  | VSwapped v => tag v
  end.

(** [v.type == SanType.T]; the [type] field of a swapped object is a
    payload, never a tag. *)
Definition has_type (v : SanValue) (t : SanType) : bool :=
  match v with
  | VSwapped _ => false
  | _ => SanType_eqb (tag v) t
  end.

(** [SanValue(v.type, v.value)] *)
Definition swap_fields (v : SanValue) : SanValue :=
  match v with
  | VSwapped w => w
  | _ => VSwapped v
  end.

(** [SanValue.copy] *)
Fixpoint copy (v : SanValue) : SanValue :=
  match v with
  | VList l => VList (map copy l)
  | VBlob d => VBlob (map (fun kv => (fst kv, copy (snd kv))) d)
  | _ => v
  end.

(** Python built-ins that the interpreter calls and that have no
    counterpart among the binary64 primitives, together with the equality
    of two containers, which Python decides by the identity of their
    elements ([SanValue] defines no [__eq__]). *)
Record Builtins : Type := {
  float_repr : float -> string;            (* str(x) for a float *)
  float_of_str : string -> option float;   (* float(s); None: ValueError *)
  float_pow : float -> float -> res float; (* x ** y *)
  float_mod : float -> float -> float;     (* x % y, y non-zero *)
  container_eq : SanValue -> SanValue -> bool;
  container_str : SanValue -> string;      (* str() of a list or a dict *)
  tuple_repr : list string -> string       (* str() of a tuple of strings *)
}.

Section WithBuiltins.
Variable B : Builtins.

Definition str_of_num (n : num) : string :=
  match n with
  | PInt z => str_of_int z
  | PFloat f => float_repr B f
  end.

(** [SanValue.__str__] *)
Fixpoint str (v : SanValue) : string :=
  match v with
  | VVoid => "Void"
  | VYep => "yep"
  | VNope => "nope"
  | VDunno => "dunno"
  | VList l => "[" ++ join ", " (map str l) ++ "]"
  | VBlob d =>
      "{" ++ join ", " (map (fun kv => fst kv ++ ": " ++ str (snd kv)) d) ++ "}"
  | VNumber n => str_of_num n
  | VWord s => s
  | VSwapped w => SanType_str (tag w)
  end.

(** [str(v.value)] *)
Definition value_str (v : SanValue) : string :=
  match v with
  | VNumber n => str_of_num n
  | VWord s => s
  | VYep => "True"
  | VNope => "False"
  | VDunno | VVoid => "None"
  | VList _ | VBlob _ => container_str B v
  | VSwapped w => SanType_str (tag w)
  end.

(** [a.value == b.value] *)
Definition bool_num (b : bool) : num := PInt (if b then 1 else 0).

Definition value_eq (a b : SanValue) : bool :=
  match a, b with
  | VNumber x, VNumber y => num_eqb x y
  | VNumber x, VYep | VYep, VNumber x => num_eqb x (bool_num true)
  | VNumber x, VNope | VNope, VNumber x => num_eqb x (bool_num false)
  | VYep, VYep | VNope, VNope => true
  | (VDunno | VVoid), (VDunno | VVoid) => true
  | VWord s, VWord t => String.eqb s t
  | VList _, VList _ | VBlob _, VBlob _ => container_eq B a b
  | VSwapped v, VSwapped w => SanType_eqb (tag v) (tag w)
  | _, _ => false
  end.

(** [a.type == b.type] *)
Definition type_eq (a b : SanValue) : bool :=
  match a, b with
  | VSwapped v, VSwapped w => value_eq v w
  | VSwapped _, _ | _, VSwapped _ => false
  | _, _ => SanType_eqb (tag a) (tag b)
  end.

(** ** Type coercion *)

Definition coerce (lhs rhs : SanValue) (operator : string)
    : SanValue * SanValue * bool * bool :=
  if has_type lhs VOID || has_type rhs VOID then (lhs, rhs, false, false)
  else if has_type lhs DUNNO || has_type rhs DUNNO
  then (lhs, rhs, false, false)
  else
    (* Rule 3 & 4 *)
    let '(lhs, lc) :=
      if has_type lhs YEP || has_type lhs NOPE then
        if has_type rhs NUMBER
        then (san_number (bool_num (has_type lhs YEP)), true)
        else if has_type rhs WORD
        then (san_word (if has_type lhs YEP then "yep" else "nope"), true)
        else (lhs, false)
      else (lhs, false) in
    let '(rhs, rc) :=
      if has_type rhs YEP || has_type rhs NOPE then
        if has_type lhs NUMBER
        then (san_number (bool_num (has_type rhs YEP)), true)
        else if has_type lhs WORD
        then (san_word (if has_type rhs YEP then "yep" else "nope"), true)
        else (rhs, false)
      else (rhs, false) in
    (* Rule 5 *)
    let '(lhs, rhs, lc, rc) :=
      match lhs, rhs with
      | VNumber n, VWord s =>
          if String.eqb operator "&"
          then (san_word (str_of_num n), rhs, true, rc)
          else match float_of_str B s with
               | Some f => (lhs, san_number (PFloat f), lc, true)
               | None => (lhs, san_number (PInt 0), lc, true)
               end
      | VWord s, VNumber n =>
          if String.eqb operator "&"
          then (lhs, san_word (str_of_num n), lc, true)
          else match float_of_str B s with
               | Some f => (san_number (PFloat f), rhs, true, rc)
               | None => (san_number (PInt 0), rhs, true, rc)
               end
      | _, _ => (lhs, rhs, lc, rc)
      end in
    (* Rule 6 *)
    match lhs, rhs with
    | VList l, VNumber _ =>
        (san_number (PInt (Z.of_nat (List.length l))), rhs, true, rc)
    | VList _, VWord _ => (san_word (str lhs), rhs, true, rc)
    | VNumber _, VList l =>
        (lhs, san_number (PInt (Z.of_nat (List.length l))), lc, true)
    | VWord _, VList _ => (lhs, san_word (str rhs), lc, true)
    | _, _ => (lhs, rhs, lc, rc)
    end.

(** ** Truthiness

    Every caller passes the default [scope_id = 0], for which a [Dunno]
    is truthy. *)
Definition is_truthy (value : SanValue) : bool :=
  match value with
  | VVoid => false
  | VNope => false
  | VYep => true
  | VNumber n => negb (num_eqb n (PInt 0))
  | VWord s => negb (String.eqb s "")
  | VDunno => true
  | VList l => match l with [] => false | _ => true end
  | VBlob d => match d with [] => false | _ => true end
  | VSwapped _ => true
  end.

Definition is_void (value : SanValue) : bool := has_type value VOID.

(** ** Comparison helpers *)

Definition chars (s : string) : list ascii := list_ascii_of_string s.

Definition lev_row (c1 : ascii) (i : Z) (s2 : list ascii) (prev_row : list Z)
    : list Z :=
  let fix go (s2 : list ascii) (prev : list Z) (last : Z) (acc : list Z) :=
    match s2, prev with
    | c2 :: s2', pj :: ((pj1 :: _) as prev') =>
        let insertions := pj1 + 1 in
        let deletions := last + 1 in
        let substitutions := pj + (if Ascii.eqb c1 c2 then 0 else 1) in
        let x := Z.min (Z.min insertions deletions) substitutions in
        go s2' prev' x (acc ++ [x])%list
    | _, _ => acc
    end in
  go s2 prev_row (i + 1) [i + 1].

Definition levenshtein_distance (s1 s2 : string) : Z :=
  let '(s1, s2) :=
    if (String.length s1 <? String.length s2)%nat then (s2, s1) else (s1, s2) in
  if (String.length s2 =? 0)%nat then slen s1
  else
    let l2 := chars s2 in
    let row0 := map Z.of_nat (seq 0 (S (List.length l2))) in
    let '(row, _) :=
      fold_left (fun '(prev_row, i) c1 => (lev_row c1 i l2 prev_row, i + 1))
                (chars s1) (row0, 0) in
    last row 0.

Definition num_max (a b : num) : num := if num_gtb b a then b else a.

Definition lift2 {A} (f : num -> num -> res num) (a b : res num)
    (k : num -> res A) : res A :=
  match a, b with
  | Ok x, Ok y => match f x y with Ok r => k r | Err e => Err e end
  | Err e, _ => Err e
  | _, Err e => Err e
  end.

(** [~=] *)
Definition vibes_equal (lhs rhs : SanValue) : res bool :=
  if negb (type_eq lhs rhs) then Ok false
  else
    match lhs, rhs with
    | VNumber l, VNumber r =>
        if num_eqb l (PInt 0) && num_eqb r (PInt 0) then Ok true
        else
          match num_sub l r with
          | Err e => Err e
          | Ok d =>
              if num_eqb l (PInt 0) || num_eqb r (PInt 0)
              then Ok (num_leb (num_abs d) (PFloat f0_2))
              else
                match num_truediv (num_abs d) (num_max (num_abs l) (num_abs r)) with
                | Ok q => Ok (num_leb q (PFloat f0_2))
                | Err e => Err e
                end
          end
    | VWord l, VWord r => Ok (levenshtein_distance l r <=? 3)
    | _, _ => Ok (value_eq lhs rhs)
    end.

(** [==] *)
Definition loose_equal (lhs rhs : SanValue) : bool :=
  if type_eq lhs rhs then value_eq lhs rhs
  else
    let '(l, r, _, _) := coerce lhs rhs "==" in
    value_eq l r.

(** [===] *)
Definition strict_equal (lhs rhs : SanValue) : bool :=
  type_eq lhs rhs && value_eq lhs rhs.

End WithBuiltins.
End Types.

(* ================================================================== *)
(** * sanity/sanity_points.py *)
(* ================================================================== *)

Module SP.
Import Py.

(** [SanityTracker].  No caller of the interpreter registers a threshold
    listener, so [_listeners] stays empty and is left out. *)
Record SanityTracker : Type := mkTracker {
  _sp : Z;
  strict : bool;
  lenient : bool;
  pray_mercy : bool;
  audit : bool;
  is_runtime : bool;
  _last_threshold : Z;
  _audit_log : list (string * Z * Z);
  _audit_context : string
}.

Definition init (initial : Z) (strict lenient pray_mercy audit : bool)
    : SanityTracker :=
  mkTracker initial strict lenient pray_mercy audit false
            (initial / 10 * 10) [] "".

Definition with_sp (t : SanityTracker) (v : Z) : SanityTracker :=
  mkTracker v (strict t) (lenient t) (pray_mercy t) (audit t) (is_runtime t)
            (_last_threshold t) (_audit_log t) (_audit_context t).

Definition with_runtime (t : SanityTracker) (b : bool) : SanityTracker :=
  mkTracker (_sp t) (strict t) (lenient t) (pray_mercy t) (audit t) b
            (_last_threshold t) (_audit_log t) (_audit_context t).

Definition with_pray_mercy (t : SanityTracker) (b : bool) : SanityTracker :=
  mkTracker (_sp t) (strict t) (lenient t) b (audit t) (is_runtime t)
            (_last_threshold t) (_audit_log t) (_audit_context t).

(** The [sp] property: the getter returns the stored value. *)
Definition sp (t : SanityTracker) : Z := _sp t.

Definition _check_thresholds (t : SanityTracker) (old_sp : Z) : SanityTracker :=
  let old_t := old_sp / 10 * 10 in
  let new_t := _sp t / 10 * 10 in
  if negb (old_t =? new_t)
  then mkTracker (_sp t) (strict t) (lenient t) (pray_mercy t) (audit t)
                 (is_runtime t) new_t (_audit_log t) (_audit_context t)
  else t.

(** The [sp] setter. *)
Definition set_sp (t : SanityTracker) (value : Z) : SanityTracker :=
  let old := _sp t in
  let v := if lenient t && (value <? 10) then 10 else value in
  let t1 := with_sp t v in
  let t2 :=
    if audit t && negb (v =? old) then
      let delta := v - old in
      let reason :=
        if String.eqb (_audit_context t) "" then "direct SP change"
        else _audit_context t in
      mkTracker v (strict t) (lenient t) (pray_mercy t) (audit t)
                (is_runtime t) (_last_threshold t)
                (_audit_log t ++ [(reason, delta, v)])%list ""
    else t1 in
  _check_thresholds t2 old.

Definition _modifier (t : SanityTracker) (amount : Z) : Z :=
  if amount <? 0 then
    let amount := if strict t then amount * 2 else amount in
    if pray_mercy t then amount / 2 else amount
  else amount.

Definition insanity_mode (t : SanityTracker) : bool := _sp t <=? 0.

Definition get_auto_terminator (t : SanityTracker) : string :=
  if 80 <? _sp t then "."
  else if 50 <=? _sp t then "?"
  else if 20 <=? _sp t then "~"
  else "!".

Definition _audit (t : SanityTracker) (reason : string) : SanityTracker :=
  mkTracker (_sp t) (strict t) (lenient t) (pray_mercy t) (audit t)
            (is_runtime t) (_last_threshold t) (_audit_log t) reason.

(** [self._audit(reason); self.sp += self._modifier(amount)] *)
Definition penalty (reason : string) (amount : Z) (t : SanityTracker)
    : SanityTracker :=
  let t := _audit t reason in
  set_sp t (sp t + _modifier t amount).

(** [self._audit(reason); self.sp += amount] *)
Definition bonus (reason : string) (amount : Z) (t : SanityTracker)
    : SanityTracker :=
  let t := _audit t reason in
  set_sp t (sp t + amount).

Definition single_char_name := penalty "single-char variable name" (-5).
Definition long_name := penalty "verbose variable name (>20 chars)" (-2).
Definition override_sure := penalty "overriding 'sure' variable" (-10).
Definition whatever_declaration (t : SanityTracker) : SanityTracker :=
  penalty "'whatever' declaration" (if is_runtime t then -6 else -3) t.
Definition first_function_call := bonus "first function call" 1.
Definition repetition_penalty := penalty "function repetition (10+ calls)" (-1).
Definition useless_cope := penalty "useless cope block" (-5).
Definition pinky_break := penalty "pinky bond broken" (-15).
Definition seance_use := penalty "séance invocation" (-5).
Definition trust_zero (t : SanityTracker) : SanityTracker :=
  penalty "variable trust reached 0" (if is_runtime t then -16 else -8) t.
Definition enter_scope := bonus "entered scope" 1.
Definition wasted_scope := penalty "wasted scope (no vars used)" (-4).
Definition dream_fulfilled := bonus "dream variable fulfilled" 5.
Definition curse_declaration (t : SanityTracker) : SanityTracker :=
  penalty "curse declaration" (if is_runtime t then -40 else -20) t.
Definition bond_formed := bonus "emotional bond formed" 2.
Definition bond_broken := penalty "emotional bond broken" (-7).
Definition void_truthiness_check := penalty "void truthiness check" (-1).
Definition ambiguous_precedence := penalty "ambiguous whitespace precedence" (-2).
Definition oops_penalty := penalty "oops warning" (-2).
Definition yolo_swallow := penalty "yolo error swallow" (-5).
Definition ghost_tax (ghost_count : Z) : SanityTracker -> SanityTracker :=
  penalty ("ghost tax (" ++ str_of_int ghost_count ++ " ghosts)") (- ghost_count).
Definition should_not_called := penalty "'should' function never called" (-5).
Definition unfulfilled_foreshadow := penalty "unfulfilled foreshadow" (-5).
Definition hopefully_bonus := bonus "hopefully loop iteration" 1.
Definition hopefully_penalty := penalty "hopefully loop past 100" (-2).
Definition pray_for_nothing := bonus "pray for nothing" 1.
Definition no_fun_at_parties := bonus "no fun at parties bonus" 5.

(** The three operations below assign [self._sp] directly and do not go
    through the setter. *)

(** [i_am_okay]: "Reset SP to 50." *)
Definition i_am_okay (t : SanityTracker) : SanityTracker :=
  with_sp (_audit t "i am okay (SP reset)") 50.


(** [pray_for_chaos]: "Enter insanity mode voluntarily." *)
Definition pray_for_chaos (t : SanityTracker) : SanityTracker :=
  with_sp (_audit t "pray for chaos (insanity mode)") 0.

End SP.

(* ================================================================== *)
(** * sanity/variables.py *)
(* ================================================================== *)

Module Vars.
Import Py Types.

Inductive Mood : Type :=
| NEUTRAL | HAPPY | SAD | ANGRY | AFRAID | EXCITED | JEALOUS.

Definition Mood_eqb (a b : Mood) : bool :=
  match a, b with
  | NEUTRAL, NEUTRAL | HAPPY, HAPPY | SAD, SAD | ANGRY, ANGRY
  | AFRAID, AFRAID | EXCITED, EXCITED | JEALOUS, JEALOUS => true
  | _, _ => false
  end.

Definition Mood_value (m : Mood) : string :=
  match m with
  | NEUTRAL => "Neutral" | HAPPY => "Happy" | SAD => "Sad" | ANGRY => "Angry"
  | AFRAID => "Afraid" | EXCITED => "Excited" | JEALOUS => "Jealous"
  end.

Inductive Trait : Type :=
| ELDER | RESILIENT | TIRED | LUCKY | UNLUCKY | PARANOID | POPULAR | LONELY
| CURSED | BLESSED | VOLATILE.

Definition Trait_eqb (a b : Trait) : bool :=
  match a, b with
  | ELDER, ELDER | RESILIENT, RESILIENT | TIRED, TIRED | LUCKY, LUCKY
  | UNLUCKY, UNLUCKY | PARANOID, PARANOID | POPULAR, POPULAR
  | LONELY, LONELY | CURSED, CURSED | BLESSED, BLESSED
  | VOLATILE, VOLATILE => true
  | _, _ => false
  end.

(** [set[Trait]] *)
Definition tmem (s : list Trait) (t : Trait) : bool := existsb (Trait_eqb t) s.
Definition tadd (s : list Trait) (t : Trait) : list Trait :=
  if tmem s t then s else (s ++ [t])%list.
Definition tdiscard (s : list Trait) (t : Trait) : list Trait :=
  filter (fun u => negb (Trait_eqb t u)) s.

(** ** [Variable] ([SanVariable] here: [Variable] is reserved) *)

#[projections(primitive)]
Record SanVariable : Type := mkVariable {
  var_name : string;
  var_value : SanValue;
  var_keyword : string;
  var_decl_line : Z;
  var_trust : Z;
  var_doubt : Z;
  var_age : Z;
  var_scars : Z;
  var_mood : Mood;
  var_mood_set_at : Z;
  var_traits : list Trait;
  var_observed : bool;
  var_last_accessed : Z;
  var_bonds : list string;
  var_pinky_source : option string;
  var_whatever_counter : Z;
  var_access_count : Z;
  var_error_count : Z;
  var_bet_losses : Z;
  var_history : list SanValue;
  var_grief_remaining : Z;
  var_is_pretend : bool;
  var_is_uncertain : bool;
  var_previous_value : option SanValue
}.

(** [Variable(name=.., value=.., keyword=.., decl_line=..)] *)
Definition new_variable (name : string) (value : SanValue) (keyword : string)
    (decl_line : Z) : SanVariable :=
  mkVariable name value keyword decl_line 100 0 0 0 NEUTRAL 0 [] false 0 []
             None 0 0 0 0 [] 0 false false None.

Definition set_value (v : SanVariable) (x : SanValue) : SanVariable :=
  mkVariable (var_name v) x (var_keyword v) (var_decl_line v) (var_trust v)
    (var_doubt v) (var_age v) (var_scars v) (var_mood v) (var_mood_set_at v)
    (var_traits v) (var_observed v) (var_last_accessed v) (var_bonds v)
    (var_pinky_source v) (var_whatever_counter v) (var_access_count v)
    (var_error_count v) (var_bet_losses v) (var_history v)
    (var_grief_remaining v) (var_is_pretend v) (var_is_uncertain v)
    (var_previous_value v).
Definition set_trust (v : SanVariable) (x : Z) : SanVariable :=
  mkVariable (var_name v) (var_value v) (var_keyword v) (var_decl_line v) x
    (var_doubt v) (var_age v) (var_scars v) (var_mood v) (var_mood_set_at v)
    (var_traits v) (var_observed v) (var_last_accessed v) (var_bonds v)
    (var_pinky_source v) (var_whatever_counter v) (var_access_count v)
    (var_error_count v) (var_bet_losses v) (var_history v)
    (var_grief_remaining v) (var_is_pretend v) (var_is_uncertain v)
    (var_previous_value v).
Definition set_doubt (v : SanVariable) (x : Z) : SanVariable :=
  mkVariable (var_name v) (var_value v) (var_keyword v) (var_decl_line v)
    (var_trust v) x (var_age v) (var_scars v) (var_mood v) (var_mood_set_at
    v) (var_traits v) (var_observed v) (var_last_accessed v) (var_bonds v)
    (var_pinky_source v) (var_whatever_counter v) (var_access_count v)
    (var_error_count v) (var_bet_losses v) (var_history v)
    (var_grief_remaining v) (var_is_pretend v) (var_is_uncertain v)
    (var_previous_value v).
Definition set_scars (v : SanVariable) (x : Z) : SanVariable :=
  mkVariable (var_name v) (var_value v) (var_keyword v) (var_decl_line v)
    (var_trust v) (var_doubt v) (var_age v) x (var_mood v) (var_mood_set_at
    v) (var_traits v) (var_observed v) (var_last_accessed v) (var_bonds v)
    (var_pinky_source v) (var_whatever_counter v) (var_access_count v)
    (var_error_count v) (var_bet_losses v) (var_history v)
    (var_grief_remaining v) (var_is_pretend v) (var_is_uncertain v)
    (var_previous_value v).
Definition set_mood (v : SanVariable) (x : Mood) : SanVariable :=
  mkVariable (var_name v) (var_value v) (var_keyword v) (var_decl_line v)
    (var_trust v) (var_doubt v) (var_age v) (var_scars v) x (var_mood_set_at
    v) (var_traits v) (var_observed v) (var_last_accessed v) (var_bonds v)
    (var_pinky_source v) (var_whatever_counter v) (var_access_count v)
    (var_error_count v) (var_bet_losses v) (var_history v)
    (var_grief_remaining v) (var_is_pretend v) (var_is_uncertain v)
    (var_previous_value v).
Definition set_mood_set_at (v : SanVariable) (x : Z) : SanVariable :=
  mkVariable (var_name v) (var_value v) (var_keyword v) (var_decl_line v)
    (var_trust v) (var_doubt v) (var_age v) (var_scars v) (var_mood v) x
    (var_traits v) (var_observed v) (var_last_accessed v) (var_bonds v)
    (var_pinky_source v) (var_whatever_counter v) (var_access_count v)
    (var_error_count v) (var_bet_losses v) (var_history v)
    (var_grief_remaining v) (var_is_pretend v) (var_is_uncertain v)
    (var_previous_value v).
Definition set_traits (v : SanVariable) (x : list Trait) : SanVariable :=
  mkVariable (var_name v) (var_value v) (var_keyword v) (var_decl_line v)
    (var_trust v) (var_doubt v) (var_age v) (var_scars v) (var_mood v)
    (var_mood_set_at v) x (var_observed v) (var_last_accessed v) (var_bonds
    v) (var_pinky_source v) (var_whatever_counter v) (var_access_count v)
    (var_error_count v) (var_bet_losses v) (var_history v)
    (var_grief_remaining v) (var_is_pretend v) (var_is_uncertain v)
    (var_previous_value v).
Definition set_observed (v : SanVariable) (x : bool) : SanVariable :=
  mkVariable (var_name v) (var_value v) (var_keyword v) (var_decl_line v)
    (var_trust v) (var_doubt v) (var_age v) (var_scars v) (var_mood v)
    (var_mood_set_at v) (var_traits v) x (var_last_accessed v) (var_bonds v)
    (var_pinky_source v) (var_whatever_counter v) (var_access_count v)
    (var_error_count v) (var_bet_losses v) (var_history v)
    (var_grief_remaining v) (var_is_pretend v) (var_is_uncertain v)
    (var_previous_value v).
Definition set_last_accessed (v : SanVariable) (x : Z) : SanVariable :=
  mkVariable (var_name v) (var_value v) (var_keyword v) (var_decl_line v)
    (var_trust v) (var_doubt v) (var_age v) (var_scars v) (var_mood v)
    (var_mood_set_at v) (var_traits v) (var_observed v) x (var_bonds v)
    (var_pinky_source v) (var_whatever_counter v) (var_access_count v)
    (var_error_count v) (var_bet_losses v) (var_history v)
    (var_grief_remaining v) (var_is_pretend v) (var_is_uncertain v)
    (var_previous_value v).
Definition set_age (v : SanVariable) (x : Z) : SanVariable :=
  mkVariable (var_name v) (var_value v) (var_keyword v) (var_decl_line v)
    (var_trust v) (var_doubt v) x (var_scars v) (var_mood v)
    (var_mood_set_at v) (var_traits v) (var_observed v) (var_last_accessed
    v) (var_bonds v) (var_pinky_source v) (var_whatever_counter v)
    (var_access_count v) (var_error_count v) (var_bet_losses v) (var_history
    v) (var_grief_remaining v) (var_is_pretend v) (var_is_uncertain v)
    (var_previous_value v).
Definition set_bonds (v : SanVariable) (x : list string) : SanVariable :=
  mkVariable (var_name v) (var_value v) (var_keyword v) (var_decl_line v)
    (var_trust v) (var_doubt v) (var_age v) (var_scars v) (var_mood v)
    (var_mood_set_at v) (var_traits v) (var_observed v) (var_last_accessed
    v) x (var_pinky_source v) (var_whatever_counter v) (var_access_count v)
    (var_error_count v) (var_bet_losses v) (var_history v)
    (var_grief_remaining v) (var_is_pretend v) (var_is_uncertain v)
    (var_previous_value v).
Definition set_whatever_counter (v : SanVariable) (x : Z) : SanVariable :=
  mkVariable (var_name v) (var_value v) (var_keyword v) (var_decl_line v)
    (var_trust v) (var_doubt v) (var_age v) (var_scars v) (var_mood v)
    (var_mood_set_at v) (var_traits v) (var_observed v) (var_last_accessed
    v) (var_bonds v) (var_pinky_source v) x (var_access_count v)
    (var_error_count v) (var_bet_losses v) (var_history v)
    (var_grief_remaining v) (var_is_pretend v) (var_is_uncertain v)
    (var_previous_value v).
Definition set_access_count (v : SanVariable) (x : Z) : SanVariable :=
  mkVariable (var_name v) (var_value v) (var_keyword v) (var_decl_line v)
    (var_trust v) (var_doubt v) (var_age v) (var_scars v) (var_mood v)
    (var_mood_set_at v) (var_traits v) (var_observed v) (var_last_accessed
    v) (var_bonds v) (var_pinky_source v) (var_whatever_counter v) x
    (var_error_count v) (var_bet_losses v) (var_history v)
    (var_grief_remaining v) (var_is_pretend v) (var_is_uncertain v)
    (var_previous_value v).
Definition set_history (v : SanVariable) (x : list SanValue) : SanVariable :=
  mkVariable (var_name v) (var_value v) (var_keyword v) (var_decl_line v)
    (var_trust v) (var_doubt v) (var_age v) (var_scars v) (var_mood v)
    (var_mood_set_at v) (var_traits v) (var_observed v) (var_last_accessed
    v) (var_bonds v) (var_pinky_source v) (var_whatever_counter v)
    (var_access_count v) (var_error_count v) (var_bet_losses v) x
    (var_grief_remaining v) (var_is_pretend v) (var_is_uncertain v)
    (var_previous_value v).
Definition set_grief_remaining (v : SanVariable) (x : Z) : SanVariable :=
  mkVariable (var_name v) (var_value v) (var_keyword v) (var_decl_line v)
    (var_trust v) (var_doubt v) (var_age v) (var_scars v) (var_mood v)
    (var_mood_set_at v) (var_traits v) (var_observed v) (var_last_accessed
    v) (var_bonds v) (var_pinky_source v) (var_whatever_counter v)
    (var_access_count v) (var_error_count v) (var_bet_losses v) (var_history
    v) x (var_is_pretend v) (var_is_uncertain v) (var_previous_value v).
Definition set_is_pretend (v : SanVariable) (x : bool) : SanVariable :=
  mkVariable (var_name v) (var_value v) (var_keyword v) (var_decl_line v)
    (var_trust v) (var_doubt v) (var_age v) (var_scars v) (var_mood v)
    (var_mood_set_at v) (var_traits v) (var_observed v) (var_last_accessed
    v) (var_bonds v) (var_pinky_source v) (var_whatever_counter v)
    (var_access_count v) (var_error_count v) (var_bet_losses v) (var_history
    v) (var_grief_remaining v) x (var_is_uncertain v) (var_previous_value v).
Definition set_is_uncertain (v : SanVariable) (x : bool) : SanVariable :=
  mkVariable (var_name v) (var_value v) (var_keyword v) (var_decl_line v)
    (var_trust v) (var_doubt v) (var_age v) (var_scars v) (var_mood v)
    (var_mood_set_at v) (var_traits v) (var_observed v) (var_last_accessed
    v) (var_bonds v) (var_pinky_source v) (var_whatever_counter v)
    (var_access_count v) (var_error_count v) (var_bet_losses v) (var_history
    v) (var_grief_remaining v) (var_is_pretend v) x (var_previous_value v).
Definition set_previous_value (v : SanVariable) (x : option SanValue) : SanVariable :=
  mkVariable (var_name v) (var_value v) (var_keyword v) (var_decl_line v)
    (var_trust v) (var_doubt v) (var_age v) (var_scars v) (var_mood v)
    (var_mood_set_at v) (var_traits v) (var_observed v) (var_last_accessed
    v) (var_bonds v) (var_pinky_source v) (var_whatever_counter v)
    (var_access_count v) (var_error_count v) (var_bet_losses v) (var_history
    v) (var_grief_remaining v) (var_is_pretend v) (var_is_uncertain v) x.

Definition add_scar (v : SanVariable) : SanVariable :=
  let v := set_scars v (var_scars v + 1) in
  if (3 <=? var_scars v) && negb (tmem (var_traits v) RESILIENT)
  then set_traits v (tadd (var_traits v) RESILIENT)
  else v.

Definition lose_trust (v : SanVariable) (amount : Z) : SanVariable :=
  let v := set_trust v (Z.max 0 (var_trust v - amount)) in
  let v :=
    if (var_trust v <? 50) && negb (Mood_eqb (var_mood v) ANGRY)
    then set_mood v ANGRY else v in
  if var_trust v <? 30 then set_traits v (tadd (var_traits v) PARANOID) else v.

Definition record_access (v : SanVariable) (stmt_counter : Z) : SanVariable :=
  let v := set_access_count v (var_access_count v + 1) in
  let v := set_last_accessed v stmt_counter in
  let v := set_age v stmt_counter in
  let v :=
    if var_access_count v =? 7
    then set_mood_set_at (set_mood v HAPPY) stmt_counter else v in
  let v :=
    if (200 <=? var_access_count v) && negb (tmem (var_traits v) TIRED)
    then set_traits v (tadd (var_traits v) TIRED) else v in
  if (500 <? var_age v) && negb (tmem (var_traits v) ELDER)
  then set_traits v (tadd (var_traits v) ELDER) else v.

Definition check_mood_decay (v : SanVariable) (stmt_counter : Z) : SanVariable :=
  if Mood_eqb (var_mood v) NEUTRAL then v
  else if Mood_eqb (var_mood v) ANGRY then
    if 50 <=? var_trust v then
      let elapsed := stmt_counter - var_mood_set_at v in
      if 200 <=? elapsed then set_mood v NEUTRAL else v
    else v
  else
    let elapsed := stmt_counter - var_mood_set_at v in
    if 200 <=? elapsed then set_mood v NEUTRAL else v.

Definition check_sad_from_neglect (v : SanVariable) (stmt_counter : Z) : SanVariable :=
  if (100 <=? stmt_counter - var_last_accessed v)
     && Mood_eqb (var_mood v) NEUTRAL
  then set_mood_set_at (set_mood v SAD) stmt_counter
  else v.

Definition apply_mood_to_number (v : SanVariable) (result : num) : res num :=
  if tmem (var_traits v) ELDER then Ok result
  else if Mood_eqb (var_mood v) HAPPY then num_add result (PInt 1)
  else if Mood_eqb (var_mood v) SAD then num_sub result (PInt 1)
  else if tmem (var_traits v) TIRED then num_sub result (PInt 1)
  else Ok result.

Definition apply_mood_to_word (v : SanVariable) (result : string) : string :=
  if tmem (var_traits v) ELDER then result
  else if Mood_eqb (var_mood v) HAPPY then result ++ "!"
  else if Mood_eqb (var_mood v) SAD && (0 <? slen result) then drop_last result
  else if tmem (var_traits v) TIRED && (0 <? slen result) then drop_last result
  else result.

Definition has_trait (v : SanVariable) (t : Trait) : bool := tmem (var_traits v) t.

(** [s[i] = c] on the list of characters of a word *)
Fixpoint set_char (s : string) (i : nat) (c : ascii) : string :=
  match s, i with
  | EmptyString, _ => EmptyString
  | String _ r, O => String c r
  | String a r, S j => String a (set_char r j c)
  end.

(** [value + value * 0.1 * c], for the [c] that [random.choice([-1, 1])]
    gave. *)
Definition drift (n : num) (c : Z) : res num :=
  match num_mul n (PFloat f0_1) with
  | Err e => Err e
  | Ok m =>
      match num_mul m (PInt c) with
      | Err e => Err e
      | Ok shift => num_add n shift
      end
  end.

(** [check_whatever_mutation]: "Whatever variables mutate every 50
    statements."  The stride is counted in [whatever_counter], which grows
    by one per call; [stmt_counter] is not read. *)
Definition check_whatever_mutation (v : SanVariable) (stmt_counter : Z) (g : Rng)
    : res (SanVariable * Rng) :=
  if negb (String.eqb (var_keyword v) "whatever") then Ok (v, g)
  else if tmem (var_traits v) ELDER then Ok (v, g)
  else
    let v := set_whatever_counter v (var_whatever_counter v + 1) in
    if 50 <=? var_whatever_counter v then
      let v := set_whatever_counter v 0 in
      match var_value v with
      | VNumber n =>
          let '(c, g) := choice [-1; 1] 0 g in
          match drift n c with
          | Err e => Err e
          | Ok r => Ok (set_value v (VNumber r), g)
          end
      | VWord s =>
          if 0 <? slen s then
            let '(i, g) := randint 0 (slen s - 1) g in
            let '(c, g) := randint 97 122 g in
            Ok (set_value v (VWord (set_char s (Z.to_nat i)
                                       (ascii_of_nat (Z.to_nat c)))), g)
          else Ok (v, g)
      | _ => Ok (v, g)
      end
    else Ok (v, g).

(** ** [Environment]

    Variables and environments are objects; an environment refers to its
    parent and to its variables by address in the two heaps. *)

Definition vref := nat.
Definition eref := nat.
Definition vheap := list SanVariable.

#[projections(primitive)]
Record Environment : Type := mkEnv {
  env_parent : option eref;
  env_scope_id : Z;
  env_variables : list (string * vref);
  env_used_vars : sset;
  env_decl_order : list (string * Z)
}.

Definition eheap := list Environment.

(** [Environment(parent=.., scope_id=..)] *)
Definition new_env (parent : option eref) (scope_id : Z) : Environment :=
  mkEnv parent scope_id [] [] [].

(** [define]; [decl_line] is [variable.decl_line]. *)
Definition define (e : Environment) (name : string) (variable : vref)
    (decl_line : Z) : Environment :=
  mkEnv (env_parent e) (env_scope_id e)
        (dset String.eqb (env_variables e) name variable)
        (env_used_vars e)
        (env_decl_order e ++ [(name, decl_line)])%list.

Definition mark_used (e : Environment) (name : string) : Environment :=
  mkEnv (env_parent e) (env_scope_id e) (env_variables e)
        (sadd (env_used_vars e) name) (env_decl_order e).

(** The walk up the parent chain that [get] performs: the environment
    that binds [name] and the variable bound.  A parent is always an older
    object, so the chain is no longer than the heap. *)
Fixpoint resolve_from (fuel : nat) (envs : eheap) (r : eref) (name : string)
    : option (eref * vref) :=
  match fuel with
  | O => None
  | S fuel =>
      match nth_error envs r with
      | None => None
      | Some e =>
          match dget String.eqb (env_variables e) name with
          | Some v => Some (r, v)
          | None =>
              match env_parent e with
              | Some p => resolve_from fuel envs p name
              | None => None
              end
          end
      end
  end.

Definition resolve (envs : eheap) (r : eref) (name : string)
    : option (eref * vref) :=
  resolve_from (List.length envs) envs r name.

(** [get]: the lookup records [name] in [used_vars] of the binding scope. *)
Definition get (envs : eheap) (r : eref) (name : string)
    : option vref * eheap :=
  match resolve envs r name with
  | Some (a, v) =>
      match nth_error envs a with
      | Some e => (Some v, lupd envs a (mark_used e name))
      | None => (Some v, envs)
      end
  | None => (None, envs)
  end.

Definition has_local (envs : eheap) (r : eref) (name : string) : bool :=
  match nth_error envs r with
  | Some e => dmem String.eqb (env_variables e) name
  | None => false
  end.

(** [has] *)
Fixpoint has_from (fuel : nat) (envs : eheap) (r : eref) (name : string)
    : bool :=
  match fuel with
  | O => false
  | S fuel =>
      match nth_error envs r with
      | None => false
      | Some e =>
          if dmem String.eqb (env_variables e) name then true
          else
            match env_parent e with
            | Some p => has_from fuel envs p name
            | None => false
            end
      end
  end.

Definition has (envs : eheap) (r : eref) (name : string) : bool :=
  has_from (List.length envs) envs r name.

(** [set_value]: the variable object bound in the nearest scope gets the
    value; the result tells whether a scope bound the name. *)
Fixpoint set_value_from (fuel : nat) (envs : eheap) (vars : vheap) (r : eref)
    (name : string) (value : SanValue) : bool * vheap :=
  match fuel with
  | O => (false, vars)
  | S fuel =>
      match nth_error envs r with
      | None => (false, vars)
      | Some e =>
          match dget String.eqb (env_variables e) name with
          | Some v =>
              (true,
               match nth_error vars v with
               | Some x => lupd vars v (set_value x value)
               | None => vars
               end)
          | None =>
              match env_parent e with
              | Some p => set_value_from fuel envs vars p name value
              | None => (false, vars)
              end
          end
      end
  end.

Definition env_set_value (envs : eheap) (vars : vheap) (r : eref)
    (name : string) (value : SanValue) : bool * vheap :=
  set_value_from (List.length envs) envs vars r name value.

(** [all_variables] *)
Fixpoint all_variables_from (fuel : nat) (envs : eheap) (r : eref)
    : list (string * vref) :=
  match fuel with
  | O => []
  | S fuel =>
      match nth_error envs r with
      | None => []
      | Some e =>
          let result :=
            match env_parent e with
            | Some p => all_variables_from fuel envs p
            | None => []
            end in
          dupdate String.eqb result (env_variables e)
      end
  end.

Definition all_variables (envs : eheap) (r : eref) : list (string * vref) :=
  all_variables_from (List.length envs) envs r.

Section WithBuiltins.
Variable B : Builtins.

(** The body of the two loops of [detect_bonds] for one pair [i < j]. *)
Definition bond_pair (e : Environment) (a b : string * Z)
    (acc : vheap * list (string * string)) : vheap * list (string * string) :=
  let '(vars, bonds) := acc in
  let '(name_a, line_a) := a in
  let '(name_b, line_b) := b in
  if Z.abs (line_a - line_b) <=? 3 then
    match dget String.eqb (env_variables e) name_a,
          dget String.eqb (env_variables e) name_b with
    | Some ra, Some rb =>
        match nth_error vars ra, nth_error vars rb with
        | Some var_a, Some var_b =>
            if type_eq B (var_value var_a) (var_value var_b)
               && negb (smem (var_bonds var_a) name_b)
            then
              let vars :=
                lupd vars ra (set_bonds var_a (var_bonds var_a ++ [name_b])%list) in
              let vars :=
                match nth_error vars rb with
                | Some var_b =>
                    lupd vars rb
                         (set_bonds var_b (var_bonds var_b ++ [name_a])%list)
                | None => vars
                end in
              (vars, (bonds ++ [(name_a, name_b)])%list)
            else acc
        | _, _ => acc
        end
    | _, _ => acc
    end
  else acc.

Fixpoint detect_bonds_from (e : Environment) (order : list (string * Z))
    (acc : vheap * list (string * string)) : vheap * list (string * string) :=
  match order with
  | [] => acc
  | a :: rest =>
      detect_bonds_from e rest
        (fold_left (fun acc b => bond_pair e a b acc) rest acc)
  end.

(** [detect_bonds] *)
Definition detect_bonds (e : Environment) (vars : vheap)
    : vheap * list (string * string) :=
  detect_bonds_from e (env_decl_order e) (vars, []).

End WithBuiltins.
End Vars.

(* ================================================================== *)
(** * sanity/ast_nodes.py: the nodes of the executor fragment *)
(* ================================================================== *)

Module Ast.
Import Py.

(** Expressions.  [line] and [column] are kept where the executor reads
    them.  Member and index access, and the calls into the standard
    library, the console, files and canvases are outside the fragment. *)
Inductive Expression : Type :=
| NumberLiteral (value : num)
| StringLiteral (value : string)
| BoolLiteral (value : string)
| VoidLiteral
| ListLiteral (elements : list Expression)
| BlobLiteral (pairs : list (string * Expression))
| VariableAccess (name : string)
| BinaryOp (lhs : Expression) (operator : string) (rhs : Expression)
           (left_spaces right_spaces : Z)
| UnaryOp (operator : string) (operand : Expression)
| ComparisonOp (lhs : Expression) (operator : string) (rhs : Expression)
               (equal_count : Z)
| LogicalOp (lhs : Expression) (operator : string) (rhs : Expression)
| EmotionalOp (lhs : Expression) (operator : string) (rhs : Expression)
| FunctionCall (callee : Expression) (arguments : list Expression)
| SeanceCall (name : string).

(** Statements; every one carries its [line] and its [terminators].  A
    [Block] is the list of its statements. *)
Inductive Statement : Type :=
| ExpressionStatement (line : Z) (terminators : list string)
    (expression : Expression)
| VarDeclaration (line : Z) (terminators : list string)
    (keyword name : string) (value : option Expression)
| Assignment (line : Z) (terminators : list string)
    (name : string) (value : Expression)
| PrintStatement (line : Z) (terminators : list string)
    (expression : Expression)
| IfStatement (line : Z) (terminators : list string)
    (condition : Expression) (body : list Statement)
    (but_clauses : list (Expression * list Statement))
    (actually_block : option (list Statement))
| UnlessStatement (line : Z) (terminators : list string)
    (condition : Expression) (body : list Statement)
| AgainLoop (line : Z) (terminators : list string) (body : list Statement)
| PlsLoop (line : Z) (terminators : list string)
    (count : Expression) (counter_name : option string)
    (body : list Statement)
| UghLoop (line : Z) (terminators : list string)
    (condition : Expression) (body : list Statement)
| HopefullyLoop (line : Z) (terminators : list string)
    (condition : Expression) (body : list Statement)
| EnoughStatement (line : Z) (terminators : list string)
| FunctionDecl (line : Z) (terminators : list string)
    (keyword name : string) (params : list string) (body : list Statement)
    (condition : option Expression)
| ReturnStatement (line : Z) (terminators : list string)
    (value : option Expression)
| TryCope (line : Z) (terminators : list string)
    (try_block : list Statement) (cope_param : option string)
    (cope_block : option (list Statement))
    (deny_block : option (list Statement))
| BlameStatement (line : Z) (terminators : list string)
    (target reason : string)
| OopsStatement (line : Z) (terminators : list string) (message : string)
| YoloBlock (line : Z) (terminators : list string) (body : list Statement)
| WhenBlock (line : Z) (terminators : list string)
    (target event_type : string) (body : list Statement)
| CryStatement (line : Z) (terminators : list string) (message : string)
| PrayStatement (line : Z) (terminators : list string) (prayer : string)
| NoStatement (line : Z) (terminators : list string) (feature : string)
| IAmOkayStatement (line : Z) (terminators : list string)
| ForgetsEveryone (line : Z) (terminators : list string) (variable : string)
| DeleteStatement (line : Z) (terminators : list string) (variable : string).

Definition terminators_of (s : Statement) : list string :=
  match s with
  | ExpressionStatement _ t _ | VarDeclaration _ t _ _ _ | Assignment _ t _ _
  | PrintStatement _ t _ | IfStatement _ t _ _ _ _ | UnlessStatement _ t _ _
  | AgainLoop _ t _ | PlsLoop _ t _ _ _ | UghLoop _ t _ _
  | HopefullyLoop _ t _ _ | EnoughStatement _ t
  | FunctionDecl _ t _ _ _ _ _ | ReturnStatement _ t _ | TryCope _ t _ _ _ _
  | BlameStatement _ t _ _ | OopsStatement _ t _ | YoloBlock _ t _
  | WhenBlock _ t _ _ _ | CryStatement _ t _ | PrayStatement _ t _
  | NoStatement _ t _ | IAmOkayStatement _ t | ForgetsEveryone _ t _
  | DeleteStatement _ t _ => t
  end.

(** The fields of a [FunctionDecl] node, as [self.functions] keeps them. *)
Record FunctionDeclNode : Type := mkFunctionDecl {
  fd_line : Z;
  fd_keyword : string;
  fd_name : string;
  fd_params : list string;
  fd_body : list Statement;
  fd_condition : option Expression
}.

Record ArcDef : Type := mkArc {
  arc_name : string;
  arc_requires : option string;
  arc_body : list Statement
}.

(** [Program].  A chapter is registered by name; its body only runs under
    [recall], which is outside the fragment. *)
Record Program : Type := mkProgram {
  chapters : list string;
  body : list Statement;
  prologue : option (list Statement);
  arcs : list ArcDef;
  climax : option (list Statement);
  epilogue : option (list Statement)
}.

End Ast.

(* ================================================================== *)
(** * sanity/runtime.py and sanity/runtime_statements.py *)
(* ================================================================== *)

Module Runtime.
Import Py Types SP Vars Ast.

(** ** Exceptions *)

Inductive Exc : Type :=
| SanityError (message blame mood : string)
| BreakSignal
| ReturnSignal (value : SanValue) (terminators : list string)
| PyError (cls : string).

(** [isinstance(e, Exception)]: the three classes of the interpreter derive
    from [Exception], and so do the built-in errors. *)
Definition is_Exception (e : Exc) : bool := true.

Definition is_SanityError (e : Exc) : bool :=
  match e with SanityError _ _ _ => true | _ => false end.

(** [raise SanityError(msg)] with the default [blame] and [mood]. *)
Definition sanity_error (msg : string) : Exc := SanityError msg "" "Neutral".

(** ** The [Interpreter] object *)

(** [self.relationships], a dict with six fixed keys in this order. *)
Record Relationships : Type := mkRel {
  hates : list (string * sset);
  fears : list (string * sset);
  envies : list (string * sset);
  ignores : list (string * sset);
  mirrors : list (string * sset);
  haunts : list (string * sset)
}.

(** The interpreter state.  [output] is the captured output list, to which
    every [print] of the fragment also appends.  [blame_path] tells whether
    the interpreter was given a source path; [blame_file] is what has been
    appended to the blame log (without the time stamps).  No dream file
    exists at start-up; [dream_file] is what [_save_dreams] has written. *)
#[projections(primitive)]
Record Interp : Type := mkInterp {
  sp : SanityTracker;
  envs : eheap;
  vars : vheap;
  global_env : eref;
  current_env : eref;
  scope_counter : Z;
  stmt_counter : Z;
  afterlife : list (string * list (SanValue * Mood * Z * Z));
  ghost_count : Z;
  call_counts : list (string * Z);
  functions : list (string * (FunctionDeclNode * eref));
  memo_caches : list (string * list (list string * SanValue));
  listeners : list (string * list (list Statement * eref));
  oops_count : Z;
  banned : sset;
  prayers : sset;
  stmt_history : list Statement;
  output : list string;
  graph_edges : list (string * sset);
  relationships : Relationships;
  mirror_pending : list (string * SanValue);
  chapter_trust : list (string * Z);
  _insanity_swap_counter : Z;
  ugh_quit_probability : float;
  cached_returns : list (string * SanValue);
  _first_call_results : sset;
  blame_path : bool;
  blame_file : list string;
  dream_file : option (list (string * SanValue));
  rng : Rng
}.

Definition with_sp (s : Interp) (x : SanityTracker) : Interp :=
  mkInterp x (envs s) (vars s) (global_env s) (current_env s) (scope_counter
    s) (stmt_counter s) (afterlife s) (ghost_count s) (call_counts s)
    (functions s) (memo_caches s) (listeners s) (oops_count s) (banned s)
    (prayers s) (stmt_history s) (output s) (graph_edges s) (relationships
    s) (mirror_pending s) (chapter_trust s) (_insanity_swap_counter s)
    (ugh_quit_probability s) (cached_returns s) (_first_call_results s)
    (blame_path s) (blame_file s) (dream_file s) (rng s).
Definition with_envs (s : Interp) (x : eheap) : Interp :=
  mkInterp (sp s) x (vars s) (global_env s) (current_env s) (scope_counter
    s) (stmt_counter s) (afterlife s) (ghost_count s) (call_counts s)
    (functions s) (memo_caches s) (listeners s) (oops_count s) (banned s)
    (prayers s) (stmt_history s) (output s) (graph_edges s) (relationships
    s) (mirror_pending s) (chapter_trust s) (_insanity_swap_counter s)
    (ugh_quit_probability s) (cached_returns s) (_first_call_results s)
    (blame_path s) (blame_file s) (dream_file s) (rng s).
Definition with_vars (s : Interp) (x : vheap) : Interp :=
  mkInterp (sp s) (envs s) x (global_env s) (current_env s) (scope_counter
    s) (stmt_counter s) (afterlife s) (ghost_count s) (call_counts s)
    (functions s) (memo_caches s) (listeners s) (oops_count s) (banned s)
    (prayers s) (stmt_history s) (output s) (graph_edges s) (relationships
    s) (mirror_pending s) (chapter_trust s) (_insanity_swap_counter s)
    (ugh_quit_probability s) (cached_returns s) (_first_call_results s)
    (blame_path s) (blame_file s) (dream_file s) (rng s).
Definition with_global_env (s : Interp) (x : eref) : Interp :=
  mkInterp (sp s) (envs s) (vars s) x (current_env s) (scope_counter s)
    (stmt_counter s) (afterlife s) (ghost_count s) (call_counts s)
    (functions s) (memo_caches s) (listeners s) (oops_count s) (banned s)
    (prayers s) (stmt_history s) (output s) (graph_edges s) (relationships
    s) (mirror_pending s) (chapter_trust s) (_insanity_swap_counter s)
    (ugh_quit_probability s) (cached_returns s) (_first_call_results s)
    (blame_path s) (blame_file s) (dream_file s) (rng s).
Definition with_current_env (s : Interp) (x : eref) : Interp :=
  mkInterp (sp s) (envs s) (vars s) (global_env s) x (scope_counter s)
    (stmt_counter s) (afterlife s) (ghost_count s) (call_counts s)
    (functions s) (memo_caches s) (listeners s) (oops_count s) (banned s)
    (prayers s) (stmt_history s) (output s) (graph_edges s) (relationships
    s) (mirror_pending s) (chapter_trust s) (_insanity_swap_counter s)
    (ugh_quit_probability s) (cached_returns s) (_first_call_results s)
    (blame_path s) (blame_file s) (dream_file s) (rng s).
Definition with_scope_counter (s : Interp) (x : Z) : Interp :=
  mkInterp (sp s) (envs s) (vars s) (global_env s) (current_env s) x
    (stmt_counter s) (afterlife s) (ghost_count s) (call_counts s)
    (functions s) (memo_caches s) (listeners s) (oops_count s) (banned s)
    (prayers s) (stmt_history s) (output s) (graph_edges s) (relationships
    s) (mirror_pending s) (chapter_trust s) (_insanity_swap_counter s)
    (ugh_quit_probability s) (cached_returns s) (_first_call_results s)
    (blame_path s) (blame_file s) (dream_file s) (rng s).
Definition with_stmt_counter (s : Interp) (x : Z) : Interp :=
  mkInterp (sp s) (envs s) (vars s) (global_env s) (current_env s)
    (scope_counter s) x (afterlife s) (ghost_count s) (call_counts s)
    (functions s) (memo_caches s) (listeners s) (oops_count s) (banned s)
    (prayers s) (stmt_history s) (output s) (graph_edges s) (relationships
    s) (mirror_pending s) (chapter_trust s) (_insanity_swap_counter s)
    (ugh_quit_probability s) (cached_returns s) (_first_call_results s)
    (blame_path s) (blame_file s) (dream_file s) (rng s).
Definition with_afterlife (s : Interp) (x : list (string * list (SanValue * Mood * Z * Z))) : Interp :=
  mkInterp (sp s) (envs s) (vars s) (global_env s) (current_env s)
    (scope_counter s) (stmt_counter s) x (ghost_count s) (call_counts s)
    (functions s) (memo_caches s) (listeners s) (oops_count s) (banned s)
    (prayers s) (stmt_history s) (output s) (graph_edges s) (relationships
    s) (mirror_pending s) (chapter_trust s) (_insanity_swap_counter s)
    (ugh_quit_probability s) (cached_returns s) (_first_call_results s)
    (blame_path s) (blame_file s) (dream_file s) (rng s).
Definition with_ghost_count (s : Interp) (x : Z) : Interp :=
  mkInterp (sp s) (envs s) (vars s) (global_env s) (current_env s)
    (scope_counter s) (stmt_counter s) (afterlife s) x (call_counts s)
    (functions s) (memo_caches s) (listeners s) (oops_count s) (banned s)
    (prayers s) (stmt_history s) (output s) (graph_edges s) (relationships
    s) (mirror_pending s) (chapter_trust s) (_insanity_swap_counter s)
    (ugh_quit_probability s) (cached_returns s) (_first_call_results s)
    (blame_path s) (blame_file s) (dream_file s) (rng s).
Definition with_call_counts (s : Interp) (x : list (string * Z)) : Interp :=
  mkInterp (sp s) (envs s) (vars s) (global_env s) (current_env s)
    (scope_counter s) (stmt_counter s) (afterlife s) (ghost_count s) x
    (functions s) (memo_caches s) (listeners s) (oops_count s) (banned s)
    (prayers s) (stmt_history s) (output s) (graph_edges s) (relationships
    s) (mirror_pending s) (chapter_trust s) (_insanity_swap_counter s)
    (ugh_quit_probability s) (cached_returns s) (_first_call_results s)
    (blame_path s) (blame_file s) (dream_file s) (rng s).
Definition with_functions (s : Interp) (x : list (string * (FunctionDeclNode * eref))) : Interp :=
  mkInterp (sp s) (envs s) (vars s) (global_env s) (current_env s)
    (scope_counter s) (stmt_counter s) (afterlife s) (ghost_count s)
    (call_counts s) x (memo_caches s) (listeners s) (oops_count s) (banned
    s) (prayers s) (stmt_history s) (output s) (graph_edges s)
    (relationships s) (mirror_pending s) (chapter_trust s)
    (_insanity_swap_counter s) (ugh_quit_probability s) (cached_returns s)
    (_first_call_results s) (blame_path s) (blame_file s) (dream_file s)
    (rng s).
Definition with_memo_caches (s : Interp) (x : list (string * list (list string * SanValue))) : Interp :=
  mkInterp (sp s) (envs s) (vars s) (global_env s) (current_env s)
    (scope_counter s) (stmt_counter s) (afterlife s) (ghost_count s)
    (call_counts s) (functions s) x (listeners s) (oops_count s) (banned s)
    (prayers s) (stmt_history s) (output s) (graph_edges s) (relationships
    s) (mirror_pending s) (chapter_trust s) (_insanity_swap_counter s)
    (ugh_quit_probability s) (cached_returns s) (_first_call_results s)
    (blame_path s) (blame_file s) (dream_file s) (rng s).
Definition with_listeners (s : Interp) (x : list (string * list (list Statement * eref))) : Interp :=
  mkInterp (sp s) (envs s) (vars s) (global_env s) (current_env s)
    (scope_counter s) (stmt_counter s) (afterlife s) (ghost_count s)
    (call_counts s) (functions s) (memo_caches s) x (oops_count s) (banned
    s) (prayers s) (stmt_history s) (output s) (graph_edges s)
    (relationships s) (mirror_pending s) (chapter_trust s)
    (_insanity_swap_counter s) (ugh_quit_probability s) (cached_returns s)
    (_first_call_results s) (blame_path s) (blame_file s) (dream_file s)
    (rng s).
Definition with_oops_count (s : Interp) (x : Z) : Interp :=
  mkInterp (sp s) (envs s) (vars s) (global_env s) (current_env s)
    (scope_counter s) (stmt_counter s) (afterlife s) (ghost_count s)
    (call_counts s) (functions s) (memo_caches s) (listeners s) x (banned s)
    (prayers s) (stmt_history s) (output s) (graph_edges s) (relationships
    s) (mirror_pending s) (chapter_trust s) (_insanity_swap_counter s)
    (ugh_quit_probability s) (cached_returns s) (_first_call_results s)
    (blame_path s) (blame_file s) (dream_file s) (rng s).
Definition with_banned (s : Interp) (x : sset) : Interp :=
  mkInterp (sp s) (envs s) (vars s) (global_env s) (current_env s)
    (scope_counter s) (stmt_counter s) (afterlife s) (ghost_count s)
    (call_counts s) (functions s) (memo_caches s) (listeners s) (oops_count
    s) x (prayers s) (stmt_history s) (output s) (graph_edges s)
    (relationships s) (mirror_pending s) (chapter_trust s)
    (_insanity_swap_counter s) (ugh_quit_probability s) (cached_returns s)
    (_first_call_results s) (blame_path s) (blame_file s) (dream_file s)
    (rng s).
Definition with_prayers (s : Interp) (x : sset) : Interp :=
  mkInterp (sp s) (envs s) (vars s) (global_env s) (current_env s)
    (scope_counter s) (stmt_counter s) (afterlife s) (ghost_count s)
    (call_counts s) (functions s) (memo_caches s) (listeners s) (oops_count
    s) (banned s) x (stmt_history s) (output s) (graph_edges s)
    (relationships s) (mirror_pending s) (chapter_trust s)
    (_insanity_swap_counter s) (ugh_quit_probability s) (cached_returns s)
    (_first_call_results s) (blame_path s) (blame_file s) (dream_file s)
    (rng s).
Definition with_stmt_history (s : Interp) (x : list Statement) : Interp :=
  mkInterp (sp s) (envs s) (vars s) (global_env s) (current_env s)
    (scope_counter s) (stmt_counter s) (afterlife s) (ghost_count s)
    (call_counts s) (functions s) (memo_caches s) (listeners s) (oops_count
    s) (banned s) (prayers s) x (output s) (graph_edges s) (relationships s)
    (mirror_pending s) (chapter_trust s) (_insanity_swap_counter s)
    (ugh_quit_probability s) (cached_returns s) (_first_call_results s)
    (blame_path s) (blame_file s) (dream_file s) (rng s).
Definition with_output (s : Interp) (x : list string) : Interp :=
  mkInterp (sp s) (envs s) (vars s) (global_env s) (current_env s)
    (scope_counter s) (stmt_counter s) (afterlife s) (ghost_count s)
    (call_counts s) (functions s) (memo_caches s) (listeners s) (oops_count
    s) (banned s) (prayers s) (stmt_history s) x (graph_edges s)
    (relationships s) (mirror_pending s) (chapter_trust s)
    (_insanity_swap_counter s) (ugh_quit_probability s) (cached_returns s)
    (_first_call_results s) (blame_path s) (blame_file s) (dream_file s)
    (rng s).
Definition with_graph_edges (s : Interp) (x : list (string * sset)) : Interp :=
  mkInterp (sp s) (envs s) (vars s) (global_env s) (current_env s)
    (scope_counter s) (stmt_counter s) (afterlife s) (ghost_count s)
    (call_counts s) (functions s) (memo_caches s) (listeners s) (oops_count
    s) (banned s) (prayers s) (stmt_history s) (output s) x (relationships
    s) (mirror_pending s) (chapter_trust s) (_insanity_swap_counter s)
    (ugh_quit_probability s) (cached_returns s) (_first_call_results s)
    (blame_path s) (blame_file s) (dream_file s) (rng s).
Definition with_relationships (s : Interp) (x : Relationships) : Interp :=
  mkInterp (sp s) (envs s) (vars s) (global_env s) (current_env s)
    (scope_counter s) (stmt_counter s) (afterlife s) (ghost_count s)
    (call_counts s) (functions s) (memo_caches s) (listeners s) (oops_count
    s) (banned s) (prayers s) (stmt_history s) (output s) (graph_edges s) x
    (mirror_pending s) (chapter_trust s) (_insanity_swap_counter s)
    (ugh_quit_probability s) (cached_returns s) (_first_call_results s)
    (blame_path s) (blame_file s) (dream_file s) (rng s).
Definition with_mirror_pending (s : Interp) (x : list (string * SanValue)) : Interp :=
  mkInterp (sp s) (envs s) (vars s) (global_env s) (current_env s)
    (scope_counter s) (stmt_counter s) (afterlife s) (ghost_count s)
    (call_counts s) (functions s) (memo_caches s) (listeners s) (oops_count
    s) (banned s) (prayers s) (stmt_history s) (output s) (graph_edges s)
    (relationships s) x (chapter_trust s) (_insanity_swap_counter s)
    (ugh_quit_probability s) (cached_returns s) (_first_call_results s)
    (blame_path s) (blame_file s) (dream_file s) (rng s).
Definition with_chapter_trust (s : Interp) (x : list (string * Z)) : Interp :=
  mkInterp (sp s) (envs s) (vars s) (global_env s) (current_env s)
    (scope_counter s) (stmt_counter s) (afterlife s) (ghost_count s)
    (call_counts s) (functions s) (memo_caches s) (listeners s) (oops_count
    s) (banned s) (prayers s) (stmt_history s) (output s) (graph_edges s)
    (relationships s) (mirror_pending s) x (_insanity_swap_counter s)
    (ugh_quit_probability s) (cached_returns s) (_first_call_results s)
    (blame_path s) (blame_file s) (dream_file s) (rng s).
Definition with_insanity_swap_counter (s : Interp) (x : Z) : Interp :=
  mkInterp (sp s) (envs s) (vars s) (global_env s) (current_env s)
    (scope_counter s) (stmt_counter s) (afterlife s) (ghost_count s)
    (call_counts s) (functions s) (memo_caches s) (listeners s) (oops_count
    s) (banned s) (prayers s) (stmt_history s) (output s) (graph_edges s)
    (relationships s) (mirror_pending s) (chapter_trust s) x
    (ugh_quit_probability s) (cached_returns s) (_first_call_results s)
    (blame_path s) (blame_file s) (dream_file s) (rng s).
Definition with_ugh_quit_probability (s : Interp) (x : float) : Interp :=
  mkInterp (sp s) (envs s) (vars s) (global_env s) (current_env s)
    (scope_counter s) (stmt_counter s) (afterlife s) (ghost_count s)
    (call_counts s) (functions s) (memo_caches s) (listeners s) (oops_count
    s) (banned s) (prayers s) (stmt_history s) (output s) (graph_edges s)
    (relationships s) (mirror_pending s) (chapter_trust s)
    (_insanity_swap_counter s) x (cached_returns s) (_first_call_results s)
    (blame_path s) (blame_file s) (dream_file s) (rng s).
Definition with_cached_returns (s : Interp) (x : list (string * SanValue)) : Interp :=
  mkInterp (sp s) (envs s) (vars s) (global_env s) (current_env s)
    (scope_counter s) (stmt_counter s) (afterlife s) (ghost_count s)
    (call_counts s) (functions s) (memo_caches s) (listeners s) (oops_count
    s) (banned s) (prayers s) (stmt_history s) (output s) (graph_edges s)
    (relationships s) (mirror_pending s) (chapter_trust s)
    (_insanity_swap_counter s) (ugh_quit_probability s) x
    (_first_call_results s) (blame_path s) (blame_file s) (dream_file s)
    (rng s).
Definition with_first_call_results (s : Interp) (x : sset) : Interp :=
  mkInterp (sp s) (envs s) (vars s) (global_env s) (current_env s)
    (scope_counter s) (stmt_counter s) (afterlife s) (ghost_count s)
    (call_counts s) (functions s) (memo_caches s) (listeners s) (oops_count
    s) (banned s) (prayers s) (stmt_history s) (output s) (graph_edges s)
    (relationships s) (mirror_pending s) (chapter_trust s)
    (_insanity_swap_counter s) (ugh_quit_probability s) (cached_returns s) x
    (blame_path s) (blame_file s) (dream_file s) (rng s).
Definition with_blame_path (s : Interp) (x : bool) : Interp :=
  mkInterp (sp s) (envs s) (vars s) (global_env s) (current_env s)
    (scope_counter s) (stmt_counter s) (afterlife s) (ghost_count s)
    (call_counts s) (functions s) (memo_caches s) (listeners s) (oops_count
    s) (banned s) (prayers s) (stmt_history s) (output s) (graph_edges s)
    (relationships s) (mirror_pending s) (chapter_trust s)
    (_insanity_swap_counter s) (ugh_quit_probability s) (cached_returns s)
    (_first_call_results s) x (blame_file s) (dream_file s) (rng s).
Definition with_blame_file (s : Interp) (x : list string) : Interp :=
  mkInterp (sp s) (envs s) (vars s) (global_env s) (current_env s)
    (scope_counter s) (stmt_counter s) (afterlife s) (ghost_count s)
    (call_counts s) (functions s) (memo_caches s) (listeners s) (oops_count
    s) (banned s) (prayers s) (stmt_history s) (output s) (graph_edges s)
    (relationships s) (mirror_pending s) (chapter_trust s)
    (_insanity_swap_counter s) (ugh_quit_probability s) (cached_returns s)
    (_first_call_results s) (blame_path s) x (dream_file s) (rng s).
Definition with_dream_file (s : Interp) (x : option (list (string * SanValue))) : Interp :=
  mkInterp (sp s) (envs s) (vars s) (global_env s) (current_env s)
    (scope_counter s) (stmt_counter s) (afterlife s) (ghost_count s)
    (call_counts s) (functions s) (memo_caches s) (listeners s) (oops_count
    s) (banned s) (prayers s) (stmt_history s) (output s) (graph_edges s)
    (relationships s) (mirror_pending s) (chapter_trust s)
    (_insanity_swap_counter s) (ugh_quit_probability s) (cached_returns s)
    (_first_call_results s) (blame_path s) (blame_file s) x (rng s).
Definition with_rng (s : Interp) (x : Rng) : Interp :=
  mkInterp (sp s) (envs s) (vars s) (global_env s) (current_env s)
    (scope_counter s) (stmt_counter s) (afterlife s) (ghost_count s)
    (call_counts s) (functions s) (memo_caches s) (listeners s) (oops_count
    s) (banned s) (prayers s) (stmt_history s) (output s) (graph_edges s)
    (relationships s) (mirror_pending s) (chapter_trust s)
    (_insanity_swap_counter s) (ugh_quit_probability s) (cached_returns s)
    (_first_call_results s) (blame_path s) (blame_file s) (dream_file s) x.

(** ** The interpreter monad: state, exceptions, and a fuel bound *)

Inductive Outcome (A : Type) : Type :=
| Normal (a : A)
| Raise (e : Exc)
| OutOfFuel.
Arguments Normal {A} a.
Arguments Raise {A} e.
Arguments OutOfFuel {A}.

Definition M (A : Type) : Type := Interp -> Outcome A * Interp.

Definition ret {A} (a : A) : M A := fun s => (Normal a, s).

Definition bind {A B} (m : M A) (k : A -> M B) : M B :=
  fun s =>
    match m s with
    | (Normal a, s') => k a s'
    | (Raise e, s') => (Raise e, s')
    | (OutOfFuel, s') => (OutOfFuel, s')
    end.

Notation "x <- m ;; k" := (bind m (fun x => k))
  (at level 61, m at next level, right associativity).
Notation "' p <- m ;; k" := (bind m (fun x => let 'p := x in k))
  (at level 61, p pattern, m at next level, right associativity).
Notation "m ;;; k" := (bind m (fun _ => k))
  (at level 61, right associativity).

Definition raise {A} (e : Exc) : M A := fun s => (Raise e, s).
Definition out_of_fuel {A} : M A := fun s => (OutOfFuel, s).
Definition gets {A} (f : Interp -> A) : M A := fun s => (Normal (f s), s).
Definition modify (f : Interp -> Interp) : M unit := fun s => (Normal tt, f s).

Definition lift {A} (r : res A) : M A :=
  match r with
  | Ok a => ret a
  | Err cls => raise (PyError cls)
  end.

(** [try: m finally: fin] *)
Definition try_finally {A} (m : M A) (fin : Interp -> Interp) : M A :=
  fun s =>
    match m s with
    | (OutOfFuel, s') => (OutOfFuel, s')
    | (o, s') => (o, fin s')
    end.

(** [try: m except <classes>: handler] *)
Definition try_except {A} (m : M A) (catches : Exc -> bool)
    (handler : Exc -> M A) : M A :=
  fun s =>
    match m s with
    | (Raise e, s') => if catches e then handler e s' else (Raise e, s')
    | r => r
    end.

Fixpoint mfor {X} (l : list X) (f : X -> M unit) : M unit :=
  match l with
  | [] => ret tt
  | x :: r => f x ;;; mfor r f
  end.

Fixpoint mmap {X Y} (f : X -> M Y) (l : list X) : M (list Y) :=
  match l with
  | [] => ret []
  | x :: r => y <- f x ;; ys <- mmap f r ;; ret (y :: ys)
  end.

Definition when (b : bool) (m : M unit) : M unit := if b then m else ret tt.

(** ** Heap access *)

Definition dummy_var : SanVariable := new_variable "" VVoid "" 0.

Definition var_at (s : Interp) (r : vref) : SanVariable :=
  nth r (vars s) dummy_var.

Definition rd (r : vref) : M SanVariable := gets (fun s => var_at s r).

Definition upd (r : vref) (f : SanVariable -> SanVariable) : M unit :=
  modify (fun s => with_vars s (lupd (vars s) r (f (var_at s r)))).

Definition alloc_var (v : SanVariable) : M vref :=
  fun s => (Normal (List.length (vars s)), with_vars s (vars s ++ [v])%list).

(** [self.current_env.get(name)] *)
Definition env_get (name : string) : M (option vref) :=
  fun s =>
    let '(r, envs') := Vars.get (envs s) (current_env s) name in
    (Normal r, with_envs s envs').

Definition env_at (s : Interp) (r : eref) : Environment :=
  nth r (envs s) (new_env None 0).

(** [env.define(name, variable)] for the environment at [e]. *)
Definition env_define (e : eref) (name : string) (v : vref) : M unit :=
  modify (fun s =>
    with_envs s (lupd (envs s) e
      (define (env_at s e) name v (var_decl_line (var_at s v))))).

Definition _new_scope_id : M Z :=
  fun s =>
    let n := scope_counter s + 1 in
    (Normal n, with_scope_counter s n).

(** [Environment(parent=parent, scope_id=self._new_scope_id())] *)
Definition new_scope (parent : eref) : M eref :=
  id <- _new_scope_id ;;
  fun s =>
    (Normal (List.length (envs s)),
     with_envs s (envs s ++ [new_env (Some parent) id])%list).

Definition set_current_env (e : eref) : M unit :=
  modify (fun s => with_current_env s e).

Definition on_sp (f : SanityTracker -> SanityTracker) : M unit :=
  modify (fun s => with_sp s (f (sp s))).

Definition emit (text : string) : M unit :=
  modify (fun s => with_output s (output s ++ [text])%list).

(** [random.random()] *)
Definition random_ : M float :=
  fun s => let '(x, g) := Py.random (rng s) in (Normal x, with_rng s g).

(** [all_variables()] of the current environment. *)
Definition current_all_variables : M (list (string * vref)) :=
  gets (fun s => all_variables (envs s) (current_env s)).

(** ** Graph helpers *)

Definition set_add (d : list (string * sset)) (a b : string)
    : list (string * sset) :=
  match dget String.eqb d a with
  | Some s => dset String.eqb d a (sadd s b)
  | None => dset String.eqb d a [b]
  end.

Definition set_discard (d : list (string * sset)) (a b : string)
    : list (string * sset) :=
  match dget String.eqb d a with
  | Some s => dset String.eqb d a (sdiscard s b)
  | None => d
  end.

Definition _add_graph_edge (a b : string) : M unit :=
  modify (fun s =>
    with_graph_edges s (set_add (set_add (graph_edges s) a b) b a)).

Definition _remove_graph_edge (a b : string) : M unit :=
  modify (fun s =>
    with_graph_edges s (set_discard (set_discard (graph_edges s) a b) b a)).

Definition edges_of (s : Interp) (name : string) : sset :=
  match dget String.eqb (graph_edges s) name with
  | Some e => e
  | None => []
  end.

(** [_send_to_afterlife] *)
Definition _send_to_afterlife (name : string) (value : SanValue) (mood : Mood)
    (scars : Z) : M unit :=
  modify (fun s =>
    let old :=
      match dget String.eqb (afterlife s) name with
      | Some l => l
      | None => []
      end in
    with_afterlife s
      (dset String.eqb (afterlife s) name (old ++ [(value, mood, scars, 0)])%list)).

(** [_write_blame]; the time stamp of a log line is not kept. *)
Definition _write_blame (message : string) : M unit :=
  modify (fun s =>
    if blame_path s then with_blame_file s (blame_file s ++ [message])%list
    else s).

(** [names |= more] *)
Definition sunion (a b : sset) : sset := fold_left sadd b a.

(** [_collect_variable_names] *)
Fixpoint _collect_variable_names (node : Expression) : sset :=
  match node with
  | VariableAccess name => [name]
  | BinaryOp l _ r _ _ | ComparisonOp l _ r _ | LogicalOp l _ r =>
      sunion (_collect_variable_names l) (_collect_variable_names r)
  | UnaryOp _ operand => _collect_variable_names operand
  | FunctionCall callee arguments =>
      let names :=
        match callee with VariableAccess name => [name] | _ => [] end in
      fold_left (fun acc arg => sunion acc (_collect_variable_names arg))
                arguments names
  | _ => []
  end.

(** ** Mood, trait and bond helpers *)

Definition trait_interactions (v : SanVariable) : SanVariable :=
  let v :=
    if tmem (var_traits v) ELDER && tmem (var_traits v) TIRED
    then set_traits v (tdiscard (var_traits v) TIRED) else v in
  if tmem (var_traits v) BLESSED && tmem (var_traits v) CURSED
  then set_traits v (tdiscard (var_traits v) CURSED) else v.

(** [_gain_trait] *)
Definition _gain_trait (r : vref) (trait : Trait) : M unit :=
  v <- rd r ;;
  when (Trait_eqb trait BLESSED && tmem (var_traits v) CURSED)
       (upd r (fun v => set_traits v (tdiscard (var_traits v) CURSED))) ;;;
  v <- rd r ;;
  if Trait_eqb trait CURSED && tmem (var_traits v) BLESSED then ret tt
  else
    upd r (fun v => set_traits v (tadd (var_traits v) trait)) ;;;
    upd r (fun v =>
      if tmem (var_traits v) ELDER && tmem (var_traits v) TIRED
      then set_traits v (tdiscard (var_traits v) TIRED) else v) ;;;
    v <- rd r ;;
    mfor (var_bonds v) (fun bonded_name =>
      ob <- env_get bonded_name ;;
      match ob with
      | None => ret tt
      | Some b =>
          bonded <- rd b ;;
          if negb (tmem (var_traits bonded) trait) then
            if tmem (var_traits bonded) PARANOID then ret tt
            else
              upd b (fun bonded =>
                trait_interactions
                  (set_traits bonded (tadd (var_traits bonded) trait)))
          else ret tt
      end).

(** [_propagate_mood] *)
Definition _propagate_mood (r : vref) : M unit :=
  v <- rd r ;;
  mfor (var_bonds v) (fun bonded_name =>
    ob <- env_get bonded_name ;;
    match ob with
    | None => ret tt
    | Some b =>
        bonded <- rd b ;;
        v <- rd r ;;
        if negb (Mood_eqb (var_mood bonded) (var_mood v))
           && negb (tmem (var_traits bonded) ELDER)
        then
          sc <- gets (fun s => stmt_counter s) ;;
          upd b (fun bonded => set_mood_set_at (set_mood bonded (var_mood v)) sc)
        else ret tt
    end).

(** [_set_mood] *)
Definition _set_mood (r : vref) (mood : Mood) : M unit :=
  v <- rd r ;;
  if tmem (var_traits v) ELDER then ret tt
  else
    sc <- gets (fun s => stmt_counter s) ;;
    upd r (fun v => set_mood_set_at (set_mood v mood) sc) ;;;
    _propagate_mood r.

(** [_find_shadow_var] *)
Fixpoint shadow_from (fuel : nat) (envs : eheap) (e : option eref)
    (name : string) : option vref :=
  match fuel, e with
  | S fuel, Some a =>
      match nth_error envs a with
      | Some env =>
          match dget String.eqb (env_variables env) name with
          | Some v => Some v
          | None => shadow_from fuel envs (env_parent env) name
          end
      | None => None
      end
  | _, _ => None
  end.

Definition _find_shadow_var (name : string) : M (option vref) :=
  gets (fun s =>
    shadow_from (List.length (envs s)) (envs s)
                (env_parent (env_at s (current_env s))) name).

Section WithBuiltins.
Variable B : Builtins.

(** ** Expression evaluation

    [ev] and [ex] stand for the recursive calls to [evaluate] and
    [execute]; [interp] below ties the knot. *)
Section Step.
Variable ev : Expression -> M SanValue.
Variable ex : Statement -> M SanValue.

(** String interpolation, [re.sub(r'\{(\w+)\}', replace_var, val)]. *)
Definition is_word_char (c : ascii) : bool :=
  let n := nat_of_ascii c in
  ((48 <=? n) && (n <=? 57) || (65 <=? n) && (n <=? 90)
   || (97 <=? n) && (n <=? 122) || (n =? 95))%nat.

Fixpoint take_word (l : list ascii) : list ascii * list ascii :=
  match l with
  | c :: r =>
      if is_word_char c
      then let '(w, rest) := take_word r in (c :: w, rest)
      else ([], l)
  | [] => ([], [])
  end.

Definition replace_var (vname : string) : M string :=
  ov <- env_get vname ;;
  match ov with
  | Some r =>
      sc <- gets (fun s => stmt_counter s) ;;
      upd r (fun v => record_access v sc) ;;;
      v <- rd r ;;
      ret (str B (var_value v))
  | None => ret ("{" ++ vname ++ "}")
  end.

Fixpoint interpolate (fuel : nat) (l : list ascii) : M string :=
  match fuel, l with
  | S fuel, c :: r =>
      if Ascii.eqb c "{"%char then
        match take_word r with
        | ((_ :: _) as w, close :: rest) =>
            if Ascii.eqb close "}"%char then
              x <- replace_var (string_of_list_ascii w) ;;
              y <- interpolate fuel rest ;;
              ret (x ++ y)
            else y <- interpolate fuel r ;; ret (String c y)
        | _ => y <- interpolate fuel r ;; ret (String c y)
        end
      else y <- interpolate fuel r ;; ret (String c y)
  | _, _ => ret ""
  end.

Definition contains_brace (s : string) : bool :=
  existsb (Ascii.eqb "{"%char) (chars s).

Definition converge (r : vref) (target : vref) : M unit :=
  v <- rd r ;;
  t <- rd target ;;
  match var_value v, var_value t with
  | VNumber x, VNumber y =>
      diff <- lift (num_sub y x) ;;
      step <- lift (num_mul diff (PFloat f0_1)) ;;
      z <- lift (num_add x step) ;;
      upd r (fun v => set_value v (san_number z))
  | _, _ => ret tt
  end.

Definition _eval_var_access (name : string) : M SanValue :=
  ov <- env_get name ;;
  match ov with
  | None => raise (sanity_error ("Variable '" ++ name ++ "' is not defined"))
  | Some r =>
      v <- rd r ;;
      if String.eqb (var_keyword v) "ghost" then
        raise (sanity_error
                 ("Variable '" ++ name ++ "' is a ghost. Use séance to access it."))
      else
        local <- gets (fun s => has_local (envs s) (current_env s) name) ;;
        if String.eqb (var_keyword v) "whisper" && negb local then ret san_void
        else
          sc <- gets (fun s => stmt_counter s) ;;
          upd r (fun v => record_access v sc) ;;;
          (* Envies convergence *)
          envied_by <- gets (fun s => dget String.eqb (envies (relationships s)) name) ;;
          mfor (match envied_by with Some l => l | None => [] end)
               (fun envied_name =>
                  oe <- env_get envied_name ;;
                  match oe with
                  | Some e => converge r e
                  | None => ret tt
                  end) ;;;
          (* Jealous convergence *)
          v <- rd r ;;
          when (Mood_eqb (var_mood v) JEALOUS && var_observed v)
               (shadow <- _find_shadow_var name ;;
                match shadow with
                | Some sh => converge r sh
                | None => ret tt
                end) ;;;
          v <- rd r ;;
          if 0 <? var_grief_remaining v then
            upd r (fun v => set_grief_remaining v (var_grief_remaining v - 1)) ;;;
            ret san_void
          else
            low <- (if var_trust v <=? 0
                    then x <- random_ ;; ret (PrimFloat.ltb x f0_2)
                    else ret false) ;;
            if low then ret san_void
            else
              unlucky <- (if has_trait v UNLUCKY
                          then x <- random_ ;; ret (PrimFloat.ltb x f0_1)
                          else ret false) ;;
              if unlucky then ret san_void
              else
                match var_is_uncertain v, var_previous_value v with
                | true, Some pv =>
                    x <- random_ ;;
                    if PrimFloat.ltb x f0_15 then ret pv else ret (var_value v)
                | _, _ => ret (var_value v)
                end
  end.

Definition ignores_check (lv_name rv_name : string) : M unit :=
  ig <- gets (fun s => ignores (relationships s)) ;;
  let ignores_set := match dget String.eqb ig lv_name with Some l => l | None => [] end in
  if smem ignores_set rv_name then
    raise (sanity_error ("'" ++ lv_name ++ "' ignores '" ++ rv_name
                         ++ "' — they cannot appear in the same expression"))
  else
    let reverse_set := match dget String.eqb ig rv_name with Some l => l | None => [] end in
    if smem reverse_set lv_name then
      raise (sanity_error ("'" ++ rv_name ++ "' ignores '" ++ lv_name
                           ++ "' — they cannot appear in the same expression"))
    else ret tt.

Definition scar_if_coerced (coerced : bool) (node : Expression) : M unit :=
  match coerced, node with
  | true, VariableAccess name =>
      ov <- env_get name ;;
      match ov with
      | Some r =>
          v <- rd r ;;
          when (negb (has_trait v RESILIENT)) (upd r add_scar)
      | None => ret tt
      end
  | _, _ => ret tt
  end.

(** [lv ** rv] *)
Definition num_pow (a b : num) : res num :=
  match a, b with
  | PInt x, PInt y =>
      if 0 <=? y then Ok (PInt (x ^ y))
      else
        match float_of_int x, float_of_int y with
        | Ok f, Ok g =>
            match float_pow B f g with Ok r => Ok (PFloat r) | Err e => Err e end
        | Err e, _ | _, Err e => Err e
        end
  | _, _ =>
      match to_float a, to_float b with
      | Ok f, Ok g =>
          match float_pow B f g with Ok r => Ok (PFloat r) | Err e => Err e end
      | Err e, _ | _, Err e => Err e
      end
  end.

(** [lv % rv], [rv] non-zero *)
Definition num_mod (a b : num) : res num :=
  match a, b with
  | PInt x, PInt y => Ok (PInt (x mod y))
  | _, _ =>
      match to_float a, to_float b with
      | Ok f, Ok g => Ok (PFloat (float_mod B f g))
      | Err e, _ | _, Err e => Err e
      end
  end.

(** [lv *= (1 + random.uniform(-noise, noise))] *)
Definition jitter (noise : float) (x : num) : M num :=
  fun s =>
    let '(u, g) := uniform (PrimFloat.opp noise) noise (rng s) in
    match num_mul x (PFloat (PrimFloat.add 1%float u)) with
    | Ok r => (Normal r, with_rng s g)
    | Err cls => (Raise (PyError cls), with_rng s g)
    end.

Definition _eval_binary (lhs : Expression) (op : string) (rhs : Expression)
    (left_spaces right_spaces : Z) : M SanValue :=
  when ((left_spaces =? right_spaces) && (0 <? left_spaces))
       (on_sp ambiguous_precedence) ;;;
  let left_vars := _collect_variable_names lhs in
  let right_vars := _collect_variable_names rhs in
  mfor left_vars (fun lv_name =>
    mfor right_vars (fun rv_name => ignores_check lv_name rv_name)) ;;;
  l0 <- ev lhs ;;
  r0 <- ev rhs ;;
  '(l, r) <-
    match lhs, rhs with
    | VariableAccess ln, VariableAccess rn =>
        olv <- env_get ln ;;
        orv <- env_get rn ;;
        match olv, orv with
        | Some lr, Some rr =>
            lvar <- rd lr ;;
            rvar <- rd rr ;;
            if Mood_eqb (var_mood lvar) ANGRY && Mood_eqb (var_mood rvar) ANGRY
            then
              let a := copy (var_value rvar) in
              let b := copy (var_value lvar) in
              upd lr (fun v => set_value v a) ;;;
              upd rr (fun v => set_value v b) ;;;
              lvar <- rd lr ;;
              rvar <- rd rr ;;
              ret (var_value lvar, var_value rvar)
            else ret (l0, r0)
        | _, _ => ret (l0, r0)
        end
    | _, _ => ret (l0, r0)
    end ;;
  if is_void l || is_void r then ret san_void
  else if has_type l DUNNO || has_type r DUNNO then ret san_dunno
  else
    let '(left_c, right_c, l_coerced, r_coerced) := coerce B l r op in
    scar_if_coerced l_coerced lhs ;;;
    scar_if_coerced r_coerced rhs ;;;
    if String.eqb op "&" then
      ret (san_word (value_str B left_c ++ value_str B right_c))
    else
      match left_c, right_c with
      | VNumber lv, VNumber rv =>
          insane <- gets (fun s => insanity_mode (sp s)) ;;
          '(lv, rv) <-
            (if insane then
               cur <- gets (fun s => SP.sp (sp s)) ;;
               a <- lift (float_of_int (Z.abs cur)) ;;
               let noise :=
                 PrimFloat.div (PrimFloat.div a 10%float) 100%float in
               lv <- jitter noise lv ;;
               rv <- jitter noise rv ;;
               ret (lv, rv)
             else ret (lv, rv)) ;;
          result <-
            (if String.eqb op "+" then lift (num_add lv rv)
             else if String.eqb op "-" then lift (num_sub lv rv)
             else if String.eqb op "*" then lift (num_mul lv rv)
             else if String.eqb op "/" then
               if num_eqb rv (PInt 0)
               then raise (sanity_error "Division by zero")
               else lift (num_truediv lv rv)
             else if String.eqb op "%" then
               if num_eqb rv (PInt 0)
               then raise (sanity_error "Modulo by zero")
               else lift (num_mod lv rv)
             else if String.eqb op "^" then lift (num_pow lv rv)
             else raise (sanity_error ("Unknown operator: " ++ op))) ;;
          result <-
            match lhs with
            | VariableAccess name =>
                ov <- env_get name ;;
                match ov with
                | Some vr =>
                    v <- rd vr ;;
                    lift (apply_mood_to_number v result)
                | None => ret result
                end
            | _ => ret result
            end ;;
          ret (san_number result)
      | VWord a, VWord b =>
          if String.eqb op "+" then ret (san_word (a ++ b))
          else raise (sanity_error ("Cannot apply '" ++ op ++ "' to Words"))
      | _, _ =>
          match l, r with
          | VSwapped _, _ | _, VSwapped _ => raise (PyError "AttributeError")
          | _, _ =>
              raise (sanity_error
                       ("Type error: " ++ SanType_value (tag l) ++ " " ++ op
                        ++ " " ++ SanType_value (tag r)))
          end
      end.

Definition bool_val (b : bool) : SanValue := if b then san_yep else san_nope.

Definition _eval_unary (operator : string) (operand_e : Expression)
    : M SanValue :=
  operand <- ev operand_e ;;
  if String.eqb operator "-" then
    match operand with
    | VNumber n =>
        neg <- gets (fun s => smem (banned s) "negativity") ;;
        let val := num_neg n in
        ret (san_number (if neg then num_abs val else val))
    | VSwapped _ => raise (PyError "AttributeError")
    | _ =>
        raise (sanity_error ("Cannot negate " ++ SanType_value (tag operand)))
    end
  else if String.eqb operator "not" then
    ret (if is_truthy operand then san_nope else san_yep)
  else ret san_void.

Definition var_of_access (node : Expression) : M (option vref) :=
  match node with
  | VariableAccess name => env_get name
  | _ => ret None
  end.

Definition num_compare (f : num -> num -> bool) (l r : SanValue) : bool :=
  match l, r with
  | VNumber a, VNumber b => f a b
  | _, _ => false
  end.

Definition _eval_comparison (lhs : Expression) (op : string) (rhs : Expression)
    (equal_count : Z) : M SanValue :=
  l <- ev lhs ;;
  r <- ev rhs ;;
  orv <- var_of_access rhs ;;
  afraid <-
    match orv with
    | Some rr => rvar <- rd rr ;; ret (Mood_eqb (var_mood rvar) AFRAID)
    | None => ret false
    end ;;
  if afraid then ret san_void
  else
    result <-
      (if String.eqb op "~=" then lift (vibes_equal B l r)
       else if String.eqb op "==" then ret (loose_equal B l r)
       else if String.eqb op "===" then ret (strict_equal B l r)
       else if String.eqb op "====" then
         match lhs, rhs with
         | VariableAccess a, VariableAccess b => ret (String.eqb a b)
         | _, _ => ret false
         end
       else if String.eqb op "!=" then ret (negb (loose_equal B l r))
       else if String.eqb op "<" then ret (num_compare num_ltb l r)
       else if String.eqb op ">" then ret (num_compare num_gtb l r)
       else if String.eqb op "<=" then ret (num_compare num_leb l r)
       else if String.eqb op ">=" then ret (num_compare num_geb l r)
       else
         let result := strict_equal B l r in
         if result && (5 <=? equal_count) then
           olv <- var_of_access lhs ;;
           orv <- var_of_access rhs ;;
           match olv, orv with
           | Some lr, Some rr =>
               lv <- rd lr ;;
               rv <- rd rr ;;
               let result := result && Mood_eqb (var_mood lv) (var_mood rv) in
               let result :=
                 if 6 <=? equal_count
                 then result && (var_trust lv =? var_trust rv) else result in
               let result :=
                 if 7 <=? equal_count
                 then result && (var_age lv =? var_age rv) else result in
               let result :=
                 if 8 <=? equal_count
                 then result && (var_scars lv =? var_scars rv) else result in
               let result :=
                 if 9 <=? equal_count
                 then result && (var_doubt lv =? var_doubt rv) else result in
               let result :=
                 if 10 <=? equal_count
                 then result && (List.length (var_bonds lv)
                                 =? List.length (var_bonds rv))%nat
                 else result in
               ret result
           | _, _ => ret result
           end
         else ret result) ;;
    ret (bool_val result).

Definition _eval_logical (lhs : Expression) (op : string) (rhs : Expression)
    : M SanValue :=
  l <- ev lhs ;;
  if String.eqb op "and" then
    if negb (is_truthy l) then ret san_nope
    else r <- ev rhs ;; ret (bool_val (is_truthy r))
  else if String.eqb op "or" then
    if is_truthy l then ret san_yep
    else r <- ev rhs ;; ret (bool_val (is_truthy r))
  else if String.eqb op "nor" then
    if is_truthy l then ret san_nope
    else r <- ev rhs ;; ret (bool_val (negb (is_truthy r)))
  else if String.eqb op "but not" then
    r <- ev rhs ;; ret (bool_val (is_truthy l && negb (is_truthy r)))
  else if String.eqb op "xor" then
    r <- ev rhs ;; ret (bool_val (negb (Bool.eqb (is_truthy l) (is_truthy r))))
  else if String.eqb op "unless" then
    r <- ev rhs ;; ret (bool_val (is_truthy l && negb (is_truthy r)))
  else ret san_nope.

Definition on_rel (f : Relationships -> Relationships) : M unit :=
  modify (fun s => with_relationships s (f (relationships s))).

(** [list.remove(x)]: the first occurrence. *)
Fixpoint remove_first (l : list string) (x : string) : list string :=
  match l with
  | [] => []
  | y :: r => if String.eqb x y then r else y :: remove_first r x
  end.

(** The loop of [forgets] over the six relation tables. *)
Definition forget_in (d : list (string * sset)) (a b : string)
    : list (string * sset) :=
  set_discard (set_discard d a b) b a.

Definition _eval_emotional (lhs : Expression) (op : string) (rhs : Expression)
    : M SanValue :=
  match lhs, rhs with
  | VariableAccess left_name, VariableAccess right_name =>
      if String.eqb left_name "" || String.eqb right_name "" then
        raise (sanity_error "Emotional operators require variable names")
      else
      olv <- env_get left_name ;;
      orv <- env_get right_name ;;
      match olv, orv with
      | Some left_var, Some right_var =>
          _add_graph_edge left_name right_name ;;;
          (if String.eqb op "loves" then
             lv <- rd left_var ;;
             when (negb (smem (var_bonds lv) right_name))
                  (upd left_var (fun v => set_bonds v (var_bonds v ++ [right_name])%list) ;;;
                   upd right_var (fun v => set_bonds v (var_bonds v ++ [left_name])%list) ;;;
                   on_sp bond_formed)
           else if String.eqb op "hates" then
             on_rel (fun R =>
               mkRel (set_add (set_add (hates R) left_name right_name)
                              right_name left_name)
                     (fears R) (envies R) (ignores R) (mirrors R) (haunts R))
           else if String.eqb op "fears" then
             on_rel (fun R =>
               mkRel (hates R) (set_add (fears R) left_name right_name)
                     (envies R) (ignores R) (mirrors R) (haunts R))
           else if String.eqb op "envies" then
             on_rel (fun R =>
               mkRel (hates R) (fears R)
                     (set_add (envies R) left_name right_name)
                     (ignores R) (mirrors R) (haunts R))
           else if String.eqb op "ignores" then
             on_rel (fun R =>
               mkRel (hates R) (fears R) (envies R)
                     (set_add (ignores R) left_name right_name)
                     (mirrors R) (haunts R))
           else if String.eqb op "mirrors" then
             on_rel (fun R =>
               mkRel (hates R) (fears R) (envies R) (ignores R)
                     (set_add (mirrors R) left_name right_name) (haunts R))
           else if String.eqb op "haunts" then
             on_rel (fun R =>
               mkRel (hates R) (fears R) (envies R) (ignores R) (mirrors R)
                     (set_add (haunts R) left_name right_name))
           else if String.eqb op "forgets" then
             upd left_var (fun v =>
               if smem (var_bonds v) right_name
               then set_bonds v (remove_first (var_bonds v) right_name) else v) ;;;
             upd right_var (fun v =>
               if smem (var_bonds v) left_name
               then set_bonds v (remove_first (var_bonds v) left_name) else v) ;;;
             _remove_graph_edge left_name right_name ;;;
             on_rel (fun R =>
               mkRel (forget_in (hates R) left_name right_name)
                     (forget_in (fears R) left_name right_name)
                     (forget_in (envies R) left_name right_name)
                     (forget_in (ignores R) left_name right_name)
                     (forget_in (mirrors R) left_name right_name)
                     (forget_in (haunts R) left_name right_name))
           else ret tt) ;;;
          ret san_yep
      | _, _ =>
          raise (sanity_error "Variable not found for emotional operator")
      end
  | _, _ => raise (sanity_error "Emotional operators require variable names")
  end.

(** ** Function calls *)

Definition dget_or {V} (d : list (string * V)) (k : string) (dflt : V) : V :=
  match dget String.eqb d k with Some v => v | None => dflt end.

(** The key of the memoization cache, [tuple(str(a) for a in args)]. *)
Definition memo_key (args : list SanValue) : list string := map (str B) args.

Definition key_eqb : list string -> list string -> bool := list_eqb String.eqb.

(** The loop that copies the captured variables into the function scope. *)
Definition capture (func_env : eref) (entry : string * vref) : M unit :=
  let '(key, r) := entry in
  v <- rd r ;;
  if String.eqb (var_keyword v) "scream" then env_define func_env key r
  else
    let copied_var :=
      new_variable (var_name v) (var_value v) (var_keyword v) (var_decl_line v) in
    let copied_var := set_mood copied_var (var_mood v) in
    let copied_var := set_traits copied_var (var_traits v) in
    let copied_var := set_trust copied_var (var_trust v) in
    let copied_var := set_scars copied_var (var_scars v) in
    c <- alloc_var copied_var ;;
    env_define func_env key c.

Fixpoint bind_params (func_env : eref) (line : Z) (params : list string)
    (args : list SanValue) : M unit :=
  match params with
  | [] => ret tt
  | param :: ps =>
      let val := match args with a :: _ => a | [] => san_void end in
      p <- alloc_var (new_variable param val "sure" line) ;;
      env_define func_env param p ;;;
      bind_params func_env line ps (List.tl args)
  end.

(** [for stmt in statements: result = self.execute(stmt)] *)
Fixpoint run_statements (stmts : list Statement) (result : SanValue)
    : M SanValue :=
  match stmts with
  | [] => ret result
  | stmt :: rest => r <- ex stmt ;; run_statements rest r
  end.

(** The effect of one return terminator on the result. *)
Definition return_terminator (name : string) (result : SanValue)
    (term : string) : M SanValue :=
  if String.eqb term ".." then
    modify (fun s =>
      with_cached_returns s (dset String.eqb (cached_returns s) name result)) ;;;
    ret result
  else if String.eqb term "~" then
    let result :=
      if has_type result NUMBER then swap_fields result else result in
    ret (swap_fields result)
  else if String.eqb term "!" then ret result
  else if String.eqb term "?" then
    emit ("[?] " ++ str B result) ;;; ret result
  else ret result.

Fixpoint return_terminators (name : string) (result : SanValue)
    (terms : list string) : M SanValue :=
  match terms with
  | [] => ret result
  | term :: rest =>
      r <- return_terminator name result term ;;
      return_terminators name r rest
  end.

(** The store into the memoization cache at the end of a [did] call,
    with the eviction of the oldest entry above 1000 entries. *)
Definition memo_store (name : string) (args : list SanValue)
    (result : SanValue) : M unit :=
  cache <- gets (fun s => dget_or (memo_caches s) name []) ;;
  let cache := dset key_eqb cache (memo_key args) result in
  if (1000 <? Z.of_nat (List.length cache)) then
    match cache with
    | (oldest, v) :: rest =>
        modify (fun s =>
          with_memo_caches s (dset String.eqb (memo_caches s) name rest)) ;;;
        _send_to_afterlife ("__memo_" ++ name ++ "_" ++ tuple_repr B oldest)
                           v NEUTRAL 0
    | [] => ret tt
    end
  else
    modify (fun s =>
      with_memo_caches s (dset String.eqb (memo_caches s) name cache)).

(** "Call counting" in [_call_function], up to the 25-call notice: the
    new count. *)
Definition call_counting (name : string) : M Z :=
  count <- gets (fun s => dget_or (call_counts s) name 0 + 1) ;;
  modify (fun s =>
    with_call_counts s (dset String.eqb (call_counts s) name count)) ;;;
  caller <- gets (fun s => env_scope_id (env_at s (current_env s))) ;;
  _add_graph_edge name ("__caller_" ++ str_of_int caller) ;;;
  (if count =? 1 then on_sp first_function_call
   else if 10 <=? count then on_sp repetition_penalty
   else ret tt) ;;;
  when (count =? 25)
       (emit ("[compiler] Function '" ++ name
              ++ "' has been called 25 times. Maybe refactor?")) ;;;
  ret count.

Definition _call_function (name : string) (args : list SanValue)
    (decl : FunctionDeclNode) (closure_env : eref) : M SanValue :=
  skip <-
    match String.eqb (fd_keyword decl) "might", fd_condition decl with
    | true, Some c => cond <- ev c ;; ret (negb (is_truthy cond))
    | _, _ => ret false
    end ;;
  if skip then ret san_void
  else if String.eqb (fd_keyword decl) "will"
          && match fd_body decl with [] => true | _ => false end
  then ret san_dunno
  else
    pinned <- gets (fun s => dget String.eqb (cached_returns s) name) ;;
    match pinned with
    | Some v => ret v
    | None =>
        count <- call_counting name ;;
        (* Memoization for 'did' *)
        hit <-
          (if String.eqb (fd_keyword decl) "did" then
             cache <- gets (fun s => dget_or (memo_caches s) name []) ;;
             modify (fun s =>
               with_memo_caches s (dset String.eqb (memo_caches s) name cache)) ;;;
             ret (dget key_eqb cache (memo_key args))
           else ret None) ;;
        match hit with
        | Some v => ret v
        | None =>
            resent <-
              (if 100 <=? count
               then x <- random_ ;; ret (PrimFloat.ltb x f0_05)
               else ret false) ;;
            if resent then ret san_void
            else
              func_env <- new_scope closure_env ;;
              on_sp enter_scope ;;;
              captured <- gets (fun s => all_variables (envs s) closure_env) ;;
              mfor captured (capture func_env) ;;;
              bind_params func_env (fd_line decl) (fd_params decl) args ;;;
              old_env <- gets (fun s => current_env s) ;;
              set_current_env func_env ;;;
              '(result, return_terms) <-
                try_finally
                  (try_except
                     (r <- run_statements (fd_body decl) san_void ;; ret (r, []))
                     (fun e => match e with ReturnSignal _ _ => true | _ => false end)
                     (fun e =>
                        match e with
                        | ReturnSignal v terms => ret (v, terms)
                        | _ => raise e
                        end))
                  (fun s => with_current_env s old_env) ;;
              result <- return_terminators name result return_terms ;;
              (* Tired function at 50+ calls *)
              result <-
                (if 50 <=? count then
                   match result with
                   | VNumber n =>
                       r <- lift (num_sub n (PInt 1)) ;; ret (san_number r)
                   | VWord w =>
                       if 0 <? slen w then ret (san_word (drop_last w))
                       else ret result
                   | _ => ret result
                   end
                 else ret result) ;;
              when (String.eqb (fd_keyword decl) "did")
                   (memo_store name args result) ;;;
              modify (fun s =>
                with_first_call_results s
                  (if count =? 1 then sadd (_first_call_results s) name
                   else sdiscard (_first_call_results s) name)) ;;;
              ret result
        end
    end.

Definition _eval_function_call (callee : Expression)
    (arguments : list Expression) : M SanValue :=
  match callee with
  | VariableAccess name =>
      if String.eqb name "__chill__" then
        match arguments with
        | a :: _ => ev a
        | [] => ret san_void
        end
      else if String.eqb name "__mood_lock__" then ret san_void
      else
        f <- gets (fun s => dget String.eqb (functions s) name) ;;
        match f with
        | None =>
            raise (sanity_error ("Function '" ++ name ++ "' is not defined"))
        | Some (decl, closure_env) =>
            args <- mmap ev arguments ;;
            _call_function name args decl closure_env
        end
  | _ => raise (sanity_error "Cannot call non-function")
  end.

(** ** Séance *)

Definition _eval_seance (name : string) : M SanValue :=
  on_sp seance_use ;;;
  ov <- env_get name ;;
  ghost <-
    match ov with
    | Some r => v <- rd r ;; ret (String.eqb (var_keyword v) "ghost")
    | None => ret false
    end ;;
  match ghost, ov with
  | true, Some r =>
      sc <- gets (fun s => stmt_counter s) ;;
      upd r (fun v => record_access v sc) ;;;
      v <- rd r ;;
      ret (var_value v)
  | _, _ =>
      entries <- gets (fun s => dget_or (afterlife s) name []) ;;
      match rev entries with
      | [] => ret san_void
      | (value, mood, scars, count) :: older =>
          if 3 <=? count then
            modify (fun s =>
              with_afterlife s (dset String.eqb (afterlife s) name (rev older))) ;;;
            ret san_void
          else
            modify (fun s =>
              with_afterlife s
                (dset String.eqb (afterlife s) name
                      (rev older ++ [(value, mood, scars, count + 1)])%list)) ;;;
            if Mood_eqb mood AFRAID then ret san_void
            else ret (copy value)
      end
  end.

(** ** [evaluate] *)

Definition evaluate_ (node : Expression) : M SanValue :=
  match node with
  | NumberLiteral value => ret (san_number value)
  | StringLiteral value =>
      if contains_brace value then
        val <- interpolate (S (String.length value)) (chars value) ;;
        ret (san_word val)
      else ret (san_word value)
  | BoolLiteral value =>
      if String.eqb value "yep" then ret san_yep
      else if String.eqb value "nope" then ret san_nope
      else ret san_dunno
  | VoidLiteral => ret san_void
  | ListLiteral elements => l <- mmap ev elements ;; ret (san_list l)
  | BlobLiteral pairs =>
      l <- mmap (fun kv => v <- ev (snd kv) ;; ret (fst kv, v)) pairs ;;
      ret (san_blob (dupdate String.eqb [] l))
  | VariableAccess name => _eval_var_access name
  | BinaryOp l op r ls rs => _eval_binary l op r ls rs
  | UnaryOp op operand => _eval_unary op operand
  | ComparisonOp l op r n => _eval_comparison l op r n
  | LogicalOp l op r => _eval_logical l op r
  | EmotionalOp l op r => _eval_emotional l op r
  | FunctionCall callee arguments => _eval_function_call callee arguments
  | SeanceCall name => _eval_seance name
  end.

(** ** Statement executors *)

(** The [finally] clause of [_exec_block]. *)
Definition leave_block (env old_env : eref) (s : Interp) : Interp :=
  let e := env_at s env in
  let s :=
    match env_used_vars e, env_variables e with
    | [], _ :: _ => with_sp s (wasted_scope (sp s))
    | _, _ => s
    end in
  with_current_env s old_env.

Definition _exec_block (statements : list Statement) : M SanValue :=
  old_env <- gets (fun s => current_env s) ;;
  env <- new_scope old_env ;;
  on_sp enter_scope ;;;
  set_current_env env ;;;
  try_finally (run_statements statements san_void) (leave_block env old_env).

(** One of the two loops of [_fire_event]; a body may register further
    listeners under the key while the loop runs, so the list is read again
    at every index. *)
Fixpoint fire_loop (fuel : nat) (key : string) (i : nat) : M unit :=
  match fuel with
  | O => out_of_fuel
  | S fuel =>
      l <- gets (fun s => dget_or (listeners s) key []) ;;
      match nth_error l i with
      | None => ret tt
      | Some (body, env) =>
          old_env <- gets (fun s => current_env s) ;;
          set_current_env env ;;;
          try_finally (_exec_block body)
                      (fun s => with_current_env s old_env) ;;;
          fire_loop fuel key (S i)
      end
  end.

Variable loop_fuel : nat.

Definition _fire_event (target event_type : string) : M unit :=
  fire_loop loop_fuel (target ++ ":" ++ event_type) 0 ;;;
  fire_loop loop_fuel ("any:" ++ event_type) 0.

(** "Excited mood: first function call result -> duplicate into list",
    shared by declarations and assignments.  [None]: not applicable. *)
Definition excited (value_node : option Expression) (r : vref)
    (value : SanValue) : M (option SanValue) :=
  match value_node with
  | Some (FunctionCall (VariableAccess call_name) _) =>
      first <- gets (fun s => smem (_first_call_results s) call_name) ;;
      if negb (String.eqb call_name "") && first then
        _set_mood r EXCITED ;;;
        let dup := VList [copy value; copy value] in
        upd r (fun v => set_value v dup) ;;;
        modify (fun s =>
          with_first_call_results s (sdiscard (_first_call_results s) call_name)) ;;;
        ret (Some dup)
      else ret None
  | _ => ret None
  end.

Definition swear_error (name : string) : M SanValue :=
  _write_blame ("Attempted to reassign swear variable '" ++ name ++ "'") ;;;
  raise (SanityError ("Cannot reassign swear variable '" ++ name
                      ++ "'! Program crashed.") name "Neutral").

Definition bump_doubt (v : SanVariable) : SanVariable :=
  let v := set_doubt v (var_doubt v + 1) in
  if 5 <=? var_doubt v then set_is_uncertain v true else v.

(** What [_exec_var_decl] does once the value is known and no variable
    has stopped the declaration: create, define, bond. *)
Definition declare (line : Z) (keyword name : string)
    (value_node : option Expression) (value : SanValue) : M SanValue :=
  when (String.eqb keyword "ghost")
       (modify (fun s => with_ghost_count s (ghost_count s + 1)) ;;;
        g <- gets (fun s => ghost_count s) ;;
        when (5 <? g)
             (emit "[SanityLang] Warning: Your codebase is haunted.")) ;;;
  let var := new_variable name value keyword line in
  let var := set_history var (var_history var ++ [copy value])%list in
  r <- alloc_var var ;;
  cur <- gets (fun s => current_env s) ;;
  env_define cur name r ;;;
  new_bonds <-
    (fun s =>
       let '(vars', bonds) := detect_bonds B (env_at s cur) (vars s) in
       (Normal bonds, with_vars s vars')) ;;
  mfor new_bonds (fun ab =>
    on_sp bond_formed ;;; _add_graph_edge (fst ab) (snd ab)) ;;;
  dup <- excited value_node r value ;;
  match dup with
  | Some d => ret d
  | None => ret value
  end.

(** The feature bans that open [_exec_var_decl]. *)
Definition decl_banned (keyword : string) (s : Interp) : option string :=
  if String.eqb keyword "ghost" && smem (banned s) "ghosts"
  then Some "ghosts are banned (no ghosts)"
  else if String.eqb keyword "dream" && smem (banned s) "time"
  then Some "dream variables are banned (no time)"
  else None.

(** What [_exec_var_decl] does before it looks the name up: the SP charges
    for the name and the keyword, then "Evaluate value". *)
Definition decl_value (keyword name : string)
    (value_node : option Expression) : M SanValue :=
  (if slen name =? 1 then on_sp single_char_name
   else if 20 <? slen name then on_sp long_name
   else ret tt) ;;;
  when (String.eqb keyword "whatever") (on_sp whatever_declaration) ;;;
  when (String.eqb keyword "curse") (on_sp curse_declaration) ;;;
  match value_node with
  | Some e => ev e
  | None => ret san_void
  end.

Definition _exec_var_decl (line : Z) (keyword name : string)
    (value_node : option Expression) : M SanValue :=
  b <- gets (decl_banned keyword) ;;
  match b with
  | Some msg => raise (sanity_error msg)
  | None =>
    value <- decl_value keyword name value_node ;;
    oe <- env_get name ;;
    match oe with
    | Some r =>
        existing <- rd r ;;
        if String.eqb (var_keyword existing) "swear" then swear_error name
        else if String.eqb keyword "sure"
                && String.eqb (var_keyword existing) "sure" then
          _send_to_afterlife name (var_value existing) (var_mood existing)
                             (var_scars existing) ;;;
          on_sp override_sure ;;;
          when (negb (type_eq B (var_value existing) value)) (upd r add_scar) ;;;
          declare line keyword name value_node value
        else if String.eqb keyword "sure" then
          raise (sanity_error ("Cannot reassign '" ++ var_keyword existing
                               ++ "' variable '" ++ name ++ "' with 'sure'."))
        else if String.eqb keyword "maybe"
                && String.eqb (var_keyword existing) "maybe" then
          upd r bump_doubt ;;;
          upd r (fun v => set_previous_value v (Some (var_value v))) ;;;
          upd r (fun v => set_value v value) ;;;
          upd r (fun v => set_history v (var_history v ++ [copy value])%list) ;;;
          when (String.eqb (var_keyword existing) "scream")
               (_fire_event name "changes") ;;;
          ret value
        else
          raise (sanity_error
                   ("Variable '" ++ name
                    ++ "' already exists and cannot be re-declared with keyword '"
                    ++ keyword ++ "'."))
    | None => declare line keyword name value_node value
    end
  end.

(** The hates enforcement of [_exec_assignment]. *)
Definition hates_check (name : string) (new_value : SanValue) : M unit :=
  hated_targets <- gets (fun s => dget_or (hates (relationships s)) name []) ;;
  mfor hated_targets (fun hated_name =>
    oh <- env_get hated_name ;;
    match oh with
    | Some h =>
        hated_var <- rd h ;;
        if value_eq B (var_value hated_var) new_value then
          raise (sanity_error
                   ("'" ++ name ++ "' hates '" ++ hated_name
                    ++ "' — cannot hold the same value ("
                    ++ value_str B new_value ++ ")"))
        else ret tt
    | None => ret tt
    end).

Definition _exec_assignment (name : string) (value_node : Expression)
    : M SanValue :=
  ov <- env_get name ;;
  match ov with
  | None => raise (sanity_error ("Variable '" ++ name ++ "' is not defined"))
  | Some r =>
      var <- rd r ;;
      (* Keyword checks *)
      if String.eqb (var_keyword var) "sure" then
        raise (sanity_error
                 ("Cannot reassign 'sure' variable '" ++ name
                  ++ "'. Use override (redeclare with sure)."))
      else if String.eqb (var_keyword var) "swear" then swear_error name
      else if String.eqb (var_keyword var) "ghost" then
        raise (sanity_error ("Cannot assign to ghost variable '" ++ name ++ "'"))
      else
        let old_value := var_value var in
        new_value <- ev value_node ;;
        hates_check name new_value ;;;
        (* Maybe: increment doubt *)
        when (String.eqb (var_keyword var) "maybe") (upd r bump_doubt) ;;;
        (* Trust = 0 check: read-only *)
        var <- rd r ;;
        if var_trust var <=? 0 then ret old_value
        else
          upd r (fun v => set_previous_value v (Some old_value)) ;;;
          upd r (fun v => set_value v new_value) ;;;
          upd r (fun v => set_history v (var_history v ++ [copy new_value])%list) ;;;
          (* Pinky propagation *)
          match var_pinky_source var with
          | Some src =>
              if String.eqb src "" then ret tt
              else
                os <- env_get src ;;
                match os with
                | Some sr => upd sr (fun v => set_value v (copy new_value))
                | None => ret tt
                end
          | None => ret tt
          end ;;;
          (* Fears trigger *)
          fr <- gets (fun s => fears (relationships s)) ;;
          mfor fr (fun entry =>
            let '(fearer_name, feared_set) := entry in
            if smem feared_set name then
              fv <- env_get fearer_name ;;
              match fv with
              | Some f => upd f (fun v => set_mood v AFRAID)
              | None => ret tt
              end
            else ret tt) ;;;
          (* Scream events *)
          when (String.eqb (var_keyword var) "scream")
               (_fire_event name "changes") ;;;
          dup <- excited (Some value_node) r new_value ;;
          match dup with
          | Some d => ret d
          | None => ret new_value
          end
  end.

Definition _exec_print (expression : Expression) : M SanValue :=
  value <- ev expression ;;
  emit (str B value) ;;;
  match expression with
  | VariableAccess name =>
      ov <- env_get name ;;
      match ov with
      | Some r => upd r (fun v => set_observed v true)
      | None => ret tt
      end
  | _ => ret tt
  end ;;;
  ret value.

(** *** Control flow *)

Fixpoint but_chain (should_invert : bool)
    (clauses : list (Expression * list Statement))
    (actually_block : option (list Statement)) : M SanValue :=
  match clauses with
  | (bcond_e, bbody) :: rest =>
      bcond <- ev bcond_e ;;
      if xorb (is_truthy bcond) should_invert then _exec_block bbody
      else but_chain should_invert rest actually_block
  | [] =>
      match actually_block with
      | Some b => _exec_block b
      | None => ret san_void
      end
  end.

Definition _exec_if (condition : Expression) (body : list Statement)
    (but_clauses : list (Expression * list Statement))
    (actually_block : option (list Statement)) : M SanValue :=
  cond <- ev condition ;;
  insane <- gets (fun s => insanity_mode (sp s)) ;;
  should_invert <-
    (if insane then x <- random_ ;; ret (PrimFloat.ltb x f0_1)
     else ret false) ;;
  if xorb (is_truthy cond) should_invert then _exec_block body
  else but_chain should_invert but_clauses actually_block.

Definition _exec_unless (condition : Expression) (body : list Statement)
    : M SanValue :=
  cond <- ev condition ;;
  if negb (is_truthy cond) then _exec_block body else ret san_void.

(** *** Loops *)

Definition is_break (e : Exc) : bool :=
  match e with BreakSignal => true | _ => false end.

(** One turn of a [while True] loop whose body is a block: [None] when a
    [BreakSignal] ended the loop. *)
Definition block_or_break (body : list Statement) : M (option SanValue) :=
  try_except (r <- _exec_block body ;; ret (Some r)) is_break
             (fun _ => ret None).

Fixpoint again_loop (fuel : nat) (body : list Statement) (result : SanValue)
    : M SanValue :=
  match fuel with
  | O => out_of_fuel
  | S fuel =>
      r <- block_or_break body ;;
      match r with
      | Some v => again_loop fuel body v
      | None => ret result
      end
  end.

Definition _exec_again (body : list Statement) : M SanValue :=
  again_loop loop_fuel body san_void.

(** The statements of the body of a [pls] loop, each assigned to [result]
    as it returns; the flag tells that a [BreakSignal] ended them, and
    [result] is then that of the last statement that returned. *)
Fixpoint pls_body (body : list Statement) (result : SanValue)
    : M (SanValue * bool) :=
  match body with
  | [] => ret (result, false)
  | stmt :: rest =>
      r <- try_except (v <- ex stmt ;; ret (Some v)) is_break
                      (fun _ => ret None) ;;
      match r with
      | Some v => pls_body rest v
      | None => ret (result, true)
      end
  end.

(** One iteration of the [for] loop of [_exec_pls] at index [i]; the flag
    tells that a [BreakSignal] ended the loop. *)
Definition pls_iteration (line : Z) (counter_name : option string)
    (body : list Statement) (i : Z) (result : SanValue)
    : M (SanValue * bool) :=
  insane <- gets (fun s => insanity_mode (sp s)) ;;
  actual_i <-
    (if insane then
       fun s =>
         let '(d, g) := choice [-1; 0; 1] 0 (rng s) in
         (Normal (i + d), with_rng s g)
     else ret i) ;;
  old_env <- gets (fun s => current_env s) ;;
  env <- new_scope old_env ;;
  match counter_name with
  | Some n =>
      when (negb (String.eqb n ""))
           (c <- alloc_var (new_variable n (san_number (PInt actual_i)) "sure" line) ;;
            env_define env n c)
  | None => ret tt
  end ;;;
  set_current_env env ;;;
  try_finally
    (' (r, broke) <- pls_body body result ;;
     when broke (set_current_env old_env) ;;;
     ret (r, broke))
    (fun s => with_current_env s old_env).

Fixpoint pls_loop (line : Z) (counter_name : option string)
    (body : list Statement) (indices : list Z) (result : SanValue)
    : M SanValue :=
  match indices with
  | [] => ret result
  | i :: rest =>
      ' (r, broke) <- pls_iteration line counter_name body i result ;;
      if broke then ret r
      else pls_loop line counter_name body rest r
  end.

(** [range(start, end)] *)
Definition range (start stop : Z) : list Z :=
  map (fun k => start + Z.of_nat k) (seq 0 (Z.to_nat (stop - start))).

Definition _exec_pls (line : Z) (count_e : Expression)
    (counter_name : option string) (body : list Statement) : M SanValue :=
  count_val <- ev count_e ;;
  match count_val with
  | VNumber n =>
      count <- lift (to_int n) ;;
      (* SP < 50: counter starts at 0, otherwise 1 *)
      cur <- gets (fun s => SP.sp (sp s)) ;;
      let start := if cur <? 50 then 0 else 1 in
      (* pls-in-ugh interaction *)
      q <- gets (fun s => ugh_quit_probability s) ;;
      count <-
        (if PrimFloat.ltb 0%float q then
           f <- lift (float_of_int count) ;;
           c <- lift (int_of_float
                        (PrimFloat.mul f (PrimFloat.sub 1%float q))) ;;
           ret (if c <? 0 then 0 else c)
         else ret count) ;;
      let stop := count + start in
      pls_loop line counter_name body (range start stop) san_void
  | _ => raise (sanity_error "pls loop count must be a Number")
  end.

Definition fmin (a b : float) : float := if PrimFloat.ltb b a then b else a.

Fixpoint ugh_loop (fuel : nat) (condition : Expression) (body : list Statement)
    (iteration : Z) (result : SanValue) : M SanValue :=
  match fuel with
  | O => out_of_fuel
  | S fuel =>
      let iteration := iteration + 1 in
      insane <- gets (fun s => insanity_mode (sp s)) ;;
      let quit_chance := PrimFloat.mul f0_01 (Z2float iteration) in
      let quit_chance :=
        if insane then PrimFloat.mul quit_chance 2%float else quit_chance in
      modify (fun s => with_ugh_quit_probability s (fmin quit_chance 1%float)) ;;;
      x <- random_ ;;
      if PrimFloat.ltb x quit_chance then ret result
      else
        cond <- ev condition ;;
        if negb (is_truthy cond) then ret result
        else
          r <- block_or_break body ;;
          match r with
          | Some v => ugh_loop fuel condition body iteration v
          | None => ret result
          end
  end.

Definition _exec_ugh (condition : Expression) (body : list Statement)
    : M SanValue :=
  old_quit_prob <- gets (fun s => ugh_quit_probability s) ;;
  result <- ugh_loop loop_fuel condition body 0 san_void ;;
  modify (fun s => with_ugh_quit_probability s old_quit_prob) ;;;
  ret result.

Fixpoint hopefully_loop (fuel : nat) (condition : Expression)
    (body : list Statement) (iteration : Z) (result : SanValue) : M SanValue :=
  match fuel with
  | O => out_of_fuel
  | S fuel =>
      cond <- ev condition ;;
      if negb (is_truthy cond) then ret result
      else
        let iteration := iteration + 1 in
        on_sp (if iteration <=? 100 then hopefully_bonus else hopefully_penalty) ;;;
        r <- block_or_break body ;;
        match r with
        | Some v => hopefully_loop fuel condition body iteration v
        | None => ret result
        end
  end.

Definition _exec_hopefully (condition : Expression) (body : list Statement)
    : M SanValue :=
  hopefully_loop loop_fuel condition body 0 san_void.

(** *** Functions *)

Definition _exec_func_decl (line : Z) (keyword name : string)
    (params : list string) (body : list Statement)
    (condition : option Expression) : M SanValue :=
  let node := mkFunctionDecl line keyword name params body condition in
  cur <- gets (fun s => current_env s) ;;
  modify (fun s =>
    with_functions s (dset String.eqb (functions s) name (node, cur))) ;;;
  when (String.eqb keyword "must")
       (_call_function name [] node cur ;;; ret tt) ;;;
  ret san_void.

Definition _exec_return (terminators : list string)
    (value_node : option Expression) : M SanValue :=
  value <-
    match value_node with
    | Some e => ev e
    | None => ret san_void
    end ;;
  raise (ReturnSignal value terminators).

(** *** Error handling *)

Definition _exec_try (line : Z) (try_block : list Statement)
    (cope_param : option string) (cope_block deny_block : option (list Statement))
    : M SanValue :=
  try_except (_exec_block try_block) is_SanityError
    (fun e =>
       match e with
       | SanityError message blame mood =>
           let error_blob :=
             san_blob [("message", san_word message); ("source", san_word "");
                       ("blame", san_word blame); ("mood", san_word mood)] in
           match cope_block with
           | Some cope =>
               old_env <- gets (fun s => current_env s) ;;
               env <- new_scope old_env ;;
               match cope_param with
               | Some p =>
                   if String.eqb p "" then on_sp useless_cope
                   else
                     c <- alloc_var (new_variable p error_blob "sure" line) ;;
                     env_define env p c
               | None => on_sp useless_cope
               end ;;;
               set_current_env env ;;;
               try_finally (_exec_block cope)
                           (fun s => with_current_env s old_env)
           | None =>
               match deny_block with
               | Some _ =>
                   _write_blame message ;;;
                   when (negb (String.eqb blame ""))
                        (ov <- env_get blame ;;
                         match ov with
                         | Some r => upd r (fun v => lose_trust v 10)
                         | None => ret tt
                         end) ;;;
                   ret san_void
               | None => ret san_void
               end
           end
       | _ => raise e
       end).

Definition _exec_blame (target reason : string) : M SanValue :=
  ov <- env_get target ;;
  match ov with
  | Some r =>
      sc <- gets (fun s => stmt_counter s) ;;
      upd r (fun v => set_mood_set_at (set_mood (lose_trust v 20) AFRAID) sc)
  | None => ret tt
  end ;;;
  modify (fun s =>
    match dget String.eqb (chapter_trust s) target with
    | Some t =>
        with_chapter_trust s
          (dset String.eqb (chapter_trust s) target (Z.max 0 (t - 10)))
    | None => s
    end) ;;;
  _write_blame (target ++ ": " ++ reason) ;;;
  raise (SanityError reason target "Neutral").

Definition _exec_oops (message : string) : M SanValue :=
  on_sp oops_penalty ;;;
  modify (fun s => with_oops_count s (oops_count s + 1)) ;;;
  n <- gets (fun s => oops_count s) ;;
  if 10 <=? n then
    raise (sanity_error ("Too many oops! Escalated: " ++ message))
  else raise (sanity_error ("oops: " ++ message)).

(** The loop of [_exec_yolo]: [except (SanityError, Exception)] around
    every statement. *)
Fixpoint yolo_loop (stmts : list Statement) (saved_count : Z) : M Z :=
  match stmts with
  | [] => ret saved_count
  | stmt :: rest =>
      caught <-
        try_except (ex stmt ;;; ret false)
                   (fun e => is_SanityError e || is_Exception e)
                   (fun _ => on_sp yolo_swallow ;;; ret true) ;;
      yolo_loop rest (if caught then saved_count + 1 else saved_count)
  end.

Definition _exec_yolo (body : list Statement) : M SanValue :=
  old_env <- gets (fun s => current_env s) ;;
  env <- new_scope old_env ;;
  set_current_env env ;;;
  saved_count <- yolo_loop body 0 ;;
  set_current_env old_env ;;;
  when (10 <=? saved_count)
       (declared <- gets (fun s => dvalues (env_variables (env_at s env))) ;;
        mfor declared (fun r =>
          upd r (fun v => set_traits v (tadd (var_traits v) CURSED)))) ;;;
  ret san_void.

Definition _exec_cry (message : string) : M SanValue :=
  emit ("[CRASH] " ++ message) ;;;
  raise (sanity_error message).

Definition _exec_when (target event_type : string) (body : list Statement)
    : M SanValue :=
  let key := target ++ ":" ++ event_type in
  modify (fun s =>
    with_listeners s
      (dset String.eqb (listeners s) key
            (dget_or (listeners s) key [] ++ [(body, current_env s)])%list)) ;;;
  ret san_void.

(** *** Self-modification, insanity, relationships *)

Definition _exec_pray (prayer : string) : M SanValue :=
  ps <- gets (fun s => prayers s) ;;
  if String.eqb prayer "speed" && smem ps "safety" then
    on_sp (fun t => set_sp t (SP.sp t - 5)) ;;;
    modify (fun s => with_prayers s (sdiscard (prayers s) "safety")) ;;;
    ret san_void
  else if String.eqb prayer "safety" && smem ps "speed" then
    on_sp (fun t => set_sp t (SP.sp t - 5)) ;;;
    modify (fun s => with_prayers s (sdiscard (prayers s) "speed")) ;;;
    ret san_void
  else
    modify (fun s => with_prayers s (sadd (prayers s) prayer)) ;;;
    (if String.eqb prayer "mercy" then on_sp (fun t => with_pray_mercy t true)
     else if String.eqb prayer "chaos" then on_sp pray_for_chaos
     else if String.eqb prayer "nothing" then on_sp pray_for_nothing
     else ret tt) ;;;
    ret san_void.

Definition _exec_no (feature : string) : M SanValue :=
  modify (fun s => with_banned s (sadd (banned s) feature)) ;;;
  b <- gets (fun s => banned s) ;;
  when (smem b "feelings" && smem b "gambling")
       (emit "[SanityLang] You must be fun at parties. +5 SP." ;;;
        on_sp no_fun_at_parties) ;;;
  ret san_void.

Definition _exec_i_am_okay : M SanValue :=
  all <- current_all_variables ;;
  angry <- gets (fun s =>
    find (fun r => Mood_eqb (var_mood (var_at s r)) ANGRY) (dvalues all)) ;;
  match angry with
  | Some r =>
      v <- rd r ;;
      emit ("[SanityLang] No you're not. (" ++ var_name v ++ " is still Angry)") ;;;
      ret san_void
  | None => on_sp i_am_okay ;;; ret san_void
  end.

Definition _exec_forgets_everyone (variable : string) : M SanValue :=
  ov <- env_get variable ;;
  match ov with
  | Some r =>
      v <- rd r ;;
      mfor (var_bonds v) (fun bonded =>
        oo <- env_get bonded ;;
        match oo with
        | Some o =>
            upd o (fun other =>
              if smem (var_bonds other) variable
              then set_bonds other (remove_first (var_bonds other) variable)
              else other)
        | None => ret tt
        end ;;;
        _remove_graph_edge variable bonded) ;;;
      upd r (fun v => set_bonds v [])
  | None => ret tt
  end ;;;
  ret san_void.

(** The clean-up loop of [_exec_delete] on one relation table. *)
Definition purge (d : list (string * sset)) (variable : string)
    : list (string * sset) :=
  map (fun kv => (fst kv, sdiscard (snd kv) variable))
      (dpop String.eqb d variable).

Definition _exec_delete (variable : string) : M SanValue :=
  ov <- env_get variable ;;
  match ov with
  | Some r =>
      var <- rd r ;;
      _send_to_afterlife (var_name var) (var_value var) (var_mood var)
                         (var_scars var) ;;;
      (* Handle pinky bonds *)
      match var_pinky_source var with
      | Some src =>
          if String.eqb src "" then ret tt
          else
            os <- env_get src ;;
            match os with
            | Some sr =>
                source <- rd sr ;;
                _send_to_afterlife (var_name source) (var_value source)
                                   (var_mood source) (var_scars source) ;;;
                on_sp pinky_break
            | None => ret tt
            end
      | None => ret tt
      end ;;;
      (* Handle emotional bonds: grief *)
      mfor (var_bonds var) (fun bonded_name =>
        ob <- env_get bonded_name ;;
        match ob with
        | Some b =>
            upd b (fun v => set_grief_remaining v 5) ;;;
            on_sp bond_broken
        | None => ret tt
        end) ;;;
      (* Haunts *)
      haunts_targets <-
        gets (fun s => dget_or (haunts (relationships s)) variable []) ;;
      mfor haunts_targets (fun target_name =>
        ot <- env_get target_name ;;
        match ot with
        | Some t =>
            upd t (fun v => set_grief_remaining (set_mood v AFRAID) 100)
        | None => ret tt
        end) ;;;
      (* Clean up relationships for deleted variable *)
      on_rel (fun R =>
        mkRel (purge (hates R) variable) (purge (fears R) variable)
              (purge (envies R) variable) (purge (ignores R) variable)
              (purge (mirrors R) variable) (purge (haunts R) variable)) ;;;
      when (String.eqb (var_keyword var) "ghost")
           (modify (fun s => with_ghost_count s (ghost_count s - 1)))
  | None => ret tt
  end ;;;
  ret san_void.

(** *** Terminators *)

Definition apply_terminator (value : SanValue) (term : string) : M unit :=
  if String.eqb term "." then ret tt
  else if String.eqb term ".." then ret tt
  else if String.eqb term "~" then
    b <- gets (fun s => banned s) ;;
    if negb (smem b "uncertainty") then
      all <- current_all_variables ;;
      mfor (dvalues all) (fun r =>
        v <- rd r ;;
        sc <- gets (fun s => stmt_counter s) ;;
        when (var_last_accessed v =? sc)
             (upd r (fun v => set_is_uncertain v true)))
    else ret tt
  else if String.eqb term "!" then
    all <- current_all_variables ;;
    mfor (dvalues all) (fun r =>
      v <- rd r ;;
      sc <- gets (fun s => stmt_counter s) ;;
      when (var_last_accessed v =? sc) (upd r (fun v => set_traits v [])))
  else if String.eqb term "?" then
    emit ("[?] " ++ str B value) ;;;
    all <- current_all_variables ;;
    mfor (dvalues all) (fun r =>
      v <- rd r ;;
      sc <- gets (fun s => stmt_counter s) ;;
      when (var_last_accessed v =? sc)
           (upd r (fun v => set_observed v true) ;;;
            v <- rd r ;;
            when (has_type (var_value v) DUNNO)
                 (x <- random_ ;;
                  upd r (fun v =>
                    set_value v (if PrimFloat.ltb x f0_5 then san_yep
                                 else san_nope)))))
  else ret tt.

Definition _apply_terminators (value : SanValue) (terminators : list string)
    : M SanValue :=
  mfor terminators (apply_terminator value) ;;; ret value.

(** *** Insanity mode *)

Definition _apply_insanity_effects : M unit :=
  modify (fun s => with_insanity_swap_counter s (_insanity_swap_counter s + 1)) ;;;
  c <- gets (fun s => _insanity_swap_counter s) ;;
  when (20 <=? c)
       (modify (fun s => with_insanity_swap_counter s 0) ;;;
        all_vars <- current_all_variables ;;
        let names := dkeys all_vars in
        when (2 <=? Z.of_nat (List.length names))
             ('(a, b) <-
                (fun s =>
                   let '(a, b, g) := sample2 names "" (rng s) in
                   (Normal (a, b), with_rng s g)) ;;
              oa <- env_get a ;;
              ob <- env_get b ;;
              edges <- gets (fun s => edges_of s b) ;;
              match oa, ob with
              | Some va, Some vb =>
                  when (smem edges a)
                       (x <- rd va ;;
                        y <- rd vb ;;
                        upd va (fun v => set_value v (var_value y)) ;;;
                        upd vb (fun v => set_value v (var_value x)))
              | _, _ => ret tt
              end)).

(** ** [execute] *)

(** The periodic lifecycle checks on one variable (every 50 statements). *)
Definition sweep_var (r : vref) : M unit :=
  sc <- gets (fun s => stmt_counter s) ;;
  v <- rd r ;;
  g <- gets (fun s => rng s) ;;
  '(v', g') <- lift (check_whatever_mutation v sc g) ;;
  modify (fun s => with_rng s g') ;;;
  upd r (fun _ => v') ;;;
  upd r (fun v => check_mood_decay v sc) ;;;
  upd r (fun v => check_sad_from_neglect v sc) ;;;
  upd r (fun v =>
    if var_observed v && (200 <=? sc - var_last_accessed v)
    then set_observed v false else v) ;;;
  v <- rd r ;;
  edge_count <- gets (fun s => Z.of_nat (List.length (edges_of s (var_name v)))) ;;
  when ((5 <=? edge_count) && negb (tmem (var_traits v) POPULAR))
       (_gain_trait r POPULAR) ;;;
  v <- rd r ;;
  when ((edge_count =? 0) && (100 <=? sc - var_last_accessed v)
        && negb (tmem (var_traits v) LONELY))
       (_gain_trait r LONELY) ;;;
  upd r (fun v =>
    if tmem (var_traits v) POPULAR
    then set_trust v (Z.min 100 (var_trust v + 1)) else v) ;;;
  upd r (fun v =>
    if tmem (var_traits v) LONELY then
      let v := set_trust v (Z.max 0 (var_trust v - 1)) in
      if Mood_eqb (var_mood v) NEUTRAL
      then set_mood_set_at (set_mood v SAD) sc else v
    else v).

(** "Mirror sync: apply pending mirror values AFTER statement executes" *)
Definition mirror_apply : M unit :=
  pending <- gets (fun s => mirror_pending s) ;;
  mfor pending (fun entry =>
    let '(target_name, pending_val) := entry in
    ov <- env_get target_name ;;
    match ov with
    | Some r => upd r (fun v => set_value v pending_val)
    | None => ret tt
    end).

(** "Prepare next tick's mirror values" *)
Definition mirror_rearm : M unit :=
  modify (fun s => with_mirror_pending s []) ;;;
  ms <- gets (fun s => mirrors (relationships s)) ;;
  mfor ms (fun entry =>
    let '(mirrorer, targets) := entry in
    mfor targets (fun target =>
      osv <- env_get target ;;
      match osv with
      | Some sr =>
          source_var <- rd sr ;;
          modify (fun s =>
            with_mirror_pending s
              (dset String.eqb (mirror_pending s) mirrorer
                    (copy (var_value source_var))))
      | None => ret tt
      end)).

Definition _dispatch (node : Statement) : M SanValue :=
  match node with
  | VarDeclaration line _ keyword name value =>
      _exec_var_decl line keyword name value
  | Assignment _ _ name value => _exec_assignment name value
  | PrintStatement _ _ expression => _exec_print expression
  | ExpressionStatement _ _ expression => ev expression
  | IfStatement _ _ c b bs a => _exec_if c b bs a
  | UnlessStatement _ _ c b => _exec_unless c b
  | AgainLoop _ _ b => _exec_again b
  | PlsLoop line _ count counter_name b => _exec_pls line count counter_name b
  | UghLoop _ _ c b => _exec_ugh c b
  | HopefullyLoop _ _ c b => _exec_hopefully c b
  | EnoughStatement _ _ => raise BreakSignal
  | FunctionDecl line _ keyword name params b c =>
      _exec_func_decl line keyword name params b c
  | ReturnStatement _ terminators value => _exec_return terminators value
  | TryCope line _ t p c d => _exec_try line t p c d
  | BlameStatement _ _ target reason => _exec_blame target reason
  | OopsStatement _ _ message => _exec_oops message
  | YoloBlock _ _ b => _exec_yolo b
  | WhenBlock _ _ target event_type b => _exec_when target event_type b
  | CryStatement _ _ message => _exec_cry message
  | PrayStatement _ _ prayer => _exec_pray prayer
  | NoStatement _ _ feature => _exec_no feature
  | IAmOkayStatement _ _ => _exec_i_am_okay
  | ForgetsEveryone _ _ variable => _exec_forgets_everyone variable
  | DeleteStatement _ _ variable => _exec_delete variable
  end.

(** What [execute] does before it dispatches: the statement counter,
    the ghost tax, the periodic sweep and the insanity effects. *)
Definition prelude (node : Statement) : M unit :=
  modify (fun s => with_stmt_counter s (stmt_counter s + 1)) ;;;
  modify (fun s => with_stmt_history s (stmt_history s ++ [node])%list) ;;;
  sc <- gets (fun s => stmt_counter s) ;;
  ghosts <- gets (fun s => ghost_count s) ;;
  (* Ghost tax every 100 statements *)
  when ((sc mod 100 =? 0) && (0 <? ghosts)) (on_sp (ghost_tax ghosts)) ;;;
  (* Periodic variable lifecycle checks (every 50 statements) *)
  when (sc mod 50 =? 0)
       (all <- current_all_variables ;; mfor (dvalues all) sweep_var) ;;;
  (* Insanity mode effects *)
  insane <- gets (fun s => insanity_mode (sp s)) ;;
  when insane _apply_insanity_effects.

(** What [execute] does once the dispatch has returned: the mirror sync,
    then the terminators. *)
Definition postlude (node : Statement) (result : SanValue) : M SanValue :=
  mirror_apply ;;;
  mirror_rearm ;;;
  (* Apply terminators *)
  match terminators_of node with
  | [] => ret result
  | terms => _apply_terminators result terms
  end.

Definition execute_ (node : Statement) : M SanValue :=
  prelude node ;;;
  result <- _dispatch node ;;
  postlude node result.

End Step.

(** ** Tying the knot

    [interp n] gives [evaluate] and [execute] with [n] levels of nested
    recursive calls, and [n] turns for every unbounded loop. *)
Fixpoint interp (fuel : nat)
    : (Expression -> M SanValue) * (Statement -> M SanValue) :=
  match fuel with
  | O => (fun _ => out_of_fuel, fun _ => out_of_fuel)
  | S n =>
      let p := interp n in
      (evaluate_ (fst p) (snd p), execute_ (fst p) (snd p) (S n))
  end.

Definition evaluate (fuel : nat) : Expression -> M SanValue := fst (interp fuel).
Definition execute (fuel : nat) : Statement -> M SanValue := snd (interp fuel).

(** ** [Interpreter.__init__] and [execute_program] *)

Record Flags : Type := mkFlags {
  flag_chaos : bool;
  flag_strict : bool;
  flag_lenient : bool;
  flag_pray : bool;
  flag_audit : bool
}.

Definition no_flags : Flags := mkFlags false false false false false.

(** [Interpreter(source_path, flags)]; [has_path] is
    [source_path != "<repl>"]. *)
Definition new_interpreter (has_path : bool) (flags : Flags) (g : Rng)
    : Interp :=
  mkInterp
    (SP.init (if flag_chaos flags then 0 else 100) (flag_strict flags)
             (flag_lenient flags) (flag_pray flags) (flag_audit flags))
    [new_env None 0] [] 0%nat 0%nat 0 0 [] 0 [] [] [] [] 0 [] [] [] [] []
    (mkRel [] [] [] [] [] []) [] [] 0 0%float [] [] has_path [] None g.

(** [_save_dreams] *)
Definition _save_dreams : M unit :=
  has_path <- gets (fun s => blame_path s) ;;
  if negb has_path then ret tt
  else
    all <- current_all_variables ;;
    modify (fun s =>
      let dreams :=
        fold_left
          (fun acc kv =>
             let v := var_at s (snd kv) in
             if String.eqb (var_keyword v) "dream"
             then dset String.eqb acc (fst kv) (var_value v) else acc)
          all [] in
      match dreams with
      | [] => s
      | _ => with_dream_file s (Some dreams)
      end).

Section Program.
Variable fuel : nat.

(** [_populate_args_and_flags] is called first by [execute_program]; its
    definition is not part of the sources at hand, so it is a parameter. *)
Variable _populate_args_and_flags : M unit.

Definition exec_block := _exec_block (execute fuel).

Fixpoint run_arcs (arcs : list ArcDef) (completed_arcs : sset) : M unit :=
  match arcs with
  | [] => ret tt
  | arc :: rest =>
      match arc_requires arc with
      | Some req =>
          if negb (String.eqb req "") && negb (smem completed_arcs req)
          then run_arcs rest completed_arcs
          else
            exec_block (arc_body arc) ;;;
            run_arcs rest (sadd completed_arcs (arc_name arc))
      | None =>
          exec_block (arc_body arc) ;;;
          run_arcs rest (sadd completed_arcs (arc_name arc))
      end
  end.

Definition execute_program (program : Program) : M SanValue :=
  on_sp (fun t => with_runtime t true) ;;;
  _populate_args_and_flags ;;;
  (* Register chapters *)
  mfor (chapters program) (fun name =>
    modify (fun s =>
      match dget String.eqb (chapter_trust s) name with
      | Some _ => s
      | None => with_chapter_trust s (dset String.eqb (chapter_trust s) name 70)
      end)) ;;;
  (* Execute must functions *)
  fs <- gets (fun s => functions s) ;;
  mfor fs (fun entry =>
    let '(name, (decl, env)) := entry in
    when (String.eqb (fd_keyword decl) "must")
         (_call_function (evaluate fuel) (execute fuel) name [] decl env ;;; ret tt)) ;;;
  (* Load dream variables: no dream file *)
  (* Narrative structure *)
  match prologue program with
  | Some b => exec_block b ;;; ret tt
  | None => ret tt
  end ;;;
  run_arcs (arcs program) [] ;;;
  match climax program with
  | Some b => exec_block b ;;; ret tt
  | None => ret tt
  end ;;;
  (* Main body *)
  result <- run_statements (execute fuel) (body program) san_void ;;
  (* Epilogue (always runs) *)
  match epilogue program with
  | Some b =>
      try_except (exec_block b ;;; ret tt) is_Exception (fun _ => ret tt)
  | None => ret tt
  end ;;;
  (* Save dream variables *)
  _save_dreams ;;;
  (* Check uncalled 'should' functions *)
  fs <- gets (fun s => functions s) ;;
  mfor fs (fun entry =>
    let '(name, (decl, _)) := entry in
    uncalled <- gets (fun s => dget_or (call_counts s) name 0 =? 0) ;;
    when (String.eqb (fd_keyword decl) "should" && uncalled)
         (on_sp should_not_called)) ;;;
  ret result.

End Program.
End WithBuiltins.
End Runtime.

(* ================================================================== *)
(** * Programs used by the statements below *)
(* ================================================================== *)

Module Programs.
Import Py Types SP Vars Ast Runtime.

(** An instance of the built-ins for closed runs.  None of the programs
    below prints a float, compares containers or takes a power, so the
    choice does not show in any result. *)
Definition plain_builtins : Builtins :=
  Build_Builtins (fun _ => "") (fun _ => None)
                 (fun _ _ => Err "OverflowError") (fun x _ => x)
                 (fun _ _ => false) (fun _ => "") (fun _ => "").

(** A random source whose every [random.random()] is [0.5]. *)
Definition half_rng : Rng := mkRng (fun _ => 2 ^ 52) 0.

Definition lenient_flags : Flags := mkFlags false false true false false.

Definition int_lit (z : Z) : Expression := NumberLiteral (PInt z).
Definition var (name : string) : Expression := VariableAccess name.
Definition call (f : string) (args : list Expression) : Expression :=
  FunctionCall (VariableAccess f) args.
Definition program (statements : list Statement) : Program :=
  mkProgram [] statements None [] None None.

(** [Interpreter(flags=flags).run(source)] for the parsed [program], with
    [fuel] levels of nesting. *)
Definition run (B : Builtins) (fuel : nat) (flags : Flags) (g : Rng)
    (p : Program) : Outcome SanValue * Interp :=
  execute_program B fuel (ret tt) p (new_interpreter false flags g).

(** The statements of [l] in turn, as the main body runs them. *)
Definition steps (B : Builtins) (fuel : nat) (l : list Statement)
    (s : Interp) : Outcome SanValue * Interp :=
  run_statements (execute B fuel) l san_void s.



(** <<
    did fib(n) {
        if n <= 1 { return n. }
        return fib(n - 1) + fib(n - 2).
    }
    print(fib(10)).
    >> *)
Definition fib_program : Program :=
  program
    [ FunctionDecl 1 [] "did" "fib" ["n"]
        [ IfStatement 2 [] (ComparisonOp (var "n") "<=" (int_lit 1) 0)
            [ReturnStatement 2 ["."] (Some (var "n"))] [] None;
          ReturnStatement 3 ["."]
            (Some (BinaryOp (call "fib" [BinaryOp (var "n") "-" (int_lit 1) 1 1])
                            "+"
                            (call "fib" [BinaryOp (var "n") "-" (int_lit 2) 1 1])
                            1 1)) ]
        None;
      PrintStatement 5 ["."] (call "fib" [int_lit 10]) ].

(** <<
    did square(n) {
        print("computing").
        return n * n.
    }
    print(square(5)).
    print(square(5)).
    >> *)
Definition square_program : Program :=
  program
    [ FunctionDecl 1 [] "did" "square" ["n"]
        [ PrintStatement 2 ["."] (StringLiteral "computing");
          ReturnStatement 3 ["."] (Some (BinaryOp (var "n") "*" (var "n") 1 1)) ]
        None;
      PrintStatement 5 ["."] (call "square" [int_lit 5]);
      PrintStatement 6 ["."] (call "square" [int_lit 5]) ].

(** The declaration of [square] above, and the interpreter after
    <<
    did square(n) { print("computing"). return n * n. }
    print(square(5)).
    >> *)
Definition square_decl : FunctionDeclNode :=
  mkFunctionDecl 1 "did" "square" ["n"]
    [ PrintStatement 2 ["."] (StringLiteral "computing");
      ReturnStatement 3 ["."] (Some (BinaryOp (var "n") "*" (var "n") 1 1)) ]
    None.

Definition square_called : Interp :=
  snd (run plain_builtins 10 no_flags half_rng
         (program
            [ FunctionDecl 1 [] "did" "square" ["n"] (fd_body square_decl) None;
              PrintStatement 5 ["."] (call "square" [int_lit 5]) ])).

(** <<
    did f(n) { print("run"). return n. }
    pls 1001 as i { f(i). }
    f(1).
    >> *)
Definition eviction_program : Program :=
  program
    [ FunctionDecl 1 [] "did" "f" ["n"]
        [ PrintStatement 1 ["."] (StringLiteral "run");
          ReturnStatement 1 ["."] (Some (var "n")) ]
        None;
      PlsLoop 2 [] (int_lit 1001) (Some "i")
        [ExpressionStatement 2 ["."] (call "f" [var "i"])];
      ExpressionStatement 3 ["."] (call "f" [int_lit 1]) ].

(** <<
    cry "boom".
    epilogue { print("cleanup"). }
    >> *)
Definition crash_program : Program :=
  mkProgram [] [CryStatement 1 ["."] "boom"] None [] None
            (Some [PrintStatement 2 ["."] (StringLiteral "cleanup")]).

(** <<
    pls 3 as i {
        yolo { enough. }
        print(i).
    }
    >> *)
Definition yolo_break_program : Program :=
  program
    [ PlsLoop 1 [] (int_lit 3) (Some "i")
        [ YoloBlock 2 [] [EnoughStatement 2 ["."]];
          PrintStatement 3 ["."] (var "i") ] ].

(** <<
    does f() {
        yolo { return 1. }
        return 2.
    }
    print(f()).
    >> *)
Definition yolo_return_program : Program :=
  program
    [ FunctionDecl 1 [] "does" "f" []
        [ YoloBlock 2 [] [ReturnStatement 2 ["."] (Some (int_lit 1))];
          ReturnStatement 3 ["."] (Some (int_lit 2)) ]
        None;
      PrintStatement 5 ["."] (call "f" []) ].

(** [pray for chaos.] *)
Definition chaos_program : Program :=
  program [PrayStatement 1 ["."] "chaos"].

(** ** Scenarios *)

(** The interpreter after the main body [l]. *)
Definition after (l : list Statement) : Interp :=
  snd (run plain_builtins 6 no_flags half_rng (program l)).


(** <<
    swear x = 42.
    sure y = 100.
    x envies y.
    >> *)
Definition swear_envy : list Statement :=
  [ VarDeclaration 1 ["."] "swear" "x" (Some (int_lit 42));
    VarDeclaration 2 ["."] "sure" "y" (Some (int_lit 100));
    ExpressionStatement 3 ["."] (EmotionalOp (var "x") "envies" (var "y")) ].



(** [maybe a = 1.] *)
Definition declare_a : list Statement :=
  [VarDeclaration 1 ["."] "maybe" "a" (Some (int_lit 1))].





(** [pls 5 as i { print(i). }] *)
Definition count_to_five : Statement :=
  PlsLoop 1 [] (int_lit 5) (Some "i") [PrintStatement 1 ["."] (var "i")].

(** [yolo { cry "x". ... cry "x". }] with eleven [cry]: 55 SP are lost. *)
Definition lower_sp : Statement :=
  YoloBlock 1 [] (repeat (CryStatement 1 ["."] "x") 11).



(** <<
    maybe a = 1.
    maybe b = 42.
    a mirrors b.
    >> *)
Definition a_mirrors_b : list Statement :=
  [ VarDeclaration 1 ["."] "maybe" "a" (Some (int_lit 1));
    VarDeclaration 2 ["."] "maybe" "b" (Some (int_lit 42));
    ExpressionStatement 3 ["."] (EmotionalOp (var "a") "mirrors" (var "b")) ].




(** <<
    pls 3 as i {
        try { enough. } cope (e) { print("coped"). }
        print(i).
    }
    >> *)
Definition try_break_program : Program :=
  program
    [ PlsLoop 1 [] (int_lit 3) (Some "i")
        [ TryCope 2 [] [EnoughStatement 2 ["."]] (Some "e")
            (Some [PrintStatement 2 ["."] (StringLiteral "coped")]) None;
          PrintStatement 3 ["."] (var "i") ] ].

(** <<
    print("main").
    epilogue { print("cleanup"). cry "late". print("never"). }
    >> *)
Definition late_crash_program : Program :=
  mkProgram [] [PrintStatement 1 ["."] (StringLiteral "main")] None [] None
            (Some [ PrintStatement 2 ["."] (StringLiteral "cleanup");
                    CryStatement 3 ["."] "late";
                    PrintStatement 4 ["."] (StringLiteral "never") ]).

End Programs.

(* ================================================================== *)
(** * Properties *)
(* ================================================================== *)

Import Py Types SP Vars Ast Runtime Programs.

Unset Implicit Arguments.

(** ** Vocabulary of the statements

    [returns m s Q]: from [s], [m] returns normally, with a result and a
    final state that satisfy [Q].  [raises m s e Q]: from [s], [m] raises
    [e], in a state that satisfies [Q]. *)

Definition returns {A} (m : M A) (s : Interp) (Q : A -> Interp -> Prop) : Prop :=
  exists a s', m s = (Normal a, s') /\ Q a s'.

Definition raises {A} (m : M A) (s : Interp) (e : Exc) (Q : Interp -> Prop) : Prop :=
  exists s', m s = (Raise e, s') /\ Q s'.

(** The part of the environments that name resolution reads. *)
Definition skel (envs : eheap) : list (option eref * list (string * vref)) :=
  map (fun e => (env_parent e, env_variables e)) envs.

(** Two states in which every name resolves to the same variable. *)
Definition same_scopes (s s' : Interp) : Prop :=
  skel (envs s') = skel (envs s) /\ current_env s' = current_env s.






(** How many times a body that prints [run] has run. *)
Definition count_runs (l : list string) : nat :=
  List.length (filter (String.eqb "run") l).


(** [f] applied [k] times. *)
Fixpoint iterate {A : Type} (k : nat) (f : A -> A) (x : A) : A :=
  match k with
  | O => x
  | S k => f (iterate k f x)
  end.

(** A table of a Python [dict] holds a key once. *)
Fixpoint keys_distinct {V : Type} (d : list (string * V)) : bool :=
  match d with
  | [] => true
  | (k, _) :: r => negb (dmem String.eqb r k) && keys_distinct r
  end.

(** The lines that the terminators of a statement print for its result:
    one per [?]. *)
Definition debug_lines (B : Builtins) (value : SanValue)
    (terminators : list string) : list string :=
  map (fun _ => "[?] " ++ str B value) (filter (String.eqb "?") terminators).

(** [k] séances on [name] in a row: what each gave, and the last state. *)
Fixpoint seance_times (k : nat) (name : string) (s : Interp)
    : list (Outcome SanValue) * Interp :=
  match k with
  | O => ([], s)
  | S k =>
      let '(o, s1) := _eval_seance name s in
      let '(l, s2) := seance_times k name s1 in
      (o :: l, s2)
  end.

(** No live [ghost] variable answers to [name]. *)
Definition no_live_ghost (name : string) (s : Interp) : Prop :=
  forall e r, resolve (envs s) (current_env s) name = Some (e, r) ->
              var_keyword (var_at s r) <> "ghost".

(** [b in self.graph_edges.get(a, set())] *)
Definition linked (s : Interp) (a b : string) : bool := smem (edges_of s a) b.

(** Every edge of the dependency graph is kept in both directions. *)
Definition graph_symmetric (s : Interp) : Prop :=
  forall a b, linked s a b = linked s b a.

(** At most one of the prayers for speed and for safety is active. *)
Definition speed_or_safety (s : Interp) : bool :=
  negb (smem (prayers s) "speed" && smem (prayers s) "safety").

(** The row that [levenshtein_distance] holds once [k] characters of a word
    have been compared with the word itself: the distance between two
    prefixes of one word is the difference of their lengths. *)
Definition own_row (k : nat) (from len : nat) : list Z :=
  map (fun t => Z.abs (Z.of_nat k - Z.of_nat t)) (seq from len).

(** ** The lenient floor of the sanity tracker *)

Lemma set_sp_lenient_floor (t : SanityTracker) (value : Z) :
  lenient t = true -> 10 <= _sp (set_sp t value).
Proof.
  intros Hl. unfold set_sp, _check_thresholds. rewrite Hl. simpl.
  destruct (value <? 10) eqn:Hv;
    repeat match goal with
           | |- context [if ?c then _ else _] => destruct c
           end; simpl; lia.
Qed.

Lemma penalty_lenient_floor (reason : string) (amount : Z) (t : SanityTracker) :
  lenient t = true -> 10 <= _sp (penalty reason amount t).
Proof. intros Hl. unfold penalty. apply set_sp_lenient_floor. exact Hl. Qed.

Lemma bonus_lenient_floor (reason : string) (amount : Z) (t : SanityTracker) :
  lenient t = true -> 10 <= _sp (bonus reason amount t).
Proof. intros Hl. unfold bonus. apply set_sp_lenient_floor. exact Hl. Qed.

Lemma i_am_okay_fifty (t : SanityTracker) : _sp (i_am_okay t) = 50.
Proof. reflexivity. Qed.

Lemma pray_for_chaos_zero (t : SanityTracker) :
  _sp (pray_for_chaos t) = 0 /\ insanity_mode (pray_for_chaos t) = true.
Proof. split; reflexivity. Qed.

(** C9 (failing input).  Under [--lenient], [pray for chaos.] leaves the
    stored SP at 0, below the floor of 10, and the interpreter in insanity
    mode: [pray_for_chaos] assigns [_sp] without going through the setter
    that clamps. *)
Theorem pray_for_chaos_ignores_lenient_floor (B : Builtins) (g : Rng) :
  let '(o, s) := run B 2 lenient_flags g chaos_program in
  o = Normal VVoid /\ lenient (sp s) = true /\ _sp (sp s) = 0
  /\ insanity_mode (sp s) = true.
Proof. vm_compute. repeat split. Qed.

(** ** The epilogue *)

(** C3 (failing input).  When a statement of the main body raises, the
    program ends with that error and the epilogue has not run: "cleanup"
    is never printed. *)
Theorem epilogue_skipped_after_crash (B : Builtins) (g : Rng) :
  let '(o, s) := run B 3 no_flags g crash_program in
  o = Raise (SanityError "boom" "" "Neutral")
  /\ output s = ["[CRASH] boom"].
Proof. vm_compute. split; reflexivity. Qed.

(** An error raised in the epilogue ends the epilogue and is discarded: the
    program ends normally. *)
Lemma epilogue_errors_discarded (B : Builtins) (g : Rng) :
  let '(o, s) := run B 3 no_flags g late_crash_program in
  o = Normal (VWord "main")
  /\ output s = ["main"; "cleanup"; "[CRASH] late"].
Proof. vm_compute. split; reflexivity. Qed.

(** ** Control signals and the error-handling blocks *)

(** C4 (failing input).  [enough.] inside a [yolo] block does not leave
    the enclosing [pls] loop: the loop runs its three iterations, and each
    swallowed signal is charged as a swallowed error (5 SP). *)
Theorem yolo_swallows_break (B : Builtins) (g : Rng) :
  let '(o, s) := run B 4 no_flags g yolo_break_program in
  o = Normal (VNumber (PInt 3))
  /\ output s = ["1"; "2"; "3"]
  /\ _sp (sp s) = 100 - 3 * 5.
Proof. vm_compute. repeat split. Qed.

(** [return 1.] inside a [yolo] block does not leave the function: [f()]
    goes on to [return 2.]. *)
Lemma yolo_swallows_return (B : Builtins) (g : Rng) :
  output (snd (run B 6 no_flags g yolo_return_program)) = ["2"].
Proof. vm_compute. reflexivity. Qed.

(** [enough.] inside the [try] block of a [try]/[cope] leaves the enclosing
    [pls] loop at once: neither the [cope] block nor the rest of the body
    runs. *)
Lemma try_propagates_break (B : Builtins) (g : Rng) :
  let '(o, s) := run B 6 no_flags g try_break_program in
  o = Normal VVoid /\ output s = [].
Proof. vm_compute. split; reflexivity. Qed.

(** ** Reasoning about runs that return *)

Lemma returns_ret {A} (a : A) s (Q : A -> Interp -> Prop) :
  Q a s -> returns (ret a) s Q.
Proof. intros H. exists a, s. split; [reflexivity | exact H]. Qed.

Lemma returns_bind {A C} (m : M A) (k : A -> M C) s (Q : C -> Interp -> Prop) :
  returns m s (fun a s' => returns (k a) s' Q) -> returns (bind m k) s Q.
Proof.
  intros (a & s' & Hm & c & s'' & Hk & HQ).
  exists c, s''. split; [| exact HQ].
  unfold bind. rewrite Hm. exact Hk.
Qed.

Lemma returns_weaken {A} (m : M A) s (P Q : A -> Interp -> Prop) :
  returns m s P -> (forall a s', P a s' -> Q a s') -> returns m s Q.
Proof. intros (a & s' & Hm & HP) H. exists a, s'. split; auto. Qed.

Lemma returns_gets {A} (f : Interp -> A) s (Q : A -> Interp -> Prop) :
  Q (f s) s -> returns (gets f) s Q.
Proof. intros H. exists (f s), s. split; [reflexivity | exact H]. Qed.

Lemma returns_modify (f : Interp -> Interp) s (Q : unit -> Interp -> Prop) :
  Q tt (f s) -> returns (modify f) s Q.
Proof. intros H. exists tt, (f s). split; [reflexivity | exact H]. Qed.

Lemma returns_when (b : bool) (m : M unit) s (Q : unit -> Interp -> Prop) :
  (b = true -> returns m s Q) -> (b = false -> Q tt s) ->
  returns (when b m) s Q.
Proof.
  destruct b; simpl; intros H1 H2; [apply H1 | apply returns_ret, H2]; reflexivity.
Qed.

(** A loop that keeps an invariant returns and keeps it. *)
Lemma returns_mfor {X} (l : list X) (f : X -> M unit) (I : Interp -> Prop) s :
  I s ->
  (forall x s0, In x l -> I s0 -> returns (f x) s0 (fun _ s' => I s')) ->
  returns (mfor l f) s (fun _ s' => I s').
Proof.
  revert s. induction l as [| x l IH]; intros s Hs Hf; simpl.
  - apply returns_ret. exact Hs.
  - apply returns_bind.
    eapply returns_weaken; [apply Hf; [left; reflexivity | exact Hs] |].
    intros u s' Hs'. apply IH; [exact Hs' |].
    intros y s0 Hy. apply Hf. right. exact Hy.
Qed.

Lemma returns_eq {A} (m : M A) s a s' (Q : A -> Interp -> Prop) :
  m s = (Normal a, s') -> Q a s' -> returns m s Q.
Proof. intros H HQ. exists a, s'. split; assumption. Qed.

Lemma returns_inv {A} (m : M A) s (Q : A -> Interp -> Prop) :
  returns m s Q -> exists a s', m s = (Normal a, s') /\ Q a s'.
Proof. intros H. exact H. Qed.

(** ** Scopes: what a lookup depends on *)

Lemma skel_nth (envs envs' : eheap) (c : eref) :
  skel envs = skel envs' ->
  match nth_error envs c, nth_error envs' c with
  | Some e, Some e' =>
      env_parent e = env_parent e' /\ env_variables e = env_variables e'
  | None, None => True
  | _, _ => False
  end.
Proof.
  intros H.
  assert (Hn : nth_error (skel envs) c = nth_error (skel envs') c) by (rewrite H; reflexivity).
  unfold skel in Hn. rewrite !nth_error_map in Hn.
  destruct (nth_error envs c), (nth_error envs' c); simpl in Hn;
    try discriminate; [| exact I].
  inversion Hn. split; reflexivity.
Qed.

Lemma resolve_from_skel (fuel : nat) (envs envs' : eheap) (c : eref)
    (name : string) :
  skel envs = skel envs' ->
  resolve_from fuel envs c name = resolve_from fuel envs' c name.
Proof.
  intros H. revert c. induction fuel as [| fuel IH]; intros c; simpl; [reflexivity |].
  pose proof (skel_nth envs envs' c H) as Hc.
  destruct (nth_error envs c) as [e |], (nth_error envs' c) as [e' |];
    try contradiction; [| reflexivity].
  destruct Hc as [Hp Hv]. rewrite Hv, Hp.
  destruct (dget String.eqb (env_variables e') name); [reflexivity |].
  destruct (env_parent e'); [apply IH | reflexivity].
Qed.

Lemma resolve_skel (envs envs' : eheap) (c : eref) (name : string) :
  skel envs = skel envs' -> resolve envs c name = resolve envs' c name.
Proof.
  intros H. unfold resolve.
  assert (Hl : List.length envs = List.length envs').
  { apply (f_equal (@List.length _)) in H. unfold skel in H.
    rewrite !length_map in H. exact H. }
  rewrite Hl. apply resolve_from_skel. exact H.
Qed.

Lemma skel_lupd (envs : eheap) (a : eref) (e e' : Environment) :
  nth_error envs a = Some e ->
  env_parent e' = env_parent e -> env_variables e' = env_variables e ->
  skel (lupd envs a e') = skel envs.
Proof.
  revert a. induction envs as [| x envs IH]; intros [| a] H Hp Hv; simpl in *;
    try discriminate.
  - inversion H; subst. rewrite Hp, Hv. reflexivity.
  - f_equal. apply IH; assumption.
Qed.

(** [get] finds what [resolve] finds and leaves the scopes as they are. *)
Lemma get_resolve (envs : eheap) (c : eref) (name : string) :
  fst (Vars.get envs c name) = option_map snd (resolve envs c name)
  /\ skel (snd (Vars.get envs c name)) = skel envs.
Proof.
  unfold Vars.get. destruct (resolve envs c name) as [[a v] |]; simpl.
  - destruct (nth_error envs a) as [e |] eqn:He; simpl; split; try reflexivity.
    eapply skel_lupd; [exact He | reflexivity | reflexivity].
  - split; reflexivity.
Qed.

Lemma same_scopes_refl s : same_scopes s s.
Proof. split; reflexivity. Qed.

Lemma same_scopes_trans s1 s2 s3 :
  same_scopes s1 s2 -> same_scopes s2 s3 -> same_scopes s1 s3.
Proof. intros [H1 H2] [H3 H4]. split; congruence. Qed.

Lemma same_scopes_resolve s s' name :
  same_scopes s s' ->
  resolve (envs s') (current_env s') name = resolve (envs s) (current_env s) name.
Proof. intros [H1 H2]. rewrite H2. apply resolve_skel. exact H1. Qed.

(** [env_get] as a step: the result is what [resolve] finds; only the
    environments change, and not in what a lookup reads. *)
Lemma env_get_step (name : string) (s : Interp) :
  exists envs',
    env_get name s
    = (Normal (option_map snd (resolve (envs s) (current_env s) name)),
       with_envs s envs')
    /\ skel envs' = skel (envs s).
Proof.
  unfold env_get.
  destruct (get_resolve (envs s) (current_env s) name) as [H1 H2].
  destruct (Vars.get (envs s) (current_env s) name) as [r envs'] eqn:Hg.
  simpl in *. exists envs'. subst r. split; [reflexivity | exact H2].
Qed.

(** ** Values, dictionaries and heaps *)

Lemma copy_id : forall v : SanValue, copy v = v.
Proof.
  fix IH 1. intros [n | w | | | | | l | d | w]; simpl; try reflexivity.
  - f_equal. induction l as [| x l IHl]; simpl; [reflexivity |].
    rewrite IH, IHl. reflexivity.
  - f_equal. induction d as [| [k x] d IHd]; simpl; [reflexivity |].
    rewrite IH, IHd. reflexivity.
Qed.

Lemma dget_dset_eq {V} (d : list (string * V)) (k : string) (v : V) :
  dget String.eqb (dset String.eqb d k v) k = Some v.
Proof.
  induction d as [| [k' v'] d IH]; simpl.
  - rewrite String.eqb_refl. reflexivity.
  - destruct (String.eqb k k') eqn:E; simpl.
    + rewrite String.eqb_refl. reflexivity.
    + rewrite E. exact IH.
Qed.

Lemma nth_lupd {A} (l : list A) (b r : nat) (x d : A) :
  nth r (lupd l b x) d
  = if ((b =? r) && (b <? List.length l))%nat then x else nth r l d.
Proof.
  revert b r. induction l as [| y l IH]; intros [| b] [| r]; simpl; try reflexivity.
  - destruct (b =? r)%nat; reflexivity.
  - rewrite IH. reflexivity.
Qed.


Lemma returns_env_get (name : string) (s : Interp)
    (Q : option vref -> Interp -> Prop) :
  (forall envs', skel envs' = skel (envs s) ->
     Q (option_map snd (resolve (envs s) (current_env s) name)) (with_envs s envs')) ->
  returns (env_get name) s Q.
Proof.
  intros H. destruct (env_get_step name s) as (envs' & Hg & Hs).
  eapply returns_eq; [exact Hg | apply H; exact Hs].
Qed.

Lemma Mood_eqb_neq (a b : Mood) : a <> b -> Mood_eqb a b = false.
Proof. destruct a, b; simpl; intros H; try reflexivity; contradiction H; reflexivity. Qed.


Ltac step1 :=
  lazymatch goal with
  | |- returns (bind _ _) _ _ => apply returns_bind
  | |- returns (ret _) _ _ => apply returns_ret
  | |- returns (gets _) _ _ => apply returns_gets
  | |- returns (rd _) _ _ => apply returns_gets
  | |- returns (modify _) _ _ => apply returns_modify
  | |- returns (upd _ _) _ _ => apply returns_modify
  | |- returns (on_sp _) _ _ => apply returns_modify
  | |- returns (on_rel _) _ _ => apply returns_modify
  | |- returns (emit _) _ _ => apply returns_modify
  | |- returns (set_current_env _) _ _ => apply returns_modify
  | |- returns (_send_to_afterlife _ _ _ _) _ _ => apply returns_modify
  | |- returns (_write_blame _) _ _ => apply returns_modify
  | |- returns (env_get _) _ _ => apply returns_env_get; intros ? ?
  end.
Ltac step := step1; cbv beta.
Ltac steps := repeat step.









(** ** Runs that raise *)







Lemma redeclare_banned (B : Builtins) (ev : Expression -> M SanValue)
    (ex : Statement -> M SanValue) (lf : nat) (line : Z)
    (keyword name : string) (node : option Expression) (s : Interp)
    (msg : string) :
  decl_banned keyword s = Some msg ->
  _exec_var_decl B ev ex lf line keyword name node s
  = (Raise (sanity_error msg), s).
Proof.
  intros Hban. unfold _exec_var_decl, bind, gets. rewrite Hban. reflexivity.
Qed.





(** ** Assignment to a variable that lost all trust *)




(** ** Memoized functions *)

Lemma dset_dget_same {V} (d : list (string * V)) (k : string) (v : V) :
  dget String.eqb d k = Some v -> dset String.eqb d k v = d.
Proof.
  induction d as [| [k' v'] d IH]; simpl; [discriminate |].
  destruct (String.eqb k k') eqn:E.
  - intros H. inversion H; subst. apply String.eqb_eq in E. subst. reflexivity.
  - intros H. rewrite IH; [reflexivity | exact H].
Qed.

Lemma call_counting_returns (name : string) (s : Interp) :
  exists c, call_counting name s = (Normal c, snd (call_counting name s)).
Proof.
  unfold call_counting, bind, gets, modify, _add_graph_edge, on_sp, when, emit, ret.
  cbn.
  destruct (dget_or (call_counts s) name 0 + 1 =? 1);
  [| destruct (10 <=? dget_or (call_counts s) name 0 + 1)];
  destruct (dget_or (call_counts s) name 0 + 1 =? 25); eexists; reflexivity.
Qed.

Lemma cache_hit (B : Builtins) (name : string)
    (args : list SanValue) (decl : FunctionDeclNode) (closure_env : eref)
    (s : Interp) (cache : list (list string * SanValue)) (v : SanValue) :
  fd_keyword decl = "did" ->
  dget String.eqb (cached_returns s) name = None ->
  dget String.eqb (memo_caches s) name = Some cache ->
  dget key_eqb cache (memo_key B args) = Some v ->
  forall ev ex,
    _call_function B ev ex name args decl closure_env s
    = (Normal v, snd (call_counting name s)).
Proof.
  intros Hkw Hpin Hcache Hhit ev ex.
  destruct (call_counting_returns name s) as (c & Hc).
  unfold _call_function. rewrite Hkw. cbn [String.eqb Ascii.eqb Bool.eqb andb].
  unfold bind at 1. cbn [ret].
  unfold bind at 1. unfold gets at 1. rewrite Hpin.
  unfold bind at 1. rewrite Hc.
  cbn [snd].
  unfold bind at 1. unfold bind at 1. unfold gets at 1.
  assert (Hc2 : memo_caches (snd (call_counting name s)) = memo_caches s).
  { unfold call_counting, bind, gets, modify, _add_graph_edge, on_sp, when, emit, ret.
    cbn.
    destruct (dget_or (call_counts s) name 0 + 1 =? 1);
    [| destruct (10 <=? dget_or (call_counts s) name 0 + 1)];
    destruct (dget_or (call_counts s) name 0 + 1 =? 25); reflexivity. }
  unfold bind at 1. unfold modify at 1. cbn [ret].
  rewrite Hc2. unfold dget_or. rewrite Hcache.
  rewrite (dset_dget_same _ _ _ Hcache), Hhit. unfold ret.
  f_equal. rewrite <- Hc2. reflexivity.
Qed.

(** C2 (amended).  A call of a [did] function that has no pinned return
    ([..]) and whose arguments have the key, the tuple of their [str], of an
    entry that is still in the function's cache returns the cached value
    whatever the body is ([ev] and [ex], through which alone a body runs,
    are arbitrary), and changes the state only by the call counting.  And
    the memoized recursive [fib] prints [fib(10)] as 55, in 19 calls of
    [fib]. *)
Theorem did_call_served_from_cache (B : Builtins) :
  (forall (name : string) (args : list SanValue) (decl : FunctionDeclNode)
          (closure_env : eref) (s : Interp)
          (cache : list (list string * SanValue)) (v : SanValue),
      fd_keyword decl = "did" ->
      dget String.eqb (cached_returns s) name = None ->
      dget String.eqb (memo_caches s) name = Some cache ->
      dget key_eqb cache (memo_key B args) = Some v ->
      forall ev ex,
        _call_function B ev ex name args decl closure_env s
        = (Normal v, snd (call_counting name s)))
  /\ (forall g : Rng,
        let '(o, s) := run B 60 no_flags g fib_program in
        o = Normal (VNumber (PInt 55)) /\ output s = ["55"]
        /\ dget String.eqb (call_counts s) "fib" = Some 19).
Proof.
  split.
  - intros. eapply cache_hit; eassumption.
  - intros g. vm_compute. repeat split.
Qed.

(** [square(5)] a second time: 25 from the cache, with no fuel to run a
    body. *)
Lemma did_call_served_from_cache_witness :
  fd_keyword square_decl = "did"
  /\ dget String.eqb (cached_returns square_called) "square" = None
  /\ dget String.eqb (memo_caches square_called) "square"
     = Some [(["5"], VNumber (PInt 25))]
  /\ _call_function plain_builtins (evaluate plain_builtins 0)
       (execute plain_builtins 0) "square" [VNumber (PInt 5)] square_decl
       0%nat square_called
     = (Normal (VNumber (PInt 25)), snd (call_counting "square" square_called)).
Proof.
  split; [reflexivity |].
  split; [vm_compute; reflexivity |].
  split; [vm_compute; reflexivity |].
  apply (proj1 (did_call_served_from_cache plain_builtins))
    with (cache := [(["5"], VNumber (PInt 25))]); vm_compute; reflexivity.
Defined.

(** C2, as stated: 1001 distinct argument vectors and 1002 runs of the body.
    The cache holds 1000 entries; storing the result of [f(1001)] evicts
    that of [f(1)], and the last call runs the body again. *)
Lemma did_body_runs_again_after_eviction :
  count_runs (output (snd (run plain_builtins 6 no_flags half_rng eviction_program)))
  = 1002%nat.
Proof. vm_compute. reflexivity. Qed.

(** ** Counted loops *)








(** The loop prints 1 to 5 at SP 100 and, after eleven swallowed errors
    have left SP at 45, 0 to 4. *)
Lemma pls_five_prints (B : Builtins) (g : Rng) :
  output (snd (run B 4 no_flags g (program [count_to_five])))
  = ["1"; "2"; "3"; "4"; "5"]
  /\ _sp (sp (snd (run B 4 no_flags g (program [lower_sp])))) = 45
  /\ skipn 11 (output (snd (run B 4 no_flags g (program [lower_sp; count_to_five]))))
     = ["0"; "1"; "2"; "3"; "4"].
Proof. vm_compute. repeat split. Qed.

(** ** Self-mutating variables *)









(** ** Mirrors *)

Lemma returns_random (s : Interp) (Q : float -> Interp -> Prop) :
  (forall x g, Q x (with_rng s g)) -> returns random_ s Q.
Proof.
  intros H. unfold returns, random_.
  destruct (Py.random (rng s)) as [x g]. exists x, (with_rng s g).
  split; [reflexivity | apply H].
Qed.

Lemma upd_other (s : Interp) (b r : vref) (f : SanVariable -> SanVariable) :
  b <> r ->
  var_at (with_vars s (lupd (vars s) b (f (var_at s b)))) r = var_at s r.
Proof.
  intros N. unfold var_at at 1. simpl. rewrite nth_lupd.
  apply Nat.eqb_neq in N. rewrite N. reflexivity.
Qed.

Lemma upd_same (s : Interp) (r : vref) (f : SanVariable -> SanVariable) :
  (r < List.length (vars s))%nat ->
  var_at (with_vars s (lupd (vars s) r (f (var_at s r)))) r = f (var_at s r).
Proof.
  intros L. unfold var_at at 1. simpl. rewrite nth_lupd.
  rewrite Nat.eqb_refl. apply Nat.ltb_lt in L. rewrite L. reflexivity.
Qed.


Ltac sstep :=
  lazymatch goal with
  | |- returns random_ _ _ => apply returns_random; intros ? ?
  | |- returns current_all_variables _ _ => apply returns_gets
  | |- returns (when _ _) _ _ => apply returns_when; intros ?
  | |- _ => step1
  end; cbv beta.







(* ================================================================== *)
(** * Further properties of the code *)
(* ================================================================== *)

(** ** The sanity tracker: modifiers, floor and audit log *)





(** [_modifier] never turns a penalty into a bonus or into nothing: a
    negative amount stays negative, at most doubled ([--strict]); halving
    ([pray for mercy]) is a floor division, so a penalty of 1 stays 1; with
    both or neither modifier the amount is unchanged. *)
Theorem modifier_keeps_penalties (t : SanityTracker) (amount : Z) :
  amount < 0 ->
  _modifier t amount < 0
  /\ 2 * amount <= _modifier t amount
  /\ (strict t = pray_mercy t -> _modifier t amount = amount)
  /\ (amount = -1 -> strict t = false -> _modifier t amount = -1).
Proof.
  intros Hneg. unfold _modifier.
  assert (E : (amount <? 0) = true) by (apply Z.ltb_lt; exact Hneg).
  rewrite E. destruct (strict t), (pray_mercy t); cbv zeta.
  - replace (amount * 2 / 2) with amount by (rewrite Z.div_mul; lia).
    repeat split; intros; try lia; try discriminate.
  - repeat split; intros; try lia; try discriminate.
  - assert (amount / 2 < 0) by (apply Z.div_lt_upper_bound; lia).
    assert (amount <= amount / 2) by (apply Z.div_le_lower_bound; lia).
    repeat split; intros; try lia; try discriminate.
  - repeat split; intros; try lia; try discriminate.
Qed.

Lemma modifier_keeps_penalties_witness :
  _modifier (with_pray_mercy (init 100 false false false false) true) (-1) = -1.
Proof.
  apply (modifier_keeps_penalties
           (with_pray_mercy (init 100 false false false false) true) (-1));
    [lia | reflexivity | reflexivity].
Defined.

(** Under [--lenient], every write through the [sp] setter, so every
    penalty and every bonus, leaves the stored SP at 10 or more and never
    enters insanity mode; without the flag the setter stores the value it
    is given. *)
Theorem setter_keeps_lenient_floor (t : SanityTracker) :
  lenient t = true ->
  (forall value, 10 <= _sp (set_sp t value))
  /\ (forall reason amount, 10 <= _sp (penalty reason amount t)
                            /\ insanity_mode (penalty reason amount t) = false)
  /\ (forall reason amount, 10 <= _sp (bonus reason amount t)).
Proof.
  intros Hl. split; [| split].
  - intros value. apply set_sp_lenient_floor. exact Hl.
  - intros reason amount.
    pose proof (penalty_lenient_floor reason amount t Hl) as H.
    split; [exact H |]. unfold insanity_mode. apply Z.leb_gt. lia.
  - intros reason amount. apply bonus_lenient_floor. exact Hl.
Qed.

Lemma setter_keeps_lenient_floor_witness :
  10 <= _sp (penalty "curse declaration" (-200) (init 100 false true false false)).
Proof.
  exact (proj1 (proj1 (proj2 (setter_keeps_lenient_floor
                                (init 100 false true false false) eq_refl))
                      "curse declaration" (-200))).
Defined.

(** ** Variables: trust, age and mood *)

Lemma tmem_tadd (s : list Trait) (t : Trait) : tmem (tadd s t) t = true.
Proof.
  unfold tadd. destruct (tmem s t) eqn:E; [exact E |].
  unfold tmem. rewrite existsb_app. simpl.
  replace (Trait_eqb t t) with true by (destruct t; reflexivity).
  rewrite orb_true_r. reflexivity.
Qed.

Lemma tmem_tadd_keeps (s : list Trait) (t u : Trait) :
  tmem s u = true -> tmem (tadd s t) u = true.
Proof.
  intros H. unfold tadd. destruct (tmem s t); [exact H |].
  unfold tmem in *. rewrite existsb_app, H. reflexivity.
Qed.

Lemma lose_trust_once (v : SanVariable) (amount : Z) :
  var_trust (lose_trust v amount) = Z.max 0 (var_trust v - amount)
  /\ (var_trust (lose_trust v amount) < 50 ->
      var_mood (lose_trust v amount) = ANGRY)
  /\ (var_trust (lose_trust v amount) < 30 ->
      tmem (var_traits (lose_trust v amount)) PARANOID = true)
  /\ var_value (lose_trust v amount) = var_value v.
Proof.
  unfold lose_trust. cbv zeta. cbn [var_trust set_trust var_mood].
  set (t := Z.max 0 (var_trust v - amount)).
  destruct (t <? 50) eqn:E50; destruct (Mood_eqb (var_mood v) ANGRY) eqn:Em;
    cbn [andb negb var_trust set_trust set_mood];
    destruct (t <? 30) eqn:E30;
    cbn [var_trust var_mood var_traits var_value set_traits set_mood set_trust];
    repeat split; intros;
    try (apply Z.ltb_lt in E50); try (apply Z.ltb_ge in E50);
    try (apply Z.ltb_lt in E30); try (apply Z.ltb_ge in E30);
    try lia; try reflexivity; try apply tmem_tadd.
  all: destruct (var_mood v); try reflexivity; discriminate.
Qed.

(** [lose_trust] never takes trust below 0: [k] losses of [amount] leave
    [max 0 (trust - k * amount)]; and whenever a loss leaves trust under 50
    the variable is Angry, under 30 it is Paranoid as well.  The value is
    never touched. *)
Theorem lose_trust_repeated (v : SanVariable) (amount : Z) (k : nat) :
  0 <= amount ->
  (1 <= k)%nat ->
  let v' := iterate k (fun v => lose_trust v amount) v in
  var_trust v' = Z.max 0 (var_trust v - Z.of_nat k * amount)
  /\ (var_trust v' < 50 -> var_mood v' = ANGRY)
  /\ (var_trust v' < 30 -> tmem (var_traits v') PARANOID = true)
  /\ var_value v' = var_value v.
Proof.
  intros Ha Hk. cbv zeta.
  induction k as [| k IH]; [lia |].
  cbn [iterate].
  destruct (lose_trust_once (iterate k (fun v => lose_trust v amount) v) amount)
    as (Ht & Hm & Hp & Hv).
  destruct k as [| k].
  - cbn [iterate] in *. repeat split; try assumption.
    rewrite Ht. f_equal. lia.
  - destruct IH as (IHt & _ & _ & IHv); [lia |].
    repeat split; try assumption.
    + rewrite Ht, IHt. lia.
    + rewrite Hv. exact IHv.
Qed.

(** Five [blame]s, at 20 each, take a new variable from trust 100 to 0. *)
Lemma lose_trust_repeated_witness :
  var_trust (iterate 5 (fun v => lose_trust v 20)
               (new_variable "a" (VNumber (PInt 1)) "maybe" 1))
  = Z.max 0 (100 - 5 * 20).
Proof.
  apply (lose_trust_repeated (new_variable "a" (VNumber (PInt 1)) "maybe" 1)
           20 5); lia.
Defined.

(** An access made after statement 500 leaves the variable Elder, and an
    Elder variable is out of reach of its mood and of the [whatever]
    mutation: [apply_mood_to_number] and [apply_mood_to_word] return their
    argument, [check_whatever_mutation] does nothing and draws nothing. *)
Theorem access_after_500_makes_elder (v : SanVariable) (sc : Z) :
  500 < sc ->
  let v' := record_access v sc in
  tmem (var_traits v') ELDER = true
  /\ (forall n, apply_mood_to_number v' n = Ok n)
  /\ (forall w, apply_mood_to_word v' w = w)
  /\ (forall sc' g, check_whatever_mutation v' sc' g = Ok (v', g)).
Proof.
  intros Hsc. cbv zeta.
  assert (He : tmem (var_traits (record_access v sc)) ELDER = true).
  { unfold record_access. cbv zeta.
    assert (E : (500 <? sc) = true) by (apply Z.ltb_lt; exact Hsc).
    repeat match goal with
           | |- context [if ?c then _ else _] =>
               lazymatch c with
               | context [500 <? _] => fail
               | _ => destruct c
               end
           end;
      cbn [var_age set_age set_traits set_mood set_mood_set_at var_traits];
      rewrite E; cbn [andb];
      match goal with |- context [negb (tmem ?s ELDER)] =>
        destruct (tmem s ELDER) eqn:Em end; cbn [negb];
      try exact Em; cbn [var_traits set_traits]; apply tmem_tadd. }
  split; [exact He | split; [| split]].
  - intros n. unfold apply_mood_to_number. rewrite He. reflexivity.
  - intros w. unfold apply_mood_to_word. rewrite He. reflexivity.
  - intros sc' g. unfold check_whatever_mutation. rewrite He.
    destruct (negb (String.eqb (var_keyword (record_access v sc)) "whatever"));
      reflexivity.
Qed.

Lemma access_after_500_makes_elder_witness :
  check_whatever_mutation
    (record_access (set_whatever_counter
                      (new_variable "w" (VNumber (PInt 10)) "whatever" 1) 49) 501)
    550 half_rng
  = Ok (record_access (set_whatever_counter
                         (new_variable "w" (VNumber (PInt 10)) "whatever" 1) 49) 501,
        half_rng).
Proof.
  apply (access_after_500_makes_elder
           (set_whatever_counter
              (new_variable "w" (VNumber (PInt 10)) "whatever" 1) 49) 501).
  lia.
Defined.

(** Anger does not decay while trust is under 50: a variable that
    [lose_trust] has left under 50 is Angry, and [check_mood_decay] leaves
    it as it is at every later statement count.  Every other mood is back
    to Neutral once 200 statements have passed since it was set. *)
Theorem anger_is_kept_under_trust_50 (v : SanVariable) (amount : Z) :
  var_trust (lose_trust v amount) < 50 ->
  (forall sc, check_mood_decay (lose_trust v amount) sc = lose_trust v amount)
  /\ (forall u sc,
        var_mood u <> ANGRY -> 200 <= sc - var_mood_set_at u ->
        var_mood (check_mood_decay u sc) = NEUTRAL).
Proof.
  intros Ht. split.
  - intros sc. destruct (lose_trust_once v amount) as (_ & Hm & _ & _).
    specialize (Hm Ht). unfold check_mood_decay. rewrite Hm.
    cbn [Mood_eqb].
    replace (50 <=? var_trust (lose_trust v amount)) with false
      by (symmetry; apply Z.leb_gt; exact Ht).
    reflexivity.
  - intros u sc Hna Hel. unfold check_mood_decay.
    assert (E : (200 <=? sc - var_mood_set_at u) = true)
      by (apply Z.leb_le; exact Hel).
    destruct (var_mood u) eqn:Em; cbn [Mood_eqb]; try rewrite E;
      try reflexivity; try exact Em.
    contradiction Hna. reflexivity.
Qed.

Lemma anger_is_kept_under_trust_50_witness :
  check_mood_decay (lose_trust (new_variable "a" VVoid "maybe" 1) 60) 100000
  = lose_trust (new_variable "a" VVoid "maybe" 1) 60.
Proof.
  apply (anger_is_kept_under_trust_50 (new_variable "a" VVoid "maybe" 1) 60).
  vm_compute. reflexivity.
Defined.

(** ** Environments *)

Lemma dget_dset_other {V} (d : list (string * V)) (k k' : string) (v : V) :
  k' <> k -> dget String.eqb (dset String.eqb d k v) k' = dget String.eqb d k'.
Proof.
  intros N. induction d as [| [k0 v0] d IH]; simpl.
  - apply String.eqb_neq in N. rewrite N. reflexivity.
  - destruct (String.eqb k k0) eqn:E; simpl.
    + apply String.eqb_eq in E. subst k0.
      apply String.eqb_neq in N. rewrite N. reflexivity.
    + destruct (String.eqb k' k0); [reflexivity | exact IH].
Qed.

Lemma dmem_dset {V} (d : list (string * V)) (k k' : string) (v : V) :
  dmem String.eqb (dset String.eqb d k v) k'
  = (String.eqb k' k || dmem String.eqb d k').
Proof.
  unfold dmem. destruct (String.eqb k' k) eqn:E.
  - apply String.eqb_eq in E. subst. rewrite dget_dset_eq. reflexivity.
  - apply String.eqb_neq in E. rewrite dget_dset_other by exact E. reflexivity.
Qed.

Lemma keys_distinct_dset {V} (d : list (string * V)) (k : string) (v : V) :
  keys_distinct d = true -> keys_distinct (dset String.eqb d k v) = true.
Proof.
  induction d as [| [k0 v0] d IH]; simpl; [reflexivity |].
  intros H. apply andb_prop in H. destruct H as [H1 H2].
  destruct (String.eqb k k0) eqn:E; simpl.
  - apply String.eqb_eq in E. subst k0. rewrite H1, H2. reflexivity.
  - rewrite dmem_dset, IH by exact H2.
    rewrite String.eqb_sym, E. simpl. rewrite H1. reflexivity.
Qed.

Lemma nth_error_lupd {A} (l : list A) (i j : nat) (x : A) :
  nth_error (lupd l i x) j
  = if ((i =? j) && (i <? List.length l))%nat then Some x else nth_error l j.
Proof.
  revert i j. induction l as [| y l IH]; intros [| i] [| j]; simpl; try reflexivity.
  - destruct (i =? j)%nat; reflexivity.
  - rewrite IH. reflexivity.
Qed.

Lemma length_lupd {A} (l : list A) (i : nat) (x : A) :
  List.length (lupd l i x) = List.length l.
Proof.
  revert i. induction l as [| y l IH]; intros [| i]; simpl; try reflexivity.
  rewrite IH. reflexivity.
Qed.

Lemma resolve_from_lupd (fuel : nat) (envs : eheap) (e c : eref)
    (env env' : Environment) (name : string) :
  nth_error envs e = Some env ->
  env_parent env' = env_parent env ->
  dget String.eqb (env_variables env') name
  = dget String.eqb (env_variables env) name ->
  resolve_from fuel (lupd envs e env') c name = resolve_from fuel envs c name.
Proof.
  intros He Hp Hd. revert c. induction fuel as [| fuel IH]; intros c; simpl;
    [reflexivity |].
  rewrite nth_error_lupd.
  destruct ((e =? c)%nat && (e <? List.length envs)%nat) eqn:E.
  - apply andb_prop in E. destruct E as [E _]. apply Nat.eqb_eq in E. subst c.
    rewrite He, Hd, Hp.
    destruct (dget String.eqb (env_variables env) name); [reflexivity |].
    destruct (env_parent env); [apply IH | reflexivity].
  - destruct (nth_error envs c) as [x |]; [| reflexivity].
    destruct (dget String.eqb (env_variables x) name); [reflexivity |].
    destruct (env_parent x); [apply IH | reflexivity].
Qed.

(** [define] and [get] round-trip, and scopes are independent by name:
    once [name] is defined in a scope, a lookup from that scope finds the
    new variable in that scope, whatever an outer scope binds; the lookup
    of every other name, from every scope, is what it was; and the table
    still holds every key once. *)
Theorem define_then_resolve (envs : eheap) (e : eref) (env : Environment)
    (name : string) (v : vref) (line : Z) :
  nth_error envs e = Some env ->
  let envs' := lupd envs e (define env name v line) in
  resolve envs' e name = Some (e, v)
  /\ (forall c name', name' <> name ->
        resolve envs' c name' = resolve envs c name')
  /\ (keys_distinct (env_variables env) = true ->
      keys_distinct (env_variables (define env name v line)) = true).
Proof.
  intros He. cbv zeta.
  assert (Hlt : (e < List.length envs)%nat)
    by (apply nth_error_Some; rewrite He; discriminate).
  split; [| split].
  - unfold resolve. rewrite length_lupd.
    destruct (List.length envs) as [| n] eqn:El; [lia |].
    cbn [resolve_from]. rewrite nth_error_lupd, Nat.eqb_refl, El.
    apply Nat.ltb_lt in Hlt. rewrite Hlt. cbn [andb].
    cbn [env_variables define]. rewrite dget_dset_eq. reflexivity.
  - intros c name' N. unfold resolve. rewrite length_lupd.
    apply resolve_from_lupd with (env := env); [exact He | reflexivity |].
    cbn [env_variables define]. apply dget_dset_other. exact N.
  - intros Hk. cbn [env_variables define]. apply keys_distinct_dset. exact Hk.
Qed.

Lemma define_then_resolve_witness :
  resolve (lupd [new_env None 0; new_env (Some 0%nat) 1] 1
             (define (new_env (Some 0%nat) 1) "x" 7%nat 3)) 1%nat "x"
  = Some (1%nat, 7%nat).
Proof.
  apply (define_then_resolve [new_env None 0; new_env (Some 0%nat) 1] 1%nat
           (new_env (Some 0%nat) 1) "x" 7%nat 3).
  reflexivity.
Defined.

Lemma dget_dupdate {V} (d e : list (string * V)) (k : string) :
  keys_distinct e = true ->
  dget String.eqb (dupdate String.eqb d e) k
  = match dget String.eqb e k with
    | Some v => Some v
    | None => dget String.eqb d k
    end.
Proof.
  revert d. induction e as [| [k0 v0] e IH]; intros d Hk; [reflexivity |].
  simpl in Hk. apply andb_prop in Hk. destruct Hk as [Hk0 Hk].
  unfold dupdate in *. cbn [fold_left fst snd dget].
  rewrite IH by exact Hk.
  destruct (String.eqb k k0) eqn:E.
  - apply String.eqb_eq in E. subst k0.
    unfold dmem in Hk0. destruct (dget String.eqb e k); [discriminate |].
    apply dget_dset_eq.
  - destruct (dget String.eqb e k); [reflexivity |].
    apply dget_dset_other. apply String.eqb_neq. exact E.
Qed.

(** [all_variables] and [get] agree on what a name denotes: with every
    scope's table holding a key once, as a [dict] does, the merged table
    binds a name to the variable that the lookup up the parent chain
    finds, so an inner scope shadows an outer one in both. *)
Theorem all_variables_agrees_with_lookup (envs : eheap) :
  (forall e, In e envs -> keys_distinct (env_variables e) = true) ->
  forall c name,
    dget String.eqb (all_variables envs c) name
    = option_map snd (resolve envs c name).
Proof.
  intros Hk c name. unfold all_variables, resolve.
  generalize (List.length envs) as fuel. intros fuel. revert c.
  induction fuel as [| fuel IH]; intros c; [reflexivity |].
  cbn [all_variables_from resolve_from].
  destruct (nth_error envs c) as [e |] eqn:He; [| reflexivity].
  rewrite dget_dupdate by (apply Hk; eapply nth_error_In; exact He).
  destruct (dget String.eqb (env_variables e) name); [reflexivity |].
  destruct (env_parent e); [apply IH | reflexivity].
Qed.

Lemma all_variables_agrees_with_lookup_witness :
  dget String.eqb
    (all_variables [mkEnv None 0 [("x", 0%nat); ("y", 1%nat)] [] [];
                    mkEnv (Some 0%nat) 1 [("x", 2%nat)] [] []] 1%nat) "x"
  = option_map snd
      (resolve [mkEnv None 0 [("x", 0%nat); ("y", 1%nat)] [] [];
                mkEnv (Some 0%nat) 1 [("x", 2%nat)] [] []] 1%nat "x").
Proof.
  apply (all_variables_agrees_with_lookup
           [mkEnv None 0 [("x", 0%nat); ("y", 1%nat)] [] [];
            mkEnv (Some 0%nat) 1 [("x", 2%nat)] [] []]).
  intros e [<- | [<- | []]]; reflexivity.
Defined.

Lemma has_from_resolve (fuel : nat) (envs : eheap) (c : eref) (name : string) :
  has_from fuel envs c name
  = match resolve_from fuel envs c name with Some _ => true | None => false end.
Proof.
  revert c. induction fuel as [| fuel IH]; intros c; [reflexivity |].
  cbn [has_from resolve_from].
  destruct (nth_error envs c) as [e |]; [| reflexivity].
  unfold dmem. destruct (dget String.eqb (env_variables e) name); [reflexivity |].
  destruct (env_parent e); [apply IH | reflexivity].
Qed.

Lemma set_value_from_resolve (fuel : nat) (envs : eheap) (vars : vheap)
    (c : eref) (name : string) (value : SanValue) :
  set_value_from fuel envs vars c name value
  = match resolve_from fuel envs c name with
    | Some (_, v) =>
        (true, match nth_error vars v with
               | Some x => lupd vars v (set_value x value)
               | None => vars
               end)
    | None => (false, vars)
    end.
Proof.
  revert c. induction fuel as [| fuel IH]; intros c; [reflexivity |].
  cbn [set_value_from resolve_from].
  destruct (nth_error envs c) as [e |]; [| reflexivity].
  destruct (dget String.eqb (env_variables e) name); [reflexivity |].
  destruct (env_parent e); [apply IH | reflexivity].
Qed.

(** [set_value] writes where [get] reads.  It reports whether some scope
    of the chain binds the name, as [has] does; if none does it changes no
    variable; otherwise the variable that the lookup finds holds the new
    value afterwards, and every other variable is as it was. *)
Theorem set_value_then_lookup (envs : eheap) (vars : vheap) (c : eref)
    (name : string) (value : SanValue) :
  fst (env_set_value envs vars c name value) = has envs c name
  /\ (has envs c name = false ->
      snd (env_set_value envs vars c name value) = vars)
  /\ (forall a v,
        resolve envs c name = Some (a, v) -> (v < List.length vars)%nat ->
        var_value (nth v (snd (env_set_value envs vars c name value)) dummy_var)
        = value
        /\ forall u, u <> v ->
             nth u (snd (env_set_value envs vars c name value)) dummy_var
             = nth u vars dummy_var).
Proof.
  unfold env_set_value, has, resolve.
  rewrite set_value_from_resolve, has_from_resolve.
  destruct (resolve_from (List.length envs) envs c name) as [[a0 v0] |].
  - split; [reflexivity | split; [discriminate |]].
    intros a v H Hlt. inversion H; subst. cbn [snd].
    destruct (nth_error vars v) as [x |] eqn:Hx.
    + split.
      * rewrite nth_lupd, Nat.eqb_refl.
        apply Nat.ltb_lt in Hlt. rewrite Hlt. reflexivity.
      * intros u N. rewrite nth_lupd.
        replace (v =? u)%nat with false
          by (symmetry; apply Nat.eqb_neq; congruence).
        reflexivity.
    + apply nth_error_None in Hx. lia.
  - split; [reflexivity | split; [reflexivity |]].
    intros a v H. discriminate H.
Qed.

(** ** Values: coercion and the distance of words *)

(** The flags that [coerce] returns are sound: an operand whose flag is
    off is returned as it was given (the caller scars a variable only when
    the flag is on).  A Void or Dunno operand switches coercion off
    altogether, and a Number with a Word always come out with one type:
    two Words under [&], two Numbers under every other operator. *)
Theorem coerce_flags_are_sound (B : Builtins) (lhs rhs : SanValue)
    (operator : string) :
  let '(l, r, lc, rc) := coerce B lhs rhs operator in
  (lc = false -> l = lhs)
  /\ (rc = false -> r = rhs)
  /\ (has_type lhs VOID || has_type rhs VOID
      || has_type lhs DUNNO || has_type rhs DUNNO = true ->
      (l, r, lc, rc) = (lhs, rhs, false, false))
  /\ (has_type lhs NUMBER && has_type rhs WORD
      || has_type lhs WORD && has_type rhs NUMBER = true ->
      if String.eqb operator "&"
      then has_type l WORD && has_type r WORD = true
      else has_type l NUMBER && has_type r NUMBER = true).
Proof.
  unfold coerce.
  destruct lhs, rhs; cbn;
    try (destruct (String.eqb operator "&"));
    try (match goal with |- context [float_of_str B ?s] =>
           destruct (float_of_str B s) end);
    cbn; repeat split; intros; try reflexivity; try discriminate.
Qed.

Lemma lev_row_own (l2 : list ascii) (c1 : ascii) (k : nat) :
  nth_error l2 k = Some c1 ->
  lev_row c1 (Z.of_nat k) l2 (own_row k 0 (S (List.length l2)))
  = own_row (S k) 0 (S (List.length l2)).
Proof.
  intros Hc. unfold lev_row.
  set (go := fix go (s2 : list ascii) (prev : list Z) (last : Z) (acc : list Z)
               {struct s2} : list Z :=
        match s2, prev with
        | c2 :: s2', pj :: ((pj1 :: _) as prev') =>
            let insertions := pj1 + 1 in
            let deletions := last + 1 in
            let substitutions := pj + (if Ascii.eqb c1 c2 then 0 else 1) in
            let x := Z.min (Z.min insertions deletions) substitutions in
            go s2' prev' x (acc ++ [x])%list
        | _, _ => acc
        end).
  assert (Hgo : forall (l : list ascii) (j : nat) (acc : list Z),
             (forall t, (j + t = k)%nat -> nth_error l t = Some c1) ->
             go l (own_row k j (S (List.length l)))
                (Z.abs (Z.of_nat (S k) - Z.of_nat j)) acc
             = (acc ++ own_row (S k) (S j) (List.length l))%list).
  { induction l as [| c2 l IH]; intros j acc Hch.
    - cbn. rewrite app_nil_r. reflexivity.
    - cbn [List.length]. unfold own_row at 1. cbn [seq map].
      change (map (fun t => Z.abs (Z.of_nat k - Z.of_nat t))
                (seq (S (S j)) (List.length l)))
        with (own_row k (S (S j)) (List.length l)).
      cbn [go]. cbv zeta.
      assert (Hx : Z.min (Z.min (Z.abs (Z.of_nat k - Z.of_nat (S j)) + 1)
                            (Z.abs (Z.of_nat (S k) - Z.of_nat j) + 1))
                     (Z.abs (Z.of_nat k - Z.of_nat j)
                      + (if Ascii.eqb c1 c2 then 0 else 1))
                   = Z.abs (Z.of_nat (S k) - Z.of_nat (S j))).
      { destruct (Nat.eq_dec j k) as [-> | N].
        - specialize (Hch 0%nat (Nat.add_0_r k)). cbn in Hch.
          inversion Hch; subst. rewrite Ascii.eqb_refl. lia.
        - destruct (Ascii.eqb c1 c2); lia. }
      rewrite Hx.
      change (Z.abs (Z.of_nat k - Z.of_nat (S j))
              :: own_row k (S (S j)) (List.length l))
        with (own_row k (S j) (S (List.length l))).
      rewrite IH.
      + rewrite <- app_assoc. reflexivity.
      + intros t Ht. apply (Hch (S t)). lia. }
  replace (Z.of_nat k + 1) with (Z.abs (Z.of_nat (S k) - Z.of_nat 0)) by lia.
  rewrite Hgo.
  - reflexivity.
  - intros t Ht. cbn in Ht. subst t. exact Hc.
Qed.

Lemma lev_fold_own (pre suf : list ascii) :
  fold_left
    (fun '(prev_row, i) c1 => (lev_row c1 i (pre ++ suf) prev_row, i + 1))
    suf
    (own_row (List.length pre) 0 (S (List.length (pre ++ suf))),
     Z.of_nat (List.length pre))
  = (own_row (List.length (pre ++ suf)) 0 (S (List.length (pre ++ suf))),
     Z.of_nat (List.length (pre ++ suf))).
Proof.
  revert pre. induction suf as [| c suf IH]; intros pre.
  - rewrite app_nil_r. reflexivity.
  - cbn [fold_left].
    rewrite lev_row_own
      by (rewrite nth_error_app2, Nat.sub_diag by lia; reflexivity).
    replace (Z.of_nat (List.length pre) + 1)
      with (Z.of_nat (List.length (pre ++ [c]))) by (rewrite length_app; cbn; lia).
    replace (S (List.length pre)) with (List.length (pre ++ [c]))
      by (rewrite length_app; cbn; lia).
    replace (pre ++ c :: suf)%list with ((pre ++ [c]) ++ suf)%list
      by (rewrite <- app_assoc; reflexivity).
    apply IH.
Qed.

(** A word is at distance 0 from itself, so [w ~= w] holds for every
    word: [levenshtein_distance] fills its table row by row, and on two
    copies of one word every row holds the differences of the prefix
    lengths, whose last entry is 0 in the last row. *)
Theorem word_vibes_with_itself (B : Builtins) (w : string) :
  levenshtein_distance w w = 0
  /\ vibes_equal B (VWord w) (VWord w) = Ok true.
Proof.
  assert (H : levenshtein_distance w w = 0).
  { unfold levenshtein_distance. rewrite Nat.ltb_irrefl.
    destruct (String.length w =? 0)%nat eqn:E.
    - apply Nat.eqb_eq in E. unfold slen. rewrite E. reflexivity.
    - pose proof (lev_fold_own [] (chars w)) as Hf.
      cbn [app List.length] in Hf.
      change (map Z.of_nat (seq 0 (S (List.length (chars w)))))
        with (map Z.of_nat (seq 0 (S (List.length (chars w))))).
      assert (Hrow0 : map Z.of_nat (seq 0 (S (List.length (chars w))))
                      = own_row 0 0 (S (List.length (chars w)))).
      { unfold own_row. apply map_ext. intros t. lia. }
      rewrite Hrow0.
      change (Z.of_nat 0) with 0 in Hf. rewrite Hf.
      unfold own_row. rewrite seq_S, map_app. cbn [map Nat.add].
      rewrite last_last. lia. }
  split; [exact H |].
  unfold vibes_equal. cbn [type_eq tag SanType_eqb negb]. rewrite H. reflexivity.
Qed.

(** ** Blocks and the error-handling statements *)

Lemma yolo_loop_returns (ex : Statement -> M SanValue) (body : list Statement) :
  (forall stmt s0, In stmt body -> fst (ex stmt s0) <> OutOfFuel) ->
  forall n s, exists n' s', yolo_loop ex body n s = (Normal n', s').
Proof.
  induction body as [| stmt body IH]; intros Hex n s.
  - exists n, s. reflexivity.
  - cbn [yolo_loop]. unfold bind at 1. unfold try_except, bind at 1.
    pose proof (Hex stmt s (or_introl eq_refl)) as Hs.
    destruct (ex stmt s) as [[v | e |] s1]; cbn [fst] in Hs.
    + cbn. apply IH. intros st s0 Hin. apply Hex. right. exact Hin.
    + replace (is_SanityError e || is_Exception e) with true
        by (unfold is_Exception; rewrite orb_true_r; reflexivity).
      cbn. apply IH. intros st s0 Hin. apply Hex. right. exact Hin.
    + contradiction Hs. reflexivity.
Qed.

(** A [yolo] block never raises.  Whatever its statements raise, an
    error, a Python exception, a break or a return signal, the block
    returns Void with the current environment as it was before the
    block. *)
Theorem yolo_never_raises (ex : Statement -> M SanValue)
    (body : list Statement) (s : Interp) :
  (forall stmt s0, In stmt body -> fst (ex stmt s0) <> OutOfFuel) ->
  exists s', _exec_yolo ex body s = (Normal VVoid, s')
             /\ current_env s' = current_env s.
Proof.
  intros Hex.
  cut (returns (_exec_yolo ex body) s
         (fun v s' => v = VVoid /\ current_env s' = current_env s)).
  { intros (v & s' & H & -> & Hc). exists s'. split; assumption. }
  unfold _exec_yolo. step. step. step.
  unfold new_scope, _new_scope_id. step.
  eapply returns_eq; [reflexivity |]. cbv beta.
  eapply returns_eq; [reflexivity |]. cbv beta.
  repeat step.
  match goal with |- returns (yolo_loop ex body 0) ?s1 _ =>
    destruct (yolo_loop_returns ex body Hex 0 s1) as (n' & s2 & Hl) end.
  eapply returns_eq; [exact Hl |]. cbv beta.
  repeat step. apply returns_when.
  - intros _. repeat step.
    eapply returns_weaken.
    + apply returns_mfor with (I := fun s' => current_env s' = current_env s).
      * reflexivity.
      * intros r s0 _ Hc. repeat step. exact Hc.
    + cbv beta. intros _ s' Hc. repeat step. split; [reflexivity | exact Hc].
  - intros _. repeat step. split; reflexivity.
Qed.

Lemma yolo_never_raises_witness :
  exists s',
    _exec_yolo (fun _ => raise BreakSignal) [EnoughStatement 1 ["."]]
      (new_interpreter false no_flags half_rng)
    = (Normal VVoid, s')
    /\ current_env s' = current_env (new_interpreter false no_flags half_rng).
Proof.
  apply (yolo_never_raises (fun _ => raise BreakSignal)
           [EnoughStatement 1 ["."]] (new_interpreter false no_flags half_rng)).
  intros stmt s0 _. discriminate.
Defined.

(** [try] catches [SanityError] only.  A try block that returns gives
    its value; anything else it raises, a break or return signal or a
    Python exception, leaves the statement as raised, and neither the cope
    nor the deny block runs for it.  A [SanityError] with neither a cope nor
    a deny block is dropped without a trace: the statement returns Void. *)
Theorem try_catches_only_sanity_errors (ex : Statement -> M SanValue)
    (line : Z) (try_block : list Statement) (cope_param : option string)
    (cope deny : option (list Statement)) (s s' : Interp) :
  (forall v, _exec_block ex try_block s = (Normal v, s') ->
     _exec_try ex line try_block cope_param cope deny s = (Normal v, s'))
  /\ (forall e, _exec_block ex try_block s = (Raise e, s') ->
        is_SanityError e = false ->
        _exec_try ex line try_block cope_param cope deny s = (Raise e, s'))
  /\ (forall msg blame mood,
        _exec_block ex try_block s = (Raise (SanityError msg blame mood), s') ->
        _exec_try ex line try_block cope_param None None s = (Normal VVoid, s')).
Proof.
  unfold _exec_try, try_except. split; [| split].
  - intros v H. rewrite H. reflexivity.
  - intros e H He. rewrite H, He. reflexivity.
  - intros msg blame mood H. rewrite H. reflexivity.
Qed.

(** [try { enough. } cope (e) { }]: the break signal leaves the statement. *)
Lemma try_catches_only_sanity_errors_witness :
  _exec_try (execute plain_builtins 2) 1 [EnoughStatement 1 ["."]] (Some "e")
    (Some []) None (new_interpreter false no_flags half_rng)
  = (Raise BreakSignal,
     snd (_exec_block (execute plain_builtins 2) [EnoughStatement 1 ["."]]
            (new_interpreter false no_flags half_rng))).
Proof.
  apply (proj1 (proj2 (try_catches_only_sanity_errors
                         (execute plain_builtins 2) 1
                         [EnoughStatement 1 ["."]] (Some "e") (Some []) None
                         (new_interpreter false no_flags half_rng)
                         (snd (_exec_block (execute plain_builtins 2)
                                 [EnoughStatement 1 ["."]]
                                 (new_interpreter false no_flags half_rng)))))
           BreakSignal); vm_compute; reflexivity.
Defined.

(** A block gives the current environment back however it ends: when
    its statements return and when one of them raises, the current
    environment after [_exec_block] is the one before it. *)
Theorem block_restores_environment (ex : Statement -> M SanValue)
    (statements : list Statement) (s s' : Interp) (o : Outcome SanValue) :
  _exec_block ex statements s = (o, s') ->
  o <> OutOfFuel ->
  current_env s' = current_env s.
Proof.
  unfold _exec_block, new_scope, _new_scope_id, bind, gets, on_sp, modify,
    set_current_env, modify, try_finally. cbn.
  destruct (run_statements ex statements san_void _) as [[v | e |] s1];
    intros H Ho; inversion H; subst; try reflexivity.
  contradiction Ho. reflexivity.
Qed.

Lemma block_restores_environment_witness :
  current_env
    (snd (_exec_block (execute plain_builtins 2) [CryStatement 1 ["."] "boom"]
            (new_interpreter false no_flags half_rng)))
  = current_env (new_interpreter false no_flags half_rng).
Proof.
  apply (block_restores_environment (execute plain_builtins 2)
           [CryStatement 1 ["."] "boom"]
           (new_interpreter false no_flags half_rng) _
           (fst (_exec_block (execute plain_builtins 2)
                   [CryStatement 1 ["."] "boom"]
                   (new_interpreter false no_flags half_rng)))).
  - apply surjective_pairing.
  - vm_compute. discriminate.
Defined.

(** ** Edge cases of the statement executors *)

(** A counted loop whose count is zero or negative runs no iteration and
    returns Void, with no error; a count that is not a Number raises
    "pls loop count must be a Number" before anything else is read. *)
Theorem pls_without_iterations (ev : Expression -> M SanValue)
    (ex : Statement -> M SanValue) (line : Z) (count_e : Expression)
    (counter_name : option string) (body : list Statement)
    (s s1 : Interp) (count_val : SanValue) :
  ev count_e s = (Normal count_val, s1) ->
  PrimFloat.ltb 0 (ugh_quit_probability s1) = false ->
  (forall n c, count_val = VNumber n -> to_int n = Ok c -> c <= 0 ->
     _exec_pls ev ex line count_e counter_name body s = (Normal VVoid, s1))
  /\ ((forall n, count_val <> VNumber n) ->
      _exec_pls ev ex line count_e counter_name body s
      = (Raise (sanity_error "pls loop count must be a Number"), s1)).
Proof.
  intros Hev Hq. split.
  - intros n c -> Hn Hc. unfold _exec_pls.
    unfold bind at 1. rewrite Hev.
    unfold bind at 1. unfold lift. rewrite Hn.
    cbv [bind gets ret].
    match goal with |- context [PrimFloat.ltb ?x ?y] =>
      replace (PrimFloat.ltb x y) with false by (symmetry; exact Hq) end.
    unfold range.
    match goal with |- context [Z.to_nat ?z] =>
      replace (Z.to_nat z) with 0%nat by lia end.
    reflexivity.
  - intros Hn. unfold _exec_pls. unfold bind at 1. rewrite Hev.
    destruct count_val; try reflexivity.
    contradiction (Hn n). reflexivity.
Qed.

Lemma pls_without_iterations_witness :
  _exec_pls (evaluate plain_builtins 3) (execute plain_builtins 3) 1
    (int_lit (-3)) (Some "i") [CryStatement 1 ["."] "never"]
    (new_interpreter false no_flags half_rng)
  = (Normal VVoid, new_interpreter false no_flags half_rng).
Proof.
  apply (proj1 (pls_without_iterations (evaluate plain_builtins 3)
                  (execute plain_builtins 3) 1 (int_lit (-3)) (Some "i")
                  [CryStatement 1 ["."] "never"]
                  (new_interpreter false no_flags half_rng)
                  (new_interpreter false no_flags half_rng)
                  (VNumber (PInt (-3))) eq_refl eq_refl)
           (PInt (-3)) (-3)); [reflexivity | reflexivity | lia].
Defined.

Lemma env_get_missing (name : string) (s : Interp) :
  resolve (envs s) (current_env s) name = None ->
  env_get name s = (Normal None, s).
Proof.
  intros H. unfold env_get, Vars.get. rewrite H. reflexivity.
Qed.

(** Statements on a name that no scope binds.  [delete] of such a name
    is a no-op that returns Void, with nothing sent to the Afterlife; an
    assignment to it raises "Variable '...' is not defined" without
    evaluating its right-hand side; a séance on it, with an empty Afterlife
    entry, returns Void; in all three no variable changes. *)
Theorem statements_on_unbound_name (B : Builtins)
    (ev : Expression -> M SanValue) (ex : Statement -> M SanValue) (lf : nat)
    (name : string) (s : Interp) :
  resolve (envs s) (current_env s) name = None ->
  _exec_delete name s = (Normal VVoid, s)
  /\ (forall e,
        _exec_assignment B ev ex lf name e s
        = (Raise (sanity_error ("Variable '" ++ name ++ "' is not defined")), s))
  /\ (dget String.eqb (afterlife s) name = None ->
      _eval_seance name s
      = (Normal VVoid, with_sp s (seance_use (sp s)))).
Proof.
  intros H. split; [| split].
  - unfold _exec_delete. unfold bind at 1. rewrite (env_get_missing name s H).
    reflexivity.
  - intros e. unfold _exec_assignment. unfold bind at 1.
    rewrite (env_get_missing name s H). reflexivity.
  - intros Ha. unfold _eval_seance. unfold bind at 1. unfold on_sp, modify.
    unfold bind at 1.
    assert (Hg : env_get name (with_sp s (seance_use (sp s)))
                 = (Normal None, with_sp s (seance_use (sp s))))
      by (apply env_get_missing; exact H).
    rewrite Hg. cbv [bind ret gets]. unfold dget_or.
    change (afterlife (with_sp s (seance_use (sp s)))) with (afterlife s).
    rewrite Ha. reflexivity.
Qed.

Lemma statements_on_unbound_name_witness :
  _exec_delete "ghost_of_x" (new_interpreter false no_flags half_rng)
  = (Normal VVoid, new_interpreter false no_flags half_rng).
Proof.
  apply (statements_on_unbound_name plain_builtins (evaluate plain_builtins 0)
           (execute plain_builtins 0) 0 "ghost_of_x"
           (new_interpreter false no_flags half_rng)).
  reflexivity.
Defined.

(** ** Terminators *)

Lemma terminator_output (B : Builtins) (value : SanValue) (term : string)
    (s : Interp) :
  returns (apply_terminator B value term) s
    (fun _ s' => output s' = (output s ++ debug_lines B value [term])%list).
Proof.
  unfold apply_terminator, debug_lines. cbn [filter].
  rewrite (String.eqb_sym "?" term).
  destruct (String.eqb term ".") eqn:E1.
  { apply String.eqb_eq in E1. subst. cbn. apply returns_ret.
    rewrite app_nil_r. reflexivity. }
  destruct (String.eqb term "..") eqn:E2.
  { apply String.eqb_eq in E2. subst. cbn. apply returns_ret.
    rewrite app_nil_r. reflexivity. }
  destruct (String.eqb term "~") eqn:E3.
  { apply String.eqb_eq in E3. subst. cbn [String.eqb Ascii.eqb Bool.eqb map].
    repeat sstep.
    match goal with |- returns (if ?c then _ else _) _ _ => destruct c end;
      [| apply returns_ret; rewrite app_nil_r; reflexivity].
    repeat sstep. apply returns_mfor; [rewrite app_nil_r; reflexivity |].
    intros x s0 _ Ho. repeat sstep; exact Ho. }
  destruct (String.eqb term "!") eqn:E4.
  { apply String.eqb_eq in E4. subst. cbn [String.eqb Ascii.eqb Bool.eqb map].
    repeat sstep. apply returns_mfor; [rewrite app_nil_r; reflexivity |].
    intros x s0 _ Ho. repeat sstep; exact Ho. }
  destruct (String.eqb term "?") eqn:E5;
    [| apply returns_ret; rewrite app_nil_r; reflexivity].
  cbn [map]. repeat sstep. apply returns_mfor; [reflexivity |].
  intros x s0 _ Ho. repeat sstep; exact Ho.
Qed.

(** The terminators of a statement never raise and never change its
    result: [_apply_terminators] returns the value it is given, and prints
    one line ["[?] value"] for every [?] among them and nothing else. *)
Theorem terminators_keep_the_result (B : Builtins) (value : SanValue)
    (terminators : list string) (s : Interp) :
  exists s',
    _apply_terminators B value terminators s = (Normal value, s')
    /\ output s' = (output s ++ debug_lines B value terminators)%list.
Proof.
  cut (returns (_apply_terminators B value terminators) s
         (fun v s' => v = value
            /\ output s' = (output s ++ debug_lines B value terminators)%list)).
  { intros (v & s' & H & -> & Ho). exists s'. split; assumption. }
  unfold _apply_terminators. apply returns_bind.
  cut (forall l s0,
         returns (mfor l (apply_terminator B value)) s0
           (fun _ s' => output s' = (output s0 ++ debug_lines B value l)%list)).
  { intros H. eapply returns_weaken; [apply H |]. cbv beta.
    intros _ s' Ho. apply returns_ret. split; [reflexivity | exact Ho]. }
  induction l as [| t l IH]; intros s0.
  - apply returns_ret. unfold debug_lines. cbn. rewrite app_nil_r. reflexivity.
  - cbn [mfor]. apply returns_bind.
    eapply returns_weaken; [apply terminator_output |]. cbv beta.
    intros _ s1 H1. eapply returns_weaken; [apply IH |]. cbv beta.
    intros _ s2 H2. rewrite H2, H1. rewrite <- app_assoc. f_equal.
    unfold debug_lines. cbn [filter].
    destruct (String.eqb "?" t); reflexivity.
Qed.

(** ** Function calls: pinned returns and the memoization cache *)

(** Once a function has a pinned return (a [return] with the [..]
    terminator stored one), a call gives that value whatever the arguments
    and the body are, and changes nothing: the call is not even counted.
    Only a [might] function's condition and a [will] stub come first. *)
Theorem pinned_return_short_circuits (B : Builtins)
    (ev : Expression -> M SanValue) (ex : Statement -> M SanValue)
    (name : string) (args : list SanValue) (decl : FunctionDeclNode)
    (closure_env : eref) (s : Interp) (v : SanValue) :
  dget String.eqb (cached_returns s) name = Some v ->
  fd_keyword decl <> "might" ->
  fd_keyword decl <> "will" ->
  _call_function B ev ex name args decl closure_env s = (Normal v, s).
Proof.
  intros Hp Hm Hw. unfold _call_function.
  apply String.eqb_neq in Hm, Hw. rewrite Hm, Hw. cbn [andb].
  cbv [bind ret gets]. rewrite Hp. reflexivity.
Qed.

Lemma pinned_return_short_circuits_witness :
  _call_function plain_builtins (evaluate plain_builtins 0)
    (execute plain_builtins 0) "f" [VNumber (PInt 7)]
    (mkFunctionDecl 1 "does" "f" ["n"] [] None) 0%nat
    (with_cached_returns (new_interpreter false no_flags half_rng)
       [("f", VWord "pinned")])
  = (Normal (VWord "pinned"),
     with_cached_returns (new_interpreter false no_flags half_rng)
       [("f", VWord "pinned")]).
Proof.
  apply (pinned_return_short_circuits plain_builtins (evaluate plain_builtins 0)
           (execute plain_builtins 0) "f" [VNumber (PInt 7)]
           (mkFunctionDecl 1 "does" "f" ["n"] [] None) 0%nat
           (with_cached_returns (new_interpreter false no_flags half_rng)
              [("f", VWord "pinned")])
           (VWord "pinned")); [reflexivity | discriminate | discriminate].
Defined.

Lemma list_eqb_eq (k1 k2 : list string) :
  list_eqb String.eqb k1 k2 = true <-> k1 = k2.
Proof.
  revert k2. induction k1 as [| x k1 IH]; intros [| y k2]; simpl;
    try (split; [discriminate | discriminate]); [tauto |].
  rewrite andb_true_iff, String.eqb_eq, IH.
  split; [intros [-> ->]; reflexivity | intros H; inversion H; tauto].
Qed.

Lemma key_eqb_refl (k : list string) : key_eqb k k = true.
Proof. apply list_eqb_eq. reflexivity. Qed.

Lemma kget_kset_eq {V} (d : list (list string * V)) (k : list string) (v : V) :
  dget key_eqb (dset key_eqb d k v) k = Some v.
Proof.
  induction d as [| [k0 v0] d IH]; simpl.
  - rewrite key_eqb_refl. reflexivity.
  - destruct (key_eqb k k0) eqn:E; simpl; rewrite ?key_eqb_refl, ?E; auto.
Qed.

Lemma kset_length {V} (d : list (list string * V)) (k : list string) (v : V) :
  List.length (dset key_eqb d k v)
  = if dmem key_eqb d k then List.length d else S (List.length d).
Proof.
  unfold dmem. induction d as [| [k0 v0] d IH]; simpl; [reflexivity |].
  destruct (key_eqb k k0) eqn:E; simpl; [reflexivity |].
  rewrite IH. destruct (dget key_eqb d k); reflexivity.
Qed.

Lemma kset_head {V} (d : list (list string * V)) (k k0 : list string)
    (v v0 : V) (rest : list (list string * V)) :
  dset key_eqb d k v = (k0, v0) :: rest ->
  dmem key_eqb d k = false -> d <> [] ->
  dget key_eqb rest k = Some v.
Proof.
  destruct d as [| [k1 v1] d]; [intros _ _ N; contradiction N; reflexivity |].
  intros H Hm _. unfold dmem in Hm. simpl in H, Hm.
  destruct (key_eqb k k1) eqn:E; [discriminate |].
  inversion H; subst. apply kget_kset_eq.
Qed.

(** The memoization cache of a function never grows past 1000 entries,
    and a result just stored is always found again: after [memo_store] the
    arguments' key is bound to the result, and the cache, at most 1000
    entries long before, is at most 1000 entries long after; the caches of
    the other functions are untouched. *)
Theorem memo_store_bounds_the_cache (B : Builtins) (name : string)
    (args : list SanValue) (result : SanValue) (s : Interp) :
  (List.length (dget_or (memo_caches s) name []) <= 1000)%nat ->
  exists s',
    memo_store B name args result s = (Normal tt, s')
    /\ dget key_eqb (dget_or (memo_caches s') name []) (memo_key B args)
       = Some result
    /\ (List.length (dget_or (memo_caches s') name []) <= 1000)%nat
    /\ (forall other, other <> name ->
          dget String.eqb (memo_caches s') other
          = dget String.eqb (memo_caches s) other).
Proof.
  intros Hlen. unfold memo_store. cbv [bind gets].
  set (cache := dget_or (memo_caches s) name []) in *.
  set (cache' := dset key_eqb cache (memo_key B args) result).
  assert (Hl' : List.length cache'
                = if dmem key_eqb cache (memo_key B args)
                  then List.length cache else S (List.length cache))
    by apply kset_length.
  assert (Hother : forall (c : list (list string * SanValue)) other,
             other <> name ->
             dget String.eqb (dset String.eqb (memo_caches s) name c) other
             = dget String.eqb (memo_caches s) other)
    by (intros c other N; apply dget_dset_other; exact N).
  destruct (1000 <? Z.of_nat (List.length cache')) eqn:Ebig.
  - apply Z.ltb_lt in Ebig.
    destruct (dmem key_eqb cache (memo_key B args)) eqn:Em; [lia |].
    destruct cache' as [| [oldest v0] rest] eqn:Ec; [simpl in Ebig; lia |].
    unfold _send_to_afterlife, modify. eexists. split; [reflexivity |].
    cbn [memo_caches with_memo_caches with_afterlife]. unfold dget_or.
    rewrite dget_dset_eq.
    split; [| split].
    + apply (kset_head cache (memo_key B args) oldest result v0 rest Ec Em).
      intros N. rewrite N in Hl'. simpl in Hl'. simpl in Ebig. lia.
    + simpl in Hl'. lia.
    + intros other N. apply Hother. exact N.
  - apply Z.ltb_ge in Ebig. unfold modify. eexists. split; [reflexivity |].
    cbn [memo_caches with_memo_caches]. unfold dget_or.
    rewrite dget_dset_eq.
    split; [apply kget_kset_eq | split; [lia |]].
    intros other N. apply Hother. exact N.
Qed.

Lemma memo_store_bounds_the_cache_witness :
  exists s',
    memo_store plain_builtins "f" [VNumber (PInt 1)] (VNumber (PInt 2))
      (new_interpreter false no_flags half_rng) = (Normal tt, s')
    /\ dget key_eqb (dget_or (memo_caches s') "f" [])
         (memo_key plain_builtins [VNumber (PInt 1)])
       = Some (VNumber (PInt 2))
    /\ (List.length (dget_or (memo_caches s') "f" []) <= 1000)%nat
    /\ (forall other, other <> "f" ->
          dget String.eqb (memo_caches s') other
          = dget String.eqb
              (memo_caches (new_interpreter false no_flags half_rng)) other).
Proof.
  apply (memo_store_bounds_the_cache plain_builtins "f" [VNumber (PInt 1)]
           (VNumber (PInt 2)) (new_interpreter false no_flags half_rng)).
  cbn. lia.
Defined.

(** ** The Afterlife *)

Lemma seance_step (name : string) (s : Interp)
    (older : list (SanValue * Mood * Z * Z))
    (value : SanValue) (mood : Mood) (scars count : Z) :
  no_live_ghost name s ->
  dget String.eqb (afterlife s) name
  = Some (older ++ [(value, mood, scars, count)])%list ->
  exists s',
    _eval_seance name s
    = (Normal (if (3 <=? count) || Mood_eqb mood AFRAID then VVoid else value),
       s')
    /\ no_live_ghost name s'
    /\ dget String.eqb (afterlife s') name
       = Some (if 3 <=? count then older
               else older ++ [(value, mood, scars, count + 1)])%list.
Proof.
  intros Hg Ha.
  cut (returns (_eval_seance name) s
         (fun v s' =>
            v = (if (3 <=? count) || Mood_eqb mood AFRAID then VVoid else value)
            /\ no_live_ghost name s'
            /\ dget String.eqb (afterlife s') name
               = Some (if 3 <=? count then older
                       else older ++ [(value, mood, scars, count + 1)])%list)).
  { intros (v & s' & H & -> & H1 & H2). exists s'. repeat split; assumption. }
  unfold _eval_seance. steps.
  change (resolve (envs (with_sp s (seance_use (sp s))))
            (current_env (with_sp s (seance_use (sp s)))) name)
    with (resolve (envs s) (current_env s) name).
  assert (Hkeep : forall s', same_scopes s s' -> vars s' = vars s ->
                             no_live_ghost name s').
  { intros s' Hs Hv e r Hr. rewrite (same_scopes_resolve s s' name Hs) in Hr.
    unfold var_at. rewrite Hv. apply (Hg e r Hr). }
  assert (Hrest :
    forall s1, same_scopes s s1 -> vars s1 = vars s -> afterlife s1 = afterlife s ->
      returns
        (entries <- gets (fun s0 => dget_or (afterlife s0) name []) ;;
         match rev entries with
         | [] => ret san_void
         | (value0, mood0, scars0, count0) :: older0 =>
             if 3 <=? count0 then
               modify (fun s0 =>
                 with_afterlife s0
                   (dset String.eqb (afterlife s0) name (rev older0))) ;;;
               ret san_void
             else
               modify (fun s0 =>
                 with_afterlife s0
                   (dset String.eqb (afterlife s0) name
                      (rev older0 ++ [(value0, mood0, scars0, count0 + 1)])%list)) ;;;
               if Mood_eqb mood0 AFRAID then ret san_void else ret (copy value0)
         end) s1
        (fun v s' =>
           v = (if (3 <=? count) || Mood_eqb mood AFRAID then VVoid else value)
           /\ no_live_ghost name s'
           /\ dget String.eqb (afterlife s') name
              = Some (if 3 <=? count then older
                      else older ++ [(value, mood, scars, count + 1)])%list)).
  { intros s1 Hs Hv Haf. steps. unfold dget_or. rewrite Haf, Ha.
    rewrite rev_app_distr. cbn [rev app]. rewrite rev_involutive.
    destruct (3 <=? count) eqn:E3; cbn [orb].
    - steps. split; [reflexivity | split].
      + apply Hkeep; [exact Hs | exact Hv].
      + cbn [afterlife with_afterlife]. apply dget_dset_eq.
    - steps. destruct (Mood_eqb mood AFRAID); steps;
        (split; [try reflexivity; apply copy_id | split;
          [apply Hkeep; [exact Hs | exact Hv]
          | cbn [afterlife with_afterlife]; apply dget_dset_eq]]). }
  destruct (resolve (envs s) (current_env s) name) as [[e r] |] eqn:Hr;
    cbn [option_map snd].
  - steps.
    change (var_at (with_envs (with_sp s (seance_use (sp s))) envs') r)
      with (var_at s r).
    pose proof (Hg e r Hr) as Hng. apply String.eqb_neq in Hng.
    rewrite Hng. apply Hrest; [| reflexivity | reflexivity].
    split; [assumption | reflexivity].
  - steps. apply Hrest; [| reflexivity | reflexivity].
    split; [assumption | reflexivity].
Qed.

(** A value in the Afterlife can be called back three times.  With no
    live ghost of that name, and an entry that was not Afraid when it died
    and has not been called yet, three séances in a row each return the
    value, the fourth returns Void and removes the entry. *)
Theorem seance_answers_three_times (name : string) (s : Interp)
    (older : list (SanValue * Mood * Z * Z))
    (value : SanValue) (mood : Mood) (scars : Z) :
  no_live_ghost name s ->
  dget String.eqb (afterlife s) name
  = Some (older ++ [(value, mood, scars, 0)])%list ->
  mood <> AFRAID ->
  fst (seance_times 4 name s)
  = [Normal value; Normal value; Normal value; Normal VVoid]
  /\ dget String.eqb (afterlife (snd (seance_times 4 name s))) name = Some older.
Proof.
  intros Hg Ha Hm. apply Mood_eqb_neq in Hm.
  destruct (seance_step name s older value mood scars 0 Hg Ha)
    as (s1 & E1 & Hg1 & Ha1).
  destruct (seance_step name s1 older value mood scars 1 Hg1 Ha1)
    as (s2 & E2 & Hg2 & Ha2).
  destruct (seance_step name s2 older value mood scars 2 Hg2 Ha2)
    as (s3 & E3 & Hg3 & Ha3).
  destruct (seance_step name s3 older value mood scars 3 Hg3 Ha3)
    as (s4 & E4 & Hg4 & Ha4).
  rewrite Hm in E1, E2, E3.
  change (3 <=? 0) with false in *. change (3 <=? 1) with false in *.
  change (3 <=? 2) with false in *. change (3 <=? 3) with true in *.
  cbn [orb] in E1, E2, E3, E4.
  cbn [seance_times]. rewrite E1, E2, E3, E4. cbn [fst snd].
  split; [reflexivity | exact Ha4].
Qed.

(** After [maybe a = 1. delete a.]: séance gives 1, 1, 1, Void. *)
Lemma seance_answers_three_times_witness :
  fst (seance_times 4 "a"
         (after (declare_a ++ [DeleteStatement 2 ["."] "a"])))
  = [Normal (VNumber (PInt 1)); Normal (VNumber (PInt 1));
     Normal (VNumber (PInt 1)); Normal VVoid].
Proof.
  apply (seance_answers_three_times "a"
           (after (declare_a ++ [DeleteStatement 2 ["."] "a"]))
           [] (VNumber (PInt 1)) NEUTRAL 0).
  - intros e r H. vm_compute in H. inversion H; subst. vm_compute. discriminate.
  - vm_compute. reflexivity.
  - discriminate.
Defined.

(** ** Sets of names: prayers and the dependency graph *)

Lemma smem_sadd (s : sset) (x y : string) :
  smem (sadd s x) y = (String.eqb y x || smem s y).
Proof.
  unfold sadd. destruct (smem s x) eqn:E.
  - destruct (String.eqb y x) eqn:Eq; [| reflexivity].
    apply String.eqb_eq in Eq. subst. rewrite E. reflexivity.
  - unfold smem. rewrite existsb_app. simpl.
    rewrite orb_false_r. apply orb_comm.
Qed.

Lemma smem_sdiscard (s : sset) (x y : string) :
  smem (sdiscard s x) y = (negb (String.eqb y x) && smem s y).
Proof.
  unfold smem, sdiscard. induction s as [| z s IH]; simpl.
  - rewrite andb_false_r. reflexivity.
  - destruct (String.eqb x z) eqn:Exz; simpl.
    + apply String.eqb_eq in Exz. subst z. rewrite IH.
      destruct (String.eqb y x); reflexivity.
    + rewrite IH. destruct (String.eqb y z) eqn:Eyz; simpl.
      * apply String.eqb_eq in Eyz. subst z.
        rewrite String.eqb_sym, Exz. reflexivity.
      * reflexivity.
Qed.

(** The prayers for speed and for safety are never both active.  [pray]
    always returns Void; asking for one while the other is active cancels
    the other, does not record the new one, and costs 5 SP through the
    setter; so if at most one of the two is active before a prayer, at most
    one is active after it. *)
Theorem pray_keeps_speed_and_safety_apart (prayer : string) (s : Interp) :
  speed_or_safety s = true ->
  exists s',
    _exec_pray prayer s = (Normal VVoid, s')
    /\ speed_or_safety s' = true
    /\ (prayer = "speed" -> smem (prayers s) "safety" = true ->
        smem (prayers s') "speed" = false
        /\ smem (prayers s') "safety" = false
        /\ sp s' = set_sp (sp s) (_sp (sp s) - 5)).
Proof.
  unfold speed_or_safety. intros Hinv. apply negb_true_iff in Hinv.
  unfold _exec_pray. cbv [bind gets].
  destruct (String.eqb prayer "speed" && smem (prayers s) "safety") eqn:E1.
  - apply andb_prop in E1. destruct E1 as [Ep Es].
    rewrite Es, andb_true_r in Hinv.
    cbv [on_sp modify ret]. eexists. split; [reflexivity |].
    cbn [prayers with_prayers with_sp sp].
    rewrite !smem_sdiscard, Hinv. cbn. split; [reflexivity |].
    intros _ _. repeat split.
  - destruct (String.eqb prayer "safety" && smem (prayers s) "speed") eqn:E2.
    + apply andb_prop in E2. destruct E2 as [Ep Es].
      rewrite Es in Hinv. cbn [andb] in Hinv.
      cbv [on_sp modify ret]. eexists. split; [reflexivity |].
      cbn [prayers with_prayers with_sp sp].
      rewrite !smem_sdiscard, Hinv. cbn. split; [reflexivity |].
      intros -> Hs. rewrite Hs in Hinv. discriminate.
    + assert (Hres : exists s',
                ((modify (fun s0 => with_prayers s0 (sadd (prayers s0) prayer)) ;;;
                  (if String.eqb prayer "mercy"
                   then on_sp (fun t => with_pray_mercy t true)
                   else if String.eqb prayer "chaos" then on_sp pray_for_chaos
                   else if String.eqb prayer "nothing" then on_sp pray_for_nothing
                   else ret tt) ;;; ret san_void) s = (Normal VVoid, s'))
                /\ prayers s' = sadd (prayers s) prayer).
      { cbv [bind modify on_sp ret].
        destruct (String.eqb prayer "mercy");
          [| destruct (String.eqb prayer "chaos");
             [| destruct (String.eqb prayer "nothing")]];
          eexists; split; reflexivity. }
      destruct Hres as (s' & Hrun & Hp). exists s'. split; [exact Hrun |].
      rewrite Hp, !smem_sadd. split.
      * apply negb_true_iff.
        destruct (String.eqb prayer "speed") eqn:Esp;
          destruct (String.eqb prayer "safety") eqn:Esa;
          cbn [andb] in E1, E2.
        -- apply String.eqb_eq in Esp, Esa. subst. discriminate.
        -- apply String.eqb_eq in Esp. subst prayer. cbn. exact E1.
        -- apply String.eqb_eq in Esa. subst prayer. cbn. rewrite E2. reflexivity.
        -- rewrite (String.eqb_sym "speed" prayer), Esp.
           rewrite (String.eqb_sym "safety" prayer), Esa. cbn. exact Hinv.
      * intros -> Hs. cbn in E1. rewrite Hs in E1. discriminate.
Qed.

Lemma pray_keeps_speed_and_safety_apart_witness :
  exists s',
    _exec_pray "speed"
      (with_prayers (new_interpreter false no_flags half_rng) ["safety"])
    = (Normal VVoid, s')
    /\ speed_or_safety s' = true
    /\ ("speed" = "speed" ->
        smem (prayers (with_prayers (new_interpreter false no_flags half_rng)
                         ["safety"])) "safety" = true ->
        smem (prayers s') "speed" = false
        /\ smem (prayers s') "safety" = false
        /\ sp s' = set_sp (sp (with_prayers
                                 (new_interpreter false no_flags half_rng)
                                 ["safety"]))
                          (_sp (sp (with_prayers
                                      (new_interpreter false no_flags half_rng)
                                      ["safety"])) - 5)).
Proof.
  apply (pray_keeps_speed_and_safety_apart "speed"
           (with_prayers (new_interpreter false no_flags half_rng) ["safety"])).
  reflexivity.
Defined.

Lemma dget_dset_any {V} (d : list (string * V)) (k x : string) (v : V) :
  dget String.eqb (dset String.eqb d k v) x
  = if String.eqb x k then Some v else dget String.eqb d x.
Proof.
  destruct (String.eqb x k) eqn:E.
  - apply String.eqb_eq in E. subst. apply dget_dset_eq.
  - apply dget_dset_other. apply String.eqb_neq. exact E.
Qed.

Lemma smem_set_add (d : list (string * sset)) (a b x y : string) :
  smem (match dget String.eqb (set_add d a b) x with Some e => e | None => [] end) y
  = (String.eqb x a && String.eqb y b
     || smem (match dget String.eqb d x with Some e => e | None => [] end) y).
Proof.
  unfold set_add.
  destruct (dget String.eqb d a) as [e |] eqn:Ea; rewrite dget_dset_any;
    destruct (String.eqb x a) eqn:Ex; cbn [andb orb]; try reflexivity;
    apply String.eqb_eq in Ex; subst x; rewrite Ea.
  - apply smem_sadd.
  - cbn. rewrite orb_false_r. reflexivity.
Qed.

Lemma smem_set_discard (d : list (string * sset)) (a b x y : string) :
  smem (match dget String.eqb (set_discard d a b) x with Some e => e | None => [] end) y
  = (negb (String.eqb x a && String.eqb y b)
     && smem (match dget String.eqb d x with Some e => e | None => [] end) y).
Proof.
  unfold set_discard.
  destruct (dget String.eqb d a) as [e |] eqn:Ea.
  - rewrite dget_dset_any. destruct (String.eqb x a) eqn:Ex; cbn [andb negb].
    + apply String.eqb_eq in Ex. subst x. rewrite Ea. apply smem_sdiscard.
    + reflexivity.
  - destruct (String.eqb x a) eqn:Ex; cbn [andb negb]; [| reflexivity].
    apply String.eqb_eq in Ex. subst x. rewrite Ea. cbn.
    rewrite andb_false_r. reflexivity.
Qed.

(** The dependency graph stays symmetric.  [_add_graph_edge] and
    [_remove_graph_edge] keep every edge in both directions: after adding,
    [a] and [b] are linked both ways; after removing, neither way; and no
    other pair changes. *)
Theorem graph_edges_stay_symmetric (a b : string) (s : Interp) :
  graph_symmetric s ->
  (graph_symmetric (snd (_add_graph_edge a b s))
   /\ linked (snd (_add_graph_edge a b s)) a b = true
   /\ linked (snd (_add_graph_edge a b s)) b a = true)
  /\ (graph_symmetric (snd (_remove_graph_edge a b s))
      /\ linked (snd (_remove_graph_edge a b s)) a b = false
      /\ linked (snd (_remove_graph_edge a b s)) b a = false)
  /\ (forall x y, (x, y) <> (a, b) -> (x, y) <> (b, a) ->
        linked (snd (_add_graph_edge a b s)) x y = linked s x y
        /\ linked (snd (_remove_graph_edge a b s)) x y = linked s x y).
Proof.
  intros Hsym.
  assert (Hadd : forall x y,
    linked (snd (_add_graph_edge a b s)) x y
    = (String.eqb x b && String.eqb y a
       || (String.eqb x a && String.eqb y b || linked s x y))).
  { intros x y. unfold linked, edges_of, _add_graph_edge, modify.
    cbn [snd graph_edges with_graph_edges]. rewrite !smem_set_add. reflexivity. }
  assert (Hrem : forall x y,
    linked (snd (_remove_graph_edge a b s)) x y
    = (negb (String.eqb x b && String.eqb y a)
       && (negb (String.eqb x a && String.eqb y b) && linked s x y))).
  { intros x y. unfold linked, edges_of, _remove_graph_edge, modify.
    cbn [snd graph_edges with_graph_edges]. rewrite !smem_set_discard.
    reflexivity. }
  split; [| split].
  - split; [| split].
    + intros x y. rewrite !Hadd, (Hsym x y).
      destruct (String.eqb x a), (String.eqb y b), (String.eqb x b),
        (String.eqb y a), (linked s y x); reflexivity.
    + rewrite Hadd, !String.eqb_refl. cbn. apply orb_true_r.
    + rewrite Hadd, !String.eqb_refl. reflexivity.
  - split; [| split].
    + intros x y. rewrite !Hrem, (Hsym x y).
      destruct (String.eqb x a), (String.eqb y b), (String.eqb x b),
        (String.eqb y a), (linked s y x); reflexivity.
    + rewrite Hrem, !String.eqb_refl. cbn. apply andb_false_r.
    + rewrite Hrem, !String.eqb_refl. reflexivity.
  - intros x y N1 N2. rewrite Hadd, Hrem.
    assert (E1 : String.eqb x a && String.eqb y b = false).
    { apply andb_false_iff.
      destruct (String.eqb x a) eqn:Ex; [| left; reflexivity].
      destruct (String.eqb y b) eqn:Ey; [| right; reflexivity].
      apply String.eqb_eq in Ex, Ey. subst. contradiction N1. reflexivity. }
    assert (E2 : String.eqb x b && String.eqb y a = false).
    { apply andb_false_iff.
      destruct (String.eqb x b) eqn:Ex; [| left; reflexivity].
      destruct (String.eqb y a) eqn:Ey; [| right; reflexivity].
      apply String.eqb_eq in Ex, Ey. subst. contradiction N2. reflexivity. }
    rewrite E1, E2. split; reflexivity.
Qed.

Lemma graph_edges_stay_symmetric_witness :
  graph_symmetric
    (snd (_add_graph_edge "a" "b" (new_interpreter false no_flags half_rng)))
  /\ linked (snd (_add_graph_edge "a" "b"
                    (new_interpreter false no_flags half_rng))) "a" "b" = true
  /\ linked (snd (_add_graph_edge "a" "b"
                    (new_interpreter false no_flags half_rng))) "b" "a" = true.
Proof.
  apply (graph_edges_stay_symmetric "a" "b"
           (new_interpreter false no_flags half_rng)).
  intros x y. reflexivity.
Defined.

(** ** Bans, blame and arithmetic errors *)

(** A ban is permanent and is enforced at the next declaration.  [no]
    returns Void, adds its feature to the banned set and removes none, and
    touches no variable; from then on a [ghost] declaration under
    [no ghosts], and a [dream] declaration under [no time], raise before
    anything is evaluated or charged. *)
Theorem ban_is_enforced_on_declarations (B : Builtins)
    (ev : Expression -> M SanValue) (ex : Statement -> M SanValue) (lf : nat)
    (feature : string) (s : Interp) :
  exists s1,
    _exec_no feature s = (Normal VVoid, s1)
    /\ smem (banned s1) feature = true
    /\ (forall f, smem (banned s) f = true -> smem (banned s1) f = true)
    /\ vars s1 = vars s
    /\ (feature = "ghosts" ->
        forall line name node,
          _exec_var_decl B ev ex lf line "ghost" name node s1
          = (Raise (sanity_error "ghosts are banned (no ghosts)"), s1))
    /\ (feature = "time" ->
        forall line name node,
          _exec_var_decl B ev ex lf line "dream" name node s1
          = (Raise (sanity_error "dream variables are banned (no time)"), s1)).
Proof.
  assert (Hrun : exists s1,
            _exec_no feature s = (Normal VVoid, s1)
            /\ banned s1 = sadd (banned s) feature /\ vars s1 = vars s).
  { unfold _exec_no. cbv [bind modify gets when emit on_sp ret].
    cbn [banned with_banned].
    destruct (smem (sadd (banned s) feature) "feelings"
              && smem (sadd (banned s) feature) "gambling");
      eexists; repeat split. }
  destruct Hrun as (s1 & Hrun & Hb & Hv). exists s1.
  assert (Hin : smem (banned s1) feature = true)
    by (rewrite Hb, smem_sadd, String.eqb_refl; reflexivity).
  split; [exact Hrun | split; [exact Hin | split; [| split; [exact Hv | split]]]].
  - intros f Hf. rewrite Hb, smem_sadd, Hf. apply orb_true_r.
  - intros -> line name node. apply redeclare_banned.
    unfold decl_banned. rewrite Hin. reflexivity.
  - intros -> line name node. apply redeclare_banned.
    unfold decl_banned. rewrite Hin.
    destruct (smem (banned s1) "ghosts"); reflexivity.
Qed.

(** [blame] always raises, with the reason as message and the target as
    the blamed name.  When the target is a variable it loses 20 trust, never
    going below 0, and is left Afraid, also when its trust is now under 50;
    its value is untouched. *)
Theorem blame_always_raises (target reason : string) (s : Interp) :
  exists s',
    _exec_blame target reason s = (Raise (SanityError reason target "Neutral"), s')
    /\ forall e r,
         resolve (envs s) (current_env s) target = Some (e, r) ->
         (r < List.length (vars s))%nat ->
         var_trust (var_at s' r) = Z.max 0 (var_trust (var_at s r) - 20)
         /\ var_mood (var_at s' r) = AFRAID
         /\ var_value (var_at s' r) = var_value (var_at s r).
Proof.
  unfold _exec_blame.
  destruct (env_get_step target s) as (envs' & Hg & Hsk).
  unfold bind at 1. unfold bind at 1. rewrite Hg.
  destruct (resolve (envs s) (current_env s) target) as [[e0 r0] |] eqn:Hr;
    cbn [option_map snd].
  - cbv [bind gets upd modify _write_blame raise].
    eexists. split; [reflexivity |].
    intros e r H Hlt. inversion H; subst e0 r0.
    destruct (lose_trust_once (var_at s r) 20) as (Ht & _ & _ & Hv).
    assert (Hat : forall s1,
              vars s1 = lupd (vars s) r
                          (set_mood_set_at (set_mood (lose_trust (var_at s r) 20) AFRAID)
                             (stmt_counter s)) ->
              var_at s1 r
              = set_mood_set_at (set_mood (lose_trust (var_at s r) 20) AFRAID)
                  (stmt_counter s)).
    { intros s1 Hs1. unfold var_at at 1. rewrite Hs1, nth_lupd, Nat.eqb_refl.
      apply Nat.ltb_lt in Hlt. rewrite Hlt. reflexivity. }
    match goal with |- context [var_at ?s1 r] =>
      lazymatch s1 with
      | s => fail
      | _ => rewrite (Hat s1)
      end
    end.
    + cbn [var_trust var_mood var_value set_mood set_mood_set_at].
      repeat split; assumption.
    + destruct (dget String.eqb (chapter_trust (with_vars (with_envs s envs') _)) target);
        destruct (blame_path _); reflexivity.
  - cbv [bind ret modify _write_blame raise].
    eexists. split; [reflexivity |]. intros e r H. discriminate H.
Qed.



(** An assignment to a [sure] or a [ghost] variable is refused before its
    right-hand side is evaluated: it raises the error of that keyword and
    leaves every variable as it was. *)
Theorem assignment_refused_by_keyword (B : Builtins)
    (ev : Expression -> M SanValue) (ex : Statement -> M SanValue) (lf : nat)
    (name : string) (e : Expression) (s : Interp) (a : eref) (r : vref) :
  resolve (envs s) (current_env s) name = Some (a, r) ->
  (var_keyword (var_at s r) = "sure" ->
   raises (_exec_assignment B ev ex lf name e) s
     (sanity_error ("Cannot reassign 'sure' variable '" ++ name
                    ++ "'. Use override (redeclare with sure)."))
     (fun s' => vars s' = vars s /\ same_scopes s s'))
  /\ (var_keyword (var_at s r) = "ghost" ->
      raises (_exec_assignment B ev ex lf name e) s
        (sanity_error ("Cannot assign to ghost variable '" ++ name ++ "'"))
        (fun s' => vars s' = vars s /\ same_scopes s s')).
Proof.
  intros Hres.
  destruct (env_get_step name s) as (envs' & Hg & Hsk).
  rewrite Hres in Hg. cbn [option_map snd] in Hg.
  split; intros Hkw; unfold _exec_assignment;
    (eexists; split;
     [ unfold bind at 1; rewrite Hg; cbv [bind rd gets];
       change (var_at (with_envs s envs') r) with (var_at s r);
       rewrite Hkw; reflexivity
     | split; [reflexivity | split; [exact Hsk | reflexivity]] ]).
Qed.

Lemma assignment_refused_by_keyword_witness :
  raises (_exec_assignment plain_builtins (evaluate plain_builtins 0)
            (execute plain_builtins 0) 0 "y" (int_lit 1))
    (after swear_envy)
    (sanity_error "Cannot reassign 'sure' variable 'y'. Use override (redeclare with sure).")
    (fun s' => vars s' = vars (after swear_envy)
               /\ same_scopes (after swear_envy) s').
Proof.
  apply (proj1 (assignment_refused_by_keyword plain_builtins
                  (evaluate plain_builtins 0) (execute plain_builtins 0) 0
                  "y" (int_lit 1) (after swear_envy) 0%nat 1%nat
                  ltac:(vm_compute; reflexivity))).
  vm_compute. reflexivity.
Defined.

(** ** Relationships *)

Lemma smem_In (l : sset) (x : string) : smem l x = true -> In x l.
Proof.
  unfold smem. intros H. apply existsb_exists in H.
  destruct H as (y & Hy & E). apply String.eqb_eq in E. subst. exact Hy.
Qed.

Lemma hates_loop_raises (B : Builtins) (name other : string) (v : SanValue)
    (s : Interp) (e : eref) (h : vref) :
  resolve (envs s) (current_env s) other = Some (e, h) ->
  value_eq B (var_value (var_at s h)) v = true ->
  forall (l : list string) (s0 : Interp),
    same_scopes s s0 -> vars s0 = vars s -> In other l ->
    exists msg s',
      mfor l (fun hated_name =>
        oh <- env_get hated_name ;;
        match oh with
        | Some h0 =>
            hated_var <- rd h0 ;;
            if value_eq B (var_value hated_var) v then
              raise (sanity_error
                       ("'" ++ name ++ "' hates '" ++ hated_name
                        ++ "' — cannot hold the same value ("
                        ++ value_str B v ++ ")"))
            else ret tt
        | None => ret tt
        end) s0 = (Raise (sanity_error msg), s')
      /\ vars s' = vars s.
Proof.
  intros Hres Heq. induction l as [| t l IH]; intros s0 Hsc Hv Hin; [contradiction |].
  cbn [mfor]. unfold bind at 1. unfold bind at 1.
  destruct (env_get_step t s0) as (envs' & Hg & Hsk). rewrite Hg.
  assert (Hsc' : same_scopes s (with_envs s0 envs')).
  { destruct Hsc as [H1 H2]. split; [| exact H2].
    cbn [envs with_envs]. rewrite Hsk. exact H1. }
  assert (Hres0 : resolve (envs s0) (current_env s0) other = Some (e, h))
    by (rewrite (same_scopes_resolve s s0 other Hsc); exact Hres).
  destruct (String.eqb t other) eqn:Et.
  - apply String.eqb_eq in Et. subst t. rewrite Hres0. cbn [option_map snd].
    cbv [bind rd gets]. unfold var_at at 1. cbn [vars with_envs]. rewrite Hv.
    change (nth h (vars s) dummy_var) with (var_at s h). rewrite Heq.
    eexists. eexists. split; [reflexivity | exact Hv].
  - destruct Hin as [-> | Hin]; [rewrite String.eqb_refl in Et; discriminate |].
    destruct (resolve (envs s0) (current_env s0) t) as [[e0 h0] |];
      cbn [option_map snd].
    + cbv [bind rd gets].
      destruct (value_eq B (var_value (var_at (with_envs s0 envs') h0)) v).
      * eexists. eexists. split; [reflexivity | exact Hv].
      * cbv [ret]. apply IH; [exact Hsc' | exact Hv | exact Hin].
    + cbv [ret]. apply IH; [exact Hsc' | exact Hv | exact Hin].
Qed.

(** [hates] binds both ways.  Once [a hates b] has been evaluated, an
    assignment's hates check refuses, for [a], every value equal to the one
    [b] holds and, for [b], every value equal to the one [a] holds; the two
    variables themselves are not changed by the declaration. *)
Theorem hates_is_enforced_both_ways (B : Builtins) (a b : string)
    (s : Interp) (ea eb : eref) (ra rb : vref) :
  a <> "" -> b <> "" ->
  resolve (envs s) (current_env s) a = Some (ea, ra) ->
  resolve (envs s) (current_env s) b = Some (eb, rb) ->
  exists s1,
    _eval_emotional (VariableAccess a) "hates" (VariableAccess b) s
    = (Normal VYep, s1)
    /\ vars s1 = vars s
    /\ (forall v, value_eq B (var_value (var_at s rb)) v = true ->
          exists msg s2,
            hates_check B a v s1 = (Raise (sanity_error msg), s2))
    /\ (forall v, value_eq B (var_value (var_at s ra)) v = true ->
          exists msg s2,
            hates_check B b v s1 = (Raise (sanity_error msg), s2)).
Proof.
  intros Ha Hb Hra Hrb.
  apply String.eqb_neq in Ha, Hb.
  unfold _eval_emotional. rewrite Ha, Hb. cbn [orb].
  destruct (env_get_step a s) as (envs1 & Hg1 & Hsk1).
  unfold bind at 1. rewrite Hg1, Hra. cbn [option_map snd].
  destruct (env_get_step b (with_envs s envs1)) as (envs2 & Hg2 & Hsk2).
  unfold bind at 1. rewrite Hg2.
  cbn [envs current_env with_envs] in *.
  rewrite (resolve_skel envs1 (envs s)) by exact Hsk1.
  rewrite Hrb. cbn [option_map snd].
  cbn [String.eqb Ascii.eqb Bool.eqb].
  cbv [bind _add_graph_edge on_rel modify ret].
  eexists. split; [reflexivity |].
  match goal with |- vars ?x = _ /\ _ => set (s1 := x) end.
  assert (Hsc : same_scopes s s1).
  { split; [| reflexivity]. subst s1. cbn [envs with_envs with_relationships
      with_graph_edges]. rewrite Hsk2. exact Hsk1. }
  assert (Hv : vars s1 = vars s) by reflexivity.
  assert (Hrel : hates (relationships s1)
                 = set_add (set_add (hates (relationships s)) a b) b a)
    by reflexivity.
  split; [exact Hv | split].
  - intros v Heq. unfold hates_check. unfold bind at 1. unfold gets at 1.
    destruct (hates_loop_raises B a b v s1 eb rb) with
      (l := dget_or (hates (relationships s1)) a []) (s0 := s1)
      as (msg & s2 & Hrun & _).
    + rewrite (same_scopes_resolve s s1 b Hsc). exact Hrb.
    + unfold var_at. rewrite Hv. exact Heq.
    + split; reflexivity.
    + reflexivity.
    + apply smem_In. unfold dget_or. rewrite Hrel, !smem_set_add.
      rewrite !String.eqb_refl. cbn. rewrite orb_true_r. reflexivity.
    + exists msg, s2. exact Hrun.
  - intros v Heq. unfold hates_check. unfold bind at 1. unfold gets at 1.
    destruct (hates_loop_raises B b a v s1 ea ra) with
      (l := dget_or (hates (relationships s1)) b []) (s0 := s1)
      as (msg & s2 & Hrun & _).
    + rewrite (same_scopes_resolve s s1 a Hsc). exact Hra.
    + unfold var_at. rewrite Hv. exact Heq.
    + split; reflexivity.
    + reflexivity.
    + apply smem_In. unfold dget_or. rewrite Hrel, !smem_set_add.
      rewrite !String.eqb_refl. reflexivity.
    + exists msg, s2. exact Hrun.
Qed.

(** With [maybe a = 1. maybe b = 42.]: after [a hates b], [a] may not take
    42 and [b] may not take 1. *)
Lemma hates_is_enforced_both_ways_witness :
  exists s1,
    _eval_emotional (VariableAccess "a") "hates" (VariableAccess "b")
      (after (firstn 2 a_mirrors_b))
    = (Normal VYep, s1)
    /\ vars s1 = vars (after (firstn 2 a_mirrors_b))
    /\ (forall v,
          value_eq plain_builtins
            (var_value (var_at (after (firstn 2 a_mirrors_b)) 1%nat)) v = true ->
          exists msg s2,
            hates_check plain_builtins "a" v s1 = (Raise (sanity_error msg), s2))
    /\ (forall v,
          value_eq plain_builtins
            (var_value (var_at (after (firstn 2 a_mirrors_b)) 0%nat)) v = true ->
          exists msg s2,
            hates_check plain_builtins "b" v s1 = (Raise (sanity_error msg), s2)).
Proof.
  apply (hates_is_enforced_both_ways plain_builtins "a" "b"
           (after (firstn 2 a_mirrors_b)) 0%nat 0%nat 0%nat 1%nat);
    [ discriminate | discriminate
    | vm_compute; reflexivity | vm_compute; reflexivity ].
Defined.

(** ** Declarations and parameters *)



Lemma bind_params_table (func_env : eref) (line : Z) :
  forall (params : list string) (args : list SanValue) (s : Interp),
    (func_env < List.length (envs s))%nat ->
    exists s' l,
      bind_params func_env line params args s = (Normal tt, s')
      /\ List.length (envs s') = List.length (envs s)
      /\ vars s' = (vars s ++ l)%list
      /\ (forall name, ~ In name params ->
            dget String.eqb (env_variables (env_at s' func_env)) name
            = dget String.eqb (env_variables (env_at s func_env)) name)
      /\ (forall (i : nat) (param : string),
            nth_error params i = Some param ->
            ~ In param (skipn (S i) params) ->
            exists r,
              dget String.eqb (env_variables (env_at s' func_env)) param = Some r
              /\ var_at s' r = new_variable param (nth i args san_void) "sure" line).
Proof.
  induction params as [| p ps IH]; intros args s Hlt.
  - exists s, []. split; [reflexivity |]. split; [reflexivity |].
    split; [rewrite app_nil_r; reflexivity |]. split; [reflexivity |].
    intros [| i] param H; discriminate.
  - set (nv := new_variable p match args with a :: _ => a | [] => san_void end
                 "sure" line).
    set (s1 := with_envs (with_vars s (vars s ++ [nv])%list)
                 (lupd (envs s) func_env
                    (define (env_at s func_env) p (List.length (vars s)) line))).
    assert (Hrun : bind_params func_env line (p :: ps) args s
                   = bind_params func_env line ps (List.tl args) s1).
    { cbn [bind_params]. cbv [bind alloc_var env_define modify].
      fold nv. unfold s1. f_equal.
      unfold var_at, env_at. cbn [vars envs with_vars with_envs].
      rewrite app_nth2 by lia. rewrite Nat.sub_diag. reflexivity. }
    assert (Hlt1 : (func_env < List.length (envs s1))%nat).
    { unfold s1. cbn [envs with_envs]. rewrite length_lupd. exact Hlt. }
    destruct (IH (List.tl args) s1 Hlt1) as (s' & l & Hb & Hl & Hv & Hk & Hn).
    assert (Hat : env_variables (env_at s1 func_env)
                  = dset String.eqb (env_variables (env_at s func_env)) p
                      (List.length (vars s))).
    { unfold s1, env_at. cbn [envs with_envs with_vars].
      rewrite nth_lupd, Nat.eqb_refl.
      replace (func_env <? List.length (envs s))%nat with true
        by (symmetry; apply Nat.ltb_lt; exact Hlt).
      reflexivity. }
    exists s', (nv :: l). split; [rewrite Hrun; exact Hb |].
    split; [rewrite Hl; unfold s1; cbn [envs with_envs]; apply length_lupd |].
    split; [rewrite Hv; unfold s1; cbn [vars with_vars with_envs];
            rewrite <- app_assoc; reflexivity |].
    split.
    + intros name Hni. rewrite Hk by (intros Hin; apply Hni; right; exact Hin).
      rewrite Hat. apply dget_dset_other. intros ->. apply Hni. left. reflexivity.
    + intros [| i] param Hp Hni.
      * cbn in Hp. injection Hp as <-. cbn [skipn] in Hni.
        exists (List.length (vars s)). split.
        -- rewrite Hk by exact Hni. rewrite Hat. apply dget_dset_eq.
        -- unfold var_at. rewrite Hv. unfold s1. cbn [vars with_vars with_envs].
           rewrite <- app_assoc. rewrite app_nth2 by lia. rewrite Nat.sub_diag.
           cbn [app nth]. unfold nv. destruct args; reflexivity.
      * cbn [nth_error] in Hp. cbn [skipn] in Hni.
        destruct (Hn i param Hp Hni) as (r & Hd & Hr).
        exists r. split; [exact Hd |]. rewrite Hr.
        destruct args as [| a args]; [destruct i |]; reflexivity.
Qed.

(** Binding the parameters of a call never fails on arity.  In the
    function scope the i-th parameter is a fresh [sure] variable holding the
    i-th argument, or Void when the call passes fewer arguments; surplus
    arguments are dropped; of a repeated parameter name the last position
    wins; and the parameter hides anything of that name that the scope
    held before. *)
Theorem parameters_default_to_void (func_env : eref) (line : Z)
    (params : list string) (args : list SanValue) (s : Interp) :
  (func_env < List.length (envs s))%nat ->
  exists s',
    bind_params func_env line params args s = (Normal tt, s')
    /\ forall (i : nat) (param : string),
         nth_error params i = Some param ->
         ~ In param (skipn (S i) params) ->
         exists r,
           resolve (envs s') func_env param = Some (func_env, r)
           /\ var_at s' r = new_variable param (nth i args san_void) "sure" line.
Proof.
  intros Hlt.
  destruct (bind_params_table func_env line params args s Hlt)
    as (s' & l & Hb & Hl & _ & _ & Hn).
  exists s'. split; [exact Hb |].
  intros i param Hp Hni. destruct (Hn i param Hp Hni) as (r & Hd & Hr).
  exists r. split; [| exact Hr].
  unfold resolve. rewrite Hl.
  destruct (List.length (envs s)) as [| n] eqn:El; [lia |].
  cbn [resolve_from].
  assert (He : nth_error (envs s') func_env = Some (env_at s' func_env)).
  { unfold env_at. apply nth_error_nth'. rewrite Hl. lia. }
  rewrite He, Hd. reflexivity.
Qed.

Lemma parameters_default_to_void_witness :
  exists s' r,
    bind_params 0%nat 3 ["x"; "y"] [VNumber (PInt 1)] (after declare_a)
    = (Normal tt, s')
    /\ resolve (envs s') 0%nat "y" = Some (0%nat, r)
    /\ var_value (var_at s' r) = san_void.
Proof.
  destruct (parameters_default_to_void 0%nat 3 ["x"; "y"] [VNumber (PInt 1)]
              (after declare_a)
              ltac:(apply Nat.ltb_lt; vm_compute; reflexivity))
    as (s' & Hb & Hn).
  destruct (Hn 1%nat "y" eq_refl ltac:(cbn; tauto)) as (r & Hr & Hv).
  exists s', r. split; [exact Hb |]. split; [exact Hr |].
  rewrite Hv. reflexivity.
Defined.
